(** * 2024-hello-llm: the lab 7 and lab 8 pipelines

    A shallow embedding of [lab_7_llm/main.py] and [lab_8_sft/main.py]:
    the raw data importer, the raw data preprocessor, the task dataset,
    the inference pipeline and the task evaluator of both laboratory works.

    The code is a thin layer over pandas, torch and the HuggingFace
    libraries.  The pandas operations the code calls are modelled on
    tables of cells; the model, the tokenizer, the dataset hub and the
    metrics are external and appear as section variables. *)

From stdpp Require Import gmap strings list pretty.

Set Default Proof Using "Type".

(** ** Python values and exceptions *)

(** The cells of a table: [None], the float [nan], booleans, integers and
    strings. *)
Inductive value :=
  | VNone
  | VNaN
  | VBool (b : bool)
  | VInt (n : Z)
  | VStr (s : string).

Global Instance value_eq_dec : EqDecision value.
Proof. solve_decision. Defined.

(** The exception classes the code raises or meets; [OtherError] stands
    for any exception class of an external library. *)
Inductive exn :=
  | TypeError (msg : string)
  | ValueError (msg : string)
  | KeyError (key : string)
  | IndexError (msg : string)
  | OtherError (cls msg : string).

Global Instance exn_eq_dec : EqDecision exn.
Proof. solve_decision. Defined.

(** A computation that returns or raises. *)
Inductive res (A : Type) :=
  | Ok (a : A)
  | Raise (e : exn).
Arguments Ok {A} a.
Arguments Raise {A} e.

Global Instance res_ret : MRet res := λ A a, Ok a.
Global Instance res_bind : MBind res := λ A B f m,
  match m with Ok a => f a | Raise e => Raise e end.
Global Instance res_fmap : FMap res := λ A B f m,
  match m with Ok a => Ok (f a) | Raise e => Raise e end.

(** [sequence] of a list comprehension whose body may raise: the first
    exception stops the evaluation. *)
Fixpoint res_mapM {A B} (f : A → res B) (l : list A) : res (list B) :=
  match l with
  | [] => Ok []
  | x :: l' => y ← f x; ys ← res_mapM f l'; Ok (y :: ys)
  end.

(** A computation on a state [S] that returns or raises; the state it
    reached when it raised is kept. *)
Definition ST (S A : Type) : Type := S → res A * S.

Global Instance ST_ret {S} : MRet (ST S) := λ A a σ, (Ok a, σ).
Global Instance ST_bind {S} : MBind (ST S) := λ A B f m σ,
  match m σ with
  | (Ok a, σ') => f a σ'
  | (Raise e, σ') => (Raise e, σ')
  end.

(** A call that may raise and leaves the state alone. *)
Definition lift {S A} (r : res A) : ST S A := λ σ, (r, σ).

(** A loop whose body may raise: the first exception ends it. *)
Fixpoint ST_mapM {S A B} (f : A → ST S B) (l : list A) : ST S (list B) :=
  match l with
  | [] => mret []
  | x :: l' => y ← f x; ys ← ST_mapM f l'; mret (y :: ys)
  end.

(** ** Column names *)

Module ColumnNames.
Inductive t := SOURCE | TARGET | PREDICTION.

(** Modelled from the spec: the enumeration [ColumnNames] of
    [core_utils.llm.raw_data_preprocessor] is not among the sources; the
    specification names the canonical columns source, target and
    prediction.  A member used as a column label stands for its value. *)
Definition value (c : t) : string :=
    match c with
    | SOURCE => "source"
    | TARGET => "target"
    | PREDICTION => "prediction"
    end.
End ColumnNames.

Coercion ColumnNames.value : ColumnNames.t >-> string.

(** ** The pandas operations used by the code *)

Module pd.

Abbreviation row := (list value).

(** A table: the column labels in order and the rows, each with its
    index label. *)
Record DataFrame := mkDataFrame {
    columns : list string;
    rows : list (Z * row)
  }.

Global Instance DataFrame_eq_dec : EqDecision DataFrame.
Proof. solve_decision. Defined.

Definition index (df : DataFrame) : list Z := (rows df).*1.
Definition values (df : DataFrame) : list row := (rows df).*2.

(** [len(df)] *)
Definition len (df : DataFrame) : nat := length (rows df).

(** Every row has one cell per column. *)
Definition rectangular (df : DataFrame) : Prop :=
    Forall (λ r : Z * row, length r.2 = length (columns df)) (rows df).

(** A table as [Dataset.to_pandas()] gives it: a [RangeIndex]. *)
Definition from_rows (cols : list string) (rs : list row) : DataFrame :=
    mkDataFrame cols (imap (λ i r, (Z.of_nat i, r)) rs).

(** [df.rename(columns=mapping)]: labels missing from the mapping are
    kept, keys of the mapping that label no column are ignored. *)
Definition rename_label (mapping : list (string * string)) (c : string) : string :=
    match list_find (λ kv, kv.1 = c) mapping with
    | Some (_, kv) => kv.2
    | None => c
    end.

Definition rename (mapping : list (string * string)) (df : DataFrame) : DataFrame :=
    mkDataFrame (rename_label mapping <$> columns df) (rows df).

(** How [duplicated] and [drop_duplicates] compare cells: by [==] and
    [hash], under which [True] is 1 and [False] is 0, and with the missing
    values [None] and [nan] equal to each other.  [cell_key] sends the
    cells that are equal in this way to one of them. *)
Definition cell_key (v : value) : value :=
    match v with
    | VBool true => VInt 1
    | VBool false => VInt 0
    | VNone => VNaN
    | _ => v
    end.

Definition row_key (r : row) : row := cell_key <$> r.

(** [df.drop_duplicates()]: of the rows whose cells are equal, column by
    column, the first one stays, with its index label. *)
Fixpoint keep_first (seen : list row) (rs : list (Z * row)) : list (Z * row) :=
    match rs with
    | [] => []
    | kr :: rs' =>
        if decide (row_key kr.2 ∈ seen) then keep_first seen rs'
        else kr :: keep_first (row_key kr.2 :: seen) rs'
    end.

Definition drop_duplicates (df : DataFrame) : DataFrame :=
    mkDataFrame (columns df) (keep_first [] (rows df)).

(** [df.duplicated().sum()] *)
Definition duplicated_sum (df : DataFrame) : nat :=
    len df - len (drop_duplicates df).

(** The cells of a row that stand under the columns labelled [label]. *)
Fixpoint select (label : string) (cols : list string) (r : row) : row :=
    match cols, r with
    | c :: cols', v :: r' =>
        if decide (c = label) then v :: select label cols' r'
        else select label cols' r'
    | _, _ => []
    end.

(** [df[label]]: the column labelled [label]; the columns so labelled,
    as a table, when the label occurs more than once. *)
Definition getitem (df : DataFrame) (label : string) : res DataFrame :=
    if decide (label ∈ columns df) then
      Ok (mkDataFrame (filter (λ c, c = label) (columns df))
                      ((λ kr : Z * row, (kr.1, select label (columns df) kr.2)) <$> rows df))
    else Raise (KeyError label).

(** [series.map(f)], cell by cell. *)
Definition map (f : value → value) (s : DataFrame) : DataFrame :=
    mkDataFrame (columns s) ((λ kr : Z * row, (kr.1, f <$> kr.2)) <$> rows s).

(** The missing cells, [None] and [nan]: what [na_action='ignore'] passes
    over and [dropna] looks for. *)
Definition isna (v : value) : bool :=
    match v with VNone | VNaN => true | _ => false end.

(** Writes the cells [new] under the columns labelled [label]. *)
Fixpoint put (label : string) (cols : list string) (r new : row) : row :=
    match cols, r with
    | c :: cols', v :: r' =>
        if decide (c = label) then
          match new with
          | n :: new' => n :: put label cols' r' new'
          | [] => v :: put label cols' r' []
          end
        else v :: put label cols' r' new
    | _, _ => r
    end.

(** [df[label] = s] for a column (or columns) [s] taken from a table of
    the same rows: the cells are written in place; a label that is new
    adds a column at the end. *)
Definition setitem (df : DataFrame) (label : string) (s : DataFrame) : res DataFrame :=
    if decide (label ∈ columns df) then
      if decide (length (filter (λ c, c = label) (columns df)) = length (columns s)) then
        Ok (mkDataFrame (columns df)
              (zip_with (λ kr ks : Z * row, (kr.1, put label (columns df) kr.2 ks.2))
                        (rows df) (rows s)))
      else Raise (ValueError "Columns must be same length as key")
    else
      if decide (length (columns s) = 1) then
        Ok (mkDataFrame (columns df ++ [label])
              (zip_with (λ kr ks : Z * row, (kr.1, kr.2 ++ ks.2)) (rows df) (rows s)))
      else Raise (ValueError ("Cannot set a DataFrame with multiple columns to the "
                              +:+ "single column " +:+ label)).

(** [df.reset_index()]: the old index becomes the first column, named
    [index], or [level_0] when a column [index] exists; the rows are
    numbered anew. *)
Definition reset_index (df : DataFrame) : res DataFrame :=
    let name := if decide ("index" ∈ columns df) then "level_0" else "index" in
    if decide (name ∈ columns df) then
      Raise (ValueError ("cannot insert " +:+ name +:+ ", already exists"))
    else
      Ok (mkDataFrame (name :: columns df)
            (imap (λ i (kr : Z * row), (Z.of_nat i, VInt kr.1 :: kr.2)) (rows df))).

(** The cells of a row that do not stand under a label of [labels]. *)
Fixpoint without (labels : list string) (cols : list string) (r : row) : row :=
    match cols, r with
    | c :: cols', v :: r' =>
        if decide (c ∈ labels) then without labels cols' r'
        else v :: without labels cols' r'
    | _, _ => []
    end.

(** [repr] of a list of labels that hold no quote or escape:
    ['title', 'date']. *)
Definition repr_labels (labels : list string) : string :=
    "[" +:+ String.concat ", " ((λ l, "'" +:+ l +:+ "'") <$> labels) +:+ "]".

(** [df.drop(labels, axis=1)]: when labels are missing, one [KeyError]
    whose argument is the message that lists all of them. *)
Definition drop (labels : list string) (df : DataFrame) : res DataFrame :=
    match filter (λ l, l ∉ columns df) labels with
    | [] =>
        Ok (mkDataFrame (filter (λ c, c ∉ labels) (columns df))
              ((λ kr : Z * row, (kr.1, without labels (columns df) kr.2)) <$> rows df))
    | missing => Raise (KeyError (repr_labels missing +:+ " not found in axis"))
    end.

(** [df.replace('', np.nan)] *)
Definition replace_empty (df : DataFrame) : DataFrame :=
    map (λ v, if decide (v = VStr "") then VNaN else v) df.

(** [df.dropna()]: the rows without a missing cell. *)
Definition dropna (df : DataFrame) : DataFrame :=
    mkDataFrame (columns df)
      (filter (λ kr : Z * row, forallb (λ v, negb (isna v)) kr.2 = true) (rows df)).

(** A column with its index. *)
Abbreviation Series := (list (Z * value)).

(** [df[label]] where the callers need one column: a label that occurs
    once selects a [Series].  A label that occurs several times selects
    a table; what the libraries do with it in place of a column is not
    modelled further and is an exception here. *)
Definition column (df : DataFrame) (label : string) : res Series :=
    sel ← getitem df label;
    match columns sel with
    | [_] => Ok ((λ kr : Z * row, (kr.1, default VNone (head kr.2))) <$> rows sel)
    | _ => Raise (OtherError "NotImplementedError" "several columns share the label")
    end.

(** [series.iloc[i]] *)
Definition iloc (s : Series) (i : nat) : res value :=
    match s !! i with
    | Some kv => Ok kv.2
    | None => Raise (IndexError "single positional indexer is out-of-bounds")
    end.

(** [pd.DataFrame({label1: series, label2: values})] for two different
    labels: the index is the one of the series, and a list of another
    length is refused. *)
Definition of_series_and_list (label1 : string) (s : Series)
      (label2 : string) (vs : list value) : res DataFrame :=
    if decide (length vs = length s) then
      Ok (mkDataFrame [label1; label2]
            (zip_with (λ (kv : Z * value) v, (kv.1, [kv.2; v])) s vs))
    else Raise (ValueError ("array length " +:+ pretty (length vs)
                            +:+ " does not match index length " +:+ pretty (length s))).

End pd.

(** ** Objects, references and the store

    Tables are mutable objects: [copy] makes a new one, the [inplace=True]
    operations change the one they are called on.  A method runs on the
    store of the tables and on the fields of [self], and what it changed
    before raising stays changed. *)

Abbreviation loc := nat.

Record fields := mkFields {
  _raw_data : loc;
  _data : option loc
}.

Record state := mkState {
  heap : gmap loc pd.DataFrame;
  self : fields
}.

(** A method of the preprocessor. *)
Abbreviation M := (ST state).

(** [self._raw_data] *)
Definition get_raw_data : M loc := λ σ, (Ok (_raw_data (self σ)), σ).

(** [self._data = l] *)
Definition set_data (l : loc) : M unit := λ σ,
  (Ok (), mkState (heap σ) (mkFields (_raw_data (self σ)) (Some l))).

(** The table a reference points to. *)
Definition deref (l : loc) : M pd.DataFrame := λ σ,
  match heap σ !! l with
  | Some df => (Ok df, σ)
  | None => (Raise (OtherError "ReferenceError" "no such object"), σ)
  end.

(** A new object. *)
Definition alloc (df : pd.DataFrame) : M loc := λ σ,
  let l := fresh (dom (heap σ)) in
  (Ok l, mkState (<[l := df]> (heap σ)) (self σ)).

(** [df.copy()] *)
Definition copy (l : loc) : M loc := df ← deref l; alloc df.

(** The object at [l] becomes [df]. *)
Definition update (l : loc) (df : pd.DataFrame) : M unit := λ σ,
  (Ok (), mkState (<[l := df]> (heap σ)) (self σ)).

(** [df.op(..., inplace=True)]: the object at [l] is replaced by the
    result, and stays as it was when [op] raises. *)
Definition inplace (op : pd.DataFrame → res pd.DataFrame) (l : loc) : M unit :=
  df ← deref l;
  df' ← lift (op df);
  update l df'.

(** Modelled from the spec: the decorator [report_time] of
    [core_utils.llm.time_decorator] is not among the sources; failures
    are raised directly, so the decorated method runs as it is and its
    result or exception is passed on. *)
Definition report_time {A} (method : A) : A := method.

(** ** Raw data importer (the same in both labs) *)

Module RawDataImporter.

(** What [Dataset.to_pandas()] returns: a table, or (for a batched
    conversion) an iterator, which is not a table. *)
Inductive pandas_obj :=
    | IsDataFrame (df : pd.DataFrame)
    | NotDataFrame (repr : string).

(** [isinstance(obj, pd.DataFrame)] *)
Definition isinstance_DataFrame (o : pandas_obj) : bool :=
    match o with IsDataFrame _ => true | NotDataFrame _ => false end.

Record t := mk {
    _hf_name : string;
    _raw_data : option pandas_obj
  }.

Section obtain.
(** [load_dataset(name, split=split).to_pandas()], which may raise. *)
Variable load_dataset : string → string → res pandas_obj.

Definition obtain : t → res unit * t :=
      report_time (λ self,
        let split := "train" in
        match load_dataset (_hf_name self) split with
        | Raise e => (Raise e, self)
        | Ok loaded =>
            let self' := mk (_hf_name self) (Some loaded) in
            if negb (isinstance_DataFrame loaded) then
              (Raise (TypeError "Downloaded dataset's type is not pd.DataFrame"), self')
            else (Ok (), self')
        end).
End obtain.

End RawDataImporter.

(** ** Raw data preprocessor *)

(** The dictionary [analyze] returns. *)
Record Analysis := mkAnalysis {
  dataset_number_of_samples : nat;
  dataset_columns : nat;
  dataset_duplicates : nat;
  dataset_empty_rows : nat;
  dataset_sample_min_len : option nat;
  dataset_sample_max_len : option nat
}.

(** [type(x).__name__] of a cell. *)
Definition py_type_name (v : value) : string :=
  match v with
  | VNone => "NoneType"
  | VNaN => "float"
  | VBool _ => "bool"
  | VInt _ => "int"
  | VStr _ => "str"
  end.

(** [len(x)] of a cell; the length of a string is counted in the
    characters of its representation. *)
Definition py_len (v : value) : res nat :=
  match v with
  | VStr s => Ok (String.length s)
  | _ => Raise (TypeError ("object of type '" +:+ py_type_name v +:+ "' has no len()"))
  end.

(** [series.map(len, na_action='ignore')]: a missing cell stays missing. *)
Definition map_len (s : pd.DataFrame) : res (list (option nat)) :=
  res_mapM (λ v, if pd.isna v then Ok None else Some <$> py_len v)
           (concat (pd.values s)).

(** [lens.min()] and [lens.max()] pass over the missing cells and are
    missing themselves when nothing is left. *)
Definition series_min (lens : list (option nat)) : option nat :=
  match omap id lens with
  | [] => None
  | n :: ns => Some (foldr Nat.min n ns)
  end.

Definition series_max (lens : list (option nat)) : option nat :=
  match omap id lens with
  | [] => None
  | n :: ns => Some (foldr Nat.max n ns)
  end.

(** The body of [analyze], with the name of the column that holds the
    samples: [neutral] in lab 7, [article_content] in lab 8. *)
Definition analyze_column (sample_column : string) : M Analysis :=
  raw ← get_raw_data;
  df ← deref raw;
  col ← lift (pd.getitem df sample_column);
  lens ← lift (map_len col);
  let data_no_na := pd.dropna (pd.replace_empty df) in
  mret (mkAnalysis (pd.len df)
                   (length (pd.columns df))
                   (pd.duplicated_sum df)
                   (pd.len df - pd.len data_no_na)
                   (series_min lens)
                   (series_max lens)).

(** ** Batches *)

(** The batches of a sequential [DataLoader]: the items in order, cut
    every [n]; the last batch may be shorter. *)
Fixpoint chunks_upto {A} (fuel n : nat) (l : list A) : list (list A) :=
  match fuel with
  | 0 => []
  | S fuel' =>
      match l with
      | [] => []
      | _ => take n l :: chunks_upto fuel' n (drop n l)
      end
  end.

Definition chunks {A} (n : nat) (l : list A) : list (list A) :=
  chunks_upto (length l) n l.

(** [DataLoader(dataset, batch_size)] over a dataset of [n] items: the
    indices of each batch.  A batch size that is not positive is refused. *)
Definition DataLoader (n : nat) (batch_size : Z) : res (list (list nat)) :=
  if decide (batch_size ≤ 0)%Z then
    Raise (ValueError ("batch_size should be a positive integer value, "
                       +:+ "but got batch_size=" +:+ pretty batch_size))
  else Ok (chunks (Z.to_nat batch_size) (seq 0 n)).

(** The default collate function on items that are one-element tuples:
    the batch is transposed to one column, and the column is collated by
    the type of its first element.  A column that starts with a string is
    handed on as it is; a column that starts with [None] is a
    [TypeError]; a column that starts with a number goes through
    [torch.tensor], given here as [torch_tensor], which returns the
    elements as one tensor or raises. *)
Definition default_collate (torch_tensor : list value → res (list value))
    (items : list (list value)) : res (list (list value)) :=
  match concat items with
  | [] => Raise (IndexError "list index out of range")
  | VStr s :: column => Ok [VStr s :: column]
  | VNone :: _ =>
      Raise (TypeError ("default_collate: batch must contain tensors, numpy arrays, "
                        +:+ "numbers, dicts or lists; found <class 'NoneType'>"))
  | column => tensor ← torch_tensor column; Ok [tensor]
  end.

(** [str(x)] of a cell. *)
Definition py_str (v : value) : string :=
  match v with
  | VNone => "None"
  | VNaN => "nan"
  | VBool true => "True"
  | VBool false => "False"
  | VInt n => pretty n
  | VStr s => s
  end.

(** [sample_batch[0]] *)
Definition first_of {A} (l : list A) : res A :=
  match l with
  | x :: _ => Ok x
  | [] => Raise (IndexError "list index out of range")
  end.

(** A loop that carries an accumulator. *)
Fixpoint ST_foldM {S A B} (f : B → A → ST S B) (acc : B) (l : list A) : ST S B :=
  match l with
  | [] => mret acc
  | x :: l' => acc' ← f acc x; ST_foldM f acc' l'
  end.

Module Lab7.
Module RawDataPreprocessor.

Definition analyze : M Analysis := analyze_column "neutral".

(** [lambda x: 1 if x is True else 0] *)
Definition to_label (x : value) : value :=
      if decide (x = VBool true) then VInt 1 else VInt 0.

Definition transform : M unit :=
      report_time (
        raw ← get_raw_data;
        d ← copy raw;
        set_data d;;
        inplace (λ df, Ok (pd.rename [("neutral", ColumnNames.SOURCE : string);
                                      ("toxic", ColumnNames.TARGET : string)] df)) d;;
        inplace (λ df, Ok (pd.drop_duplicates df)) d;;
        df ← deref d;
        col ← lift (pd.getitem df ColumnNames.TARGET);
        inplace (λ df, pd.setitem df ColumnNames.TARGET (pd.map to_label col)) d;;
        inplace pd.reset_index d).

End RawDataPreprocessor.

Module TaskDataset.

Record t := mk { _data : pd.DataFrame }.

Definition __len__ (self : t) : nat := pd.len (_data self).

(** The item is a one-element tuple. *)
Definition __getitem__ (self : t) (index : nat) : res (list value) :=
      source ← pd.column (_data self) ColumnNames.SOURCE;
      item ← pd.iloc source index;
      Ok [item].

Definition data (self : t) : pd.DataFrame := _data self.

End TaskDataset.

Module LLMPipeline.

Record t := mk {
      _model : option string;
      _dataset : TaskDataset.t;
      _max_length : Z;
      _batch_size : Z;
      _device : string
    }.

Section inference.
(** [torch.tensor] on the column of a batch that starts with a
    number. *)
Variable torch_tensor : list value → res (list value).
(** The tokenizer, the forward pass of the model of the given name
    and [torch.argmax(logits, dim=1)], on the texts of a batch: the
    class of each text, or an exception of the libraries. *)
Variable classify : string → list value → res (list Z).

(** The batches the model has been run on, oldest first. *)
Abbreviation log := (list (list value)).

Definition run_model (model : string) (texts : list value) : ST log (list Z) :=
        λ calls, (classify model texts, calls ++ [texts]).

Definition _infer_batch (self : t) (sample_batch : list (list value))
          : ST log (list string) :=
        match _model self with
        | None => lift (Raise (ValueError "Model is not defined"))
        | Some model =>
            texts ← lift (first_of sample_batch);
            logits ← run_model model texts;
            mret ((λ logit : Z, pretty logit) <$> logits)
        end.

Definition infer_sample (self : t) (sample : list value) : ST log (option string) :=
        report_time (
          match _model self with
          | Some _ =>
              predictions ← _infer_batch self [sample];
              prediction ← lift (first_of predictions);
              mret (Some prediction)
          | None => mret None
          end).

(** One turn of the loop over the data loader: the items of the
    batch are fetched and collated, then inferred. *)
Definition infer_indices (self : t) (indices : list nat) : ST log (list string) :=
        items ← lift (res_mapM (TaskDataset.__getitem__ (_dataset self)) indices);
        batch ← lift (default_collate torch_tensor items);
        _infer_batch self batch.

Definition infer_dataset (self : t) : ST log pd.DataFrame :=
        report_time (
          dataloader ← lift (DataLoader (TaskDataset.__len__ (_dataset self))
                                        (_batch_size self));
          batches ← ST_mapM (infer_indices self) dataloader;
          let preds := concat batches in
          target ← lift (pd.column (TaskDataset.data (_dataset self)) ColumnNames.TARGET);
          lift (pd.of_series_and_list ColumnNames.TARGET target
                                      ColumnNames.PREDICTION (VStr <$> preds))).
End inference.

End LLMPipeline.

Module TaskEvaluator.

Record t := mk {
      data_path : string;
      metrics : list string
    }.

(** The arguments of one [compute] call. *)
Record call := mkCall {
      metric : string;
      predictions : pd.Series;
      references : pd.Series;
      average : string
    }.

Section run.
(** The scores are floats of the metric library. *)
Variable score : Type.
(** [pd.read_csv(path)] *)
Variable read_csv : string → res pd.DataFrame.
(** [load(name)] and the [compute] method of what it returns. *)
Variable Metric : Type.
Variable load : string → res Metric.
Variable compute : Metric → call → res (gmap string score).

(** The [compute] calls made, oldest first. *)
Abbreviation log := (list call).

Definition run_compute (m : Metric) (c : call) : ST log (gmap string score) :=
        λ calls, (compute m c, calls ++ [c]).

(** One turn of the loop over the metrics: the keyword arguments
    are evaluated after [load], and [results.update(result)] lets
    the new entries win. *)
Definition run_metric (target2pred : pd.DataFrame)
          (results : gmap string score) (metric : string)
          : ST log (gmap string score) :=
        m ← lift (load metric);
        predictions ← lift (pd.column target2pred ColumnNames.TARGET);
        references ← lift (pd.column target2pred ColumnNames.PREDICTION);
        result ← run_compute m (mkCall metric predictions references "micro");
        mret (result ∪ results).

(** [metrics] holds the metrics by the names [str(metric)] gives. *)
Definition run (self : t) : ST log (gmap string score) :=
        report_time (
          target2pred ← lift (read_csv (data_path self));
          ST_foldM (run_metric target2pred) ∅ (metrics self)).
End run.

End TaskEvaluator.
End Lab7.

Module Lab8.
Module RawDataPreprocessor.

Definition analyze : M Analysis := analyze_column "article_content".

Definition transform : M unit :=
      report_time (
        raw ← get_raw_data;
        d ← copy raw;
        set_data d;;
        inplace (pd.drop ["title"; "date"; "url"]) d;;
        inplace (λ df, Ok (pd.rename [("article_content", ColumnNames.SOURCE : string);
                                      ("summary", ColumnNames.TARGET : string)] df)) d;;
        inplace pd.reset_index d).

End RawDataPreprocessor.

Module TaskDataset.

Record t := mk { _data : pd.DataFrame }.

Definition __len__ (self : t) : nat := pd.len (_data self).

(** The item is a one-element tuple. *)
Definition __getitem__ (self : t) (index : nat) : res (list value) :=
      source ← pd.column (_data self) ColumnNames.SOURCE;
      item ← pd.iloc source index;
      Ok [VStr (py_str item)].

Definition data (self : t) : pd.DataFrame := _data self.

End TaskDataset.

Module LLMPipeline.

Record t := mk {
      _model : option string;
      _dataset : TaskDataset.t;
      _max_length : Z;
      _batch_size : Z;
      _device : string
    }.

Section inference.
(** [torch.tensor] on the column of a batch that starts with a
    number. *)
Variable torch_tensor : list value → res (list value).
(** The tokenizer, [generate] of the model of the given name and
    [batch_decode], with the maximum length, on the texts of a
    batch: the decoded sequences, or an exception of the libraries. *)
Variable generate : string → Z → list value → res (list string).

(** The batches the model has been run on, oldest first. *)
Abbreviation log := (list (list value)).

Definition run_model (model : string) (max_length : Z) (texts : list value)
          : ST log (list string) :=
        λ calls, (generate model max_length texts, calls ++ [texts]).

Definition _infer_batch (self : t) (sample_batch : list (list value))
          : ST log (list string) :=
        match _model self with
        | None => lift (Raise (ValueError "Model is not defined"))
        | Some model =>
            texts ← lift (first_of sample_batch);
            output_seqs ← run_model model (_max_length self) texts;
            mret output_seqs
        end.

Definition infer_sample (self : t) (sample : list value) : ST log (option string) :=
        report_time (
          match _model self with
          | Some _ =>
              predictions ← _infer_batch self [sample];
              prediction ← lift (first_of predictions);
              mret (Some prediction)
          | None => mret None
          end).

(** One turn of the loop over the data loader: the items of the
    batch are fetched and collated, inferred, and the predictions
    are added to the ones so far. *)
Definition infer_indices (self : t) (preds : list string) (indices : list nat)
          : ST log (list string) :=
        items ← lift (res_mapM (TaskDataset.__getitem__ (_dataset self)) indices);
        batch ← lift (default_collate torch_tensor items);
        pred ← _infer_batch self batch;
        mret (preds ++ pred).

Definition infer_dataset (self : t) : ST log pd.DataFrame :=
        report_time (
          dataloader ← lift (DataLoader (TaskDataset.__len__ (_dataset self))
                                        (_batch_size self));
          preds ← ST_foldM (infer_indices self) [] dataloader;
          target ← lift (pd.column (TaskDataset.data (_dataset self)) ColumnNames.TARGET);
          lift (pd.of_series_and_list ColumnNames.TARGET target
                                      ColumnNames.PREDICTION (VStr <$> preds))).
End inference.

End LLMPipeline.

Module TaskEvaluator.

Record t := mk {
      data_path : string;
      metrics : list string
    }.

(** The arguments of one [compute] call. *)
Record call := mkCall {
      metric : string;
      predictions : pd.Series;
      references : pd.Series
    }.

(** [result[key]] *)
Definition dict_get {V} (d : gmap string V) (key : string) : res V :=
      match d !! key with
      | Some v => Ok v
      | None => Raise (KeyError key)
      end.

Section run.
(** The scores are floats of the metric library. *)
Variable score : Type.
(** [pd.read_csv(path)] *)
Variable read_csv : string → res pd.DataFrame.
(** [load(name, seed=77)] and the [compute] method of what it
    returns. *)
Variable Metric : Type.
Variable load : string → Z → res Metric.
Variable compute : Metric → call → res (gmap string score).
(** [Metrics.ROUGE.value]; the enumeration [Metrics] of
    [core_utils.llm.metrics] is not among the sources. *)
Variable ROUGE : string.

(** The [compute] calls made, oldest first. *)
Abbreviation log := (list call).

Definition run_compute (m : Metric) (c : call) : ST log (gmap string score) :=
        λ calls, (compute m c, calls ++ [c]).

(** One turn of the loop over the metrics. *)
Definition run_metric (target2pred : pd.DataFrame)
          (results : gmap string score) (metric : string)
          : ST log (gmap string score) :=
        m ← lift (load metric 77);
        predictions ← lift (pd.column target2pred ColumnNames.PREDICTION);
        references ← lift (pd.column target2pred ColumnNames.TARGET);
        result ← run_compute m (mkCall metric predictions references);
        v ← lift (if decide (metric = ROUGE) then dict_get result "rougeL"
                  else dict_get result metric);
        mret (<[metric := v]> results).

(** [metrics] holds the metrics by the names [str(metric)] gives. *)
Definition run (self : t) : ST log (gmap string score) :=
        target2pred ← lift (read_csv (data_path self));
        ST_foldM (run_metric target2pred) ∅ (metrics self).
End run.

End TaskEvaluator.
End Lab8.

(** ** Inputs for the examples *)

(** A hub that serves one table under every name. *)
Definition hub_of (o : RawDataImporter.pandas_obj)
    : string → string → res RawDataImporter.pandas_obj :=
  λ _ _, Ok o.

Definition toxicity_table : pd.DataFrame :=
  pd.from_rows ["neutral"; "toxic"]
    [[VStr "a"; VBool true]; [VStr "b"; VBool false]; [VStr "a"; VBool true]].

(** A table of the lab 8 dataset with one article twice. *)
Definition news_table : pd.DataFrame :=
  pd.from_rows ["title"; "date"; "url"; "article_content"; "summary"]
    [[VStr "t"; VStr "d"; VStr "u"; VStr "text"; VStr "short"];
     [VStr "t"; VStr "d"; VStr "u"; VStr "text"; VStr "short"]].

(** The store of a preprocessor that has just been given its raw table. *)
Definition store_of (df : pd.DataFrame) : state :=
  mkState {[ 0 := df ]} (mkFields 0 None).

(** A preprocessed table of lab 7 and a pipeline over it, with batches of
    two; the model puts every text in class 1. *)
Definition toxicity_data : pd.DataFrame :=
  pd.from_rows ["index"; "source"; "target"]
    [[VInt 0; VStr "a"; VInt 1]; [VInt 1; VStr "b"; VInt 0]; [VInt 2; VStr "c"; VInt 1]].

Definition pipeline7 : Lab7.LLMPipeline.t :=
  Lab7.LLMPipeline.mk (Some "bert") (Lab7.TaskDataset.mk toxicity_data) 120 2 "cpu".

Definition always_toxic : string → list value → res (list Z) :=
  λ _ texts, Ok ((λ _, 1%Z) <$> texts).

(** A preprocessed table of lab 8 and a pipeline over it, with batches of
    two; the model gives every text the summary [s]. *)
Definition news_data : pd.DataFrame :=
  pd.from_rows ["index"; "source"; "target"]
    [[VInt 0; VStr "long a"; VStr "a"]; [VInt 1; VStr "long b"; VStr "b"];
     [VInt 2; VStr "long c"; VStr "c"]].

Definition pipeline8 : Lab8.LLMPipeline.t :=
  Lab8.LLMPipeline.mk (Some "t5") (Lab8.TaskDataset.mk news_data) 120 2 "cpu".

Definition always_s : string → Z → list value → res (list string) :=
  λ _ _ texts, Ok ((λ _, "s") <$> texts).

(** A file of predictions: two rows with target 1, the first predicted
    0 and the second 1.  Every path leads to it; a metric is loaded as its
    name and computes no score. *)
Definition predictions_csv : pd.DataFrame :=
  pd.from_rows ["target"; "prediction"] [[VInt 1; VInt 0]; [VInt 1; VInt 1]].

Definition read_predictions : string → res pd.DataFrame := λ _, Ok predictions_csv.

Definition evaluator7 : Lab7.TaskEvaluator.t :=
  Lab7.TaskEvaluator.mk "predictions.csv" ["f1"].

Definition evaluator8 : Lab8.TaskEvaluator.t :=
  Lab8.TaskEvaluator.mk "predictions.csv" ["rouge"].

(** A [torch.tensor] that makes a tensor of every column it is given. *)
Definition any_tensor : list value → res (list value) := λ column, Ok column.

(** Externals that fail: a hub that is offline, a model that runs out of
    memory on the text [c] (lab 7) or [long c] (lab 8), a file that is not
    there, and a metric hub without [bleu]. *)
Definition offline_hub : string → string → res RawDataImporter.pandas_obj :=
  λ _ _, Raise (OtherError "ConnectionError" "offline").

Definition fails_on_c : string → list value → res (list Z) :=
  λ _ texts,
    if decide (VStr "c" ∈ texts) then Raise (OtherError "RuntimeError" "out of memory")
    else Ok ((λ _, 1%Z) <$> texts).

Definition fails_on_long_c : string → Z → list value → res (list string) :=
  λ _ _ texts,
    if decide (VStr "long c" ∈ texts)
    then Raise (OtherError "RuntimeError" "out of memory")
    else Ok ((λ _, "s") <$> texts).

Definition no_file : string → res pd.DataFrame :=
  λ path, Raise (OtherError "FileNotFoundError" path).

Definition load_but_bleu : string → res string :=
  λ name, if decide (name = "bleu") then Raise (OtherError "FileNotFoundError" name)
          else Ok name.

(** A raw table without the column [toxic]. *)
Definition neutral_only : pd.DataFrame := pd.from_rows ["neutral"] [[VStr "a"]].

(** Evaluators with a metric the hub does not have, and a metric that
    computes the score 1. *)
Definition evaluator7_bleu : Lab7.TaskEvaluator.t :=
  Lab7.TaskEvaluator.mk "predictions.csv" ["f1"; "bleu"; "rouge"].

Definition evaluator8_bleu : Lab8.TaskEvaluator.t :=
  Lab8.TaskEvaluator.mk "predictions.csv" ["rouge"; "bleu"].

Definition score_one {C} : string → C → res (gmap string Z) :=
  λ _ _, Ok {[ "rougeL" := 1%Z ]}.

(** ** Readings of the code used in the properties *)

(** What [transform] of lab 7 does to the copy, step by step: the result
    and the table the copy holds in the end. *)
Definition transform7_steps (df : pd.DataFrame) : res unit * pd.DataFrame :=
  let df1 := pd.drop_duplicates
               (pd.rename [("neutral", ColumnNames.SOURCE : string);
                           ("toxic", ColumnNames.TARGET : string)] df) in
  match pd.getitem df1 ColumnNames.TARGET with
  | Raise e => (Raise e, df1)
  | Ok col =>
      match pd.setitem df1 ColumnNames.TARGET
                       (pd.map Lab7.RawDataPreprocessor.to_label col) with
      | Raise e => (Raise e, df1)
      | Ok df2 =>
          match pd.reset_index df2 with
          | Raise e => (Raise e, df2)
          | Ok df3 => (Ok (), df3)
          end
      end
  end.

(** The same for lab 8. *)
Definition transform8_steps (df : pd.DataFrame) : res unit * pd.DataFrame :=
  match pd.drop ["title"; "date"; "url"] df with
  | Raise e => (Raise e, df)
  | Ok df1 =>
      let df2 := pd.rename [("article_content", ColumnNames.SOURCE : string);
                            ("summary", ColumnNames.TARGET : string)] df1 in
      match pd.reset_index df2 with
      | Raise e => (Raise e, df2)
      | Ok df3 => (Ok (), df3)
      end
  end.

(** The mappings the two [transform] rename the columns with. *)
Abbreviation mapping7 :=
  [("neutral", ColumnNames.SOURCE : string); ("toxic", ColumnNames.TARGET : string)].
Abbreviation mapping8 :=
  [("article_content", ColumnNames.SOURCE : string);
   ("summary", ColumnNames.TARGET : string)].

(** The state after a [transform] that found the raw table: the copy is a
    new object, [_data] points to it, and nothing else has changed. *)
Definition after_transform (σ : state) (out : pd.DataFrame) : state :=
  let d := fresh (dom (heap σ)) in
  mkState (<[d := out]> (heap σ)) (mkFields (_raw_data (self σ)) (Some d)).

(** The property [data] of the preprocessor: the table [_data] points to. *)
Definition data_of (σ : state) : option pd.DataFrame :=
  d ← _data (self σ); heap σ !! d.

(** The table lab 7 has after the labels are written. *)
Definition labelled7 (df : pd.DataFrame) : pd.DataFrame :=
  let df1 := pd.drop_duplicates (pd.rename [("neutral", ColumnNames.SOURCE : string);
                           ("toxic", ColumnNames.TARGET : string)] df) in
  pd.mkDataFrame (pd.columns df1)
    ((λ kr : Z * pd.row,
        (kr.1, pd.put ColumnNames.TARGET (pd.columns df1) kr.2
                 (Lab7.RawDataPreprocessor.to_label
                    <$> pd.select ColumnNames.TARGET (pd.columns df1) kr.2)))
       <$> pd.rows df1).

(** The raw table of lab 7 has the columns of its dataset. *)
Definition has_columns7 (df : pd.DataFrame) : Prop :=
  "neutral" ∈ pd.columns df ∧ "toxic" ∈ pd.columns df.

(** The raw table of lab 8 has the columns of its dataset. *)
Definition has_columns8 (df : pd.DataFrame) : Prop :=
  Forall (λ l, l ∈ pd.columns df)
         ["title"; "date"; "url"; "article_content"; "summary"].

(** Both [index] and [level_0] are taken: [reset_index] has no name left
    for the column of the old index. *)
Definition index_names_taken (df : pd.DataFrame) : Prop :=
  "index" ∈ pd.columns df ∧ "level_0" ∈ pd.columns df.

(** The cell a full row has under a label. *)
Definition cell (label : string) (cols : list string) (r : pd.row) : value :=
  default VNone (head (pd.select label cols r)).

(** The predictions of lab 7 for a batch of texts: the classes as
    strings. *)
Definition predicted7 (classify : string → list value → res (list Z))
    (model : string) (texts : list value) (preds : list string) : Prop :=
  ∃ logits, classify model texts = Ok logits
    ∧ preds = (λ logit : Z, pretty logit) <$> logits
    ∧ length logits = length texts.

(** The predictions of lab 8 for a batch of texts: the decoded
    sequences. *)
Definition predicted8 (generate : string → Z → list value → res (list string))
    (model : string) (max_length : Z) (texts : list value) (preds : list string)
    : Prop :=
  generate model max_length texts = Ok preds ∧ length preds = length texts.

(** The table [infer_dataset] builds from the target column and the
    predictions. *)
Definition predictions_table (tgt : pd.Series) (preds : list string) : pd.DataFrame :=
  pd.mkDataFrame [ColumnNames.TARGET : string; ColumnNames.PREDICTION : string]
    (zip_with (λ (kv : Z * value) (p : value), (kv.1, [kv.2; p])) tgt (VStr <$> preds)).

(** The items of the lab 8 dataset: the source cells as strings. *)
Definition items8 (src : pd.Series) : list value :=
  (λ v, VStr (py_str v)) <$> src.*2.

(** A cell that holds a string. *)
Definition is_text (v : value) : Prop :=
  match v with VStr _ => True | _ => False end.

Global Instance is_text_dec (v : value) : Decision (is_text v).
Proof. destruct v; cbn; apply _. Defined.

(** The rows of a table that [reset_index] has given a first column for
    the old index, without the cell of that column. *)
Definition data_rows (out : pd.DataFrame) : list pd.row :=
  drop 1 <$> pd.values out.

(** A cell [analyze] takes for empty: a missing one or the empty
    string. *)
Definition is_empty_cell (v : value) : Prop :=
  match v with VNone | VNaN => True | VStr s => s = "" | _ => False end.

Global Instance is_empty_cell_dec (v : value) : Decision (is_empty_cell v).
Proof. destruct v; cbn; apply _. Defined.

(** A cell that holds a boolean. *)
Definition is_bool (v : value) : Prop :=
  match v with VBool _ => True | _ => False end.

Global Instance is_bool_dec (v : value) : Decision (is_bool v).
Proof. destruct v; cbn; apply _. Defined.

(** The cells of a raw row the lab 7 [transform] relabels: those under
    the columns that are called [target] after the renaming. *)
Definition relabelled7 (df : pd.DataFrame) (r : pd.row) : pd.row :=
  pd.select ColumnNames.TARGET (pd.columns (pd.rename mapping7 df)) r.

(** The lengths of the strings among some cells. *)
Definition string_lengths (cells : list value) : list nat :=
  omap (λ v, match v with VStr s => Some (String.length s) | _ => None end) cells.

(** A cell [len] accepts or [na_action='ignore'] passes over. *)
Definition sized_or_missing (v : value) : Prop :=
  match v with VStr _ | VNone | VNaN => True | _ => False end.

Global Instance sized_or_missing_dec (v : value) : Decision (sized_or_missing v).
Proof. destruct v; cbn; apply _. Defined.

(** Raw tables whose column of the samples holds a number. *)
Definition numbers7 : pd.DataFrame :=
  pd.from_rows ["neutral"; "toxic"]
    [[VStr "a"; VBool true]; [VInt 5; VBool false]; [VBool true; VBool false]].

Definition numbers8 : pd.DataFrame :=
  pd.from_rows ["article_content"; "summary"]
    [[VNone; VStr "short"]; [VBool false; VStr "short"]].

(** Raw tables with rows pandas takes for equal, and with empty cells. *)
Definition gaps7 : pd.DataFrame :=
  pd.from_rows ["neutral"; "toxic"]
    [[VStr "a"; VBool true]; [VStr "a"; VInt 1]; [VStr "a"; VBool true];
     [VStr ""; VNone]; [VStr ""; VNaN]].

Definition gaps8 : pd.DataFrame :=
  pd.from_rows ["article_content"; "summary"]
    [[VStr "text"; VNone]; [VStr "text"; VNaN]; [VStr "other"; VStr "short"]].

(** A raw table of lab 8 that has, of the three columns [transform]
    drops, only [date]. *)
Definition dated_table : pd.DataFrame :=
  pd.from_rows ["date"; "article_content"; "summary"]
    [[VStr "d"; VStr "text"; VStr "short"]].

(** A raw table of lab 8 that has a column [index]. *)
Definition news_index : pd.DataFrame :=
  pd.from_rows ["index"; "title"; "date"; "url"; "article_content"; "summary"]
    [[VInt 7; VStr "t"; VStr "d"; VStr "u"; VStr "text"; VStr "short"]].

(** A preprocessed table whose first source cell is missing. *)
Definition missing_data : pd.DataFrame :=
  pd.from_rows ["source"; "target"] [[VNone; VInt 1]; [VStr "b"; VInt 0]].

(** A raw table of lab 7 with a column more than the dataset needs. *)
Definition rated_table : pd.DataFrame :=
  pd.from_rows ["rating"; "neutral"; "toxic"]
    [[VInt 3; VStr "a"; VBool true]; [VInt 4; VStr "b"; VBool false]].

(** The pipelines of the two labs over a table, with a batch size. *)
Definition pipeline7_of (data : pd.DataFrame) (batch_size : Z) : Lab7.LLMPipeline.t :=
  Lab7.LLMPipeline.mk (Some "bert") (Lab7.TaskDataset.mk data) 120 batch_size "cpu".

Definition pipeline8_of (data : pd.DataFrame) (batch_size : Z) : Lab8.LLMPipeline.t :=
  Lab8.LLMPipeline.mk (Some "t5") (Lab8.TaskDataset.mk data) 120 batch_size "cpu".

(** A raw table of lab 7 whose [toxic] cells are grades, not booleans. *)
Definition graded_table : pd.DataFrame :=
  pd.from_rows ["neutral"; "toxic"] [[VStr "a"; VStr "no"]; [VStr "a"; VStr "mild"]].

(** What a batched conversion gives in place of a table. *)
Definition batches_iterator : RawDataImporter.pandas_obj :=
  RawDataImporter.NotDataFrame "generator".

(** A preprocessed table of lab 7 whose last source cell is missing, and
    a preprocessed table without the column [target]. *)
Definition late_missing : pd.DataFrame :=
  pd.from_rows ["source"; "target"]
    [[VStr "a"; VInt 1]; [VStr "b"; VInt 0]; [VNone; VInt 1]].

Definition source_only : pd.DataFrame :=
  pd.from_rows ["source"] [[VStr "a"]; [VStr "b"]].

(** Models that give no prediction, and one prediction whatever the
    batch is. *)
Definition no_class : string → list value → res (list Z) := λ _ _, Ok [].

Definition no_summary : string → Z → list value → res (list string) :=
  λ _ _ _, Ok [].

Definition one_class : string → list value → res (list Z) := λ _ _, Ok [1%Z].

Definition one_summary : string → Z → list value → res (list string) :=
  λ _ _ _, Ok ["s"].

(** A metric that refuses its arguments, and a metric that computes no
    score. *)
Definition compute_fails {C} : string → C → res (gmap string Z) :=
  λ _ _, Raise (ValueError "Mismatch in the number of predictions and references").

Definition no_score {C} : string → C → res (gmap string Z) := λ _ _, Ok ∅.

(** Raw tables that have both a column [index] and a column [level_0]. *)
Definition indexed7 : pd.DataFrame :=
  pd.from_rows ["index"; "level_0"; "neutral"; "toxic"]
    [[VInt 7; VInt 0; VStr "a"; VBool true]].

Definition indexed8 : pd.DataFrame :=
  pd.from_rows ["index"; "level_0"; "title"; "date"; "url"; "article_content"; "summary"]
    [[VInt 7; VInt 0; VStr "t"; VStr "d"; VStr "u"; VStr "text"; VStr "short"]].

(** * Properties *)

(** ** The importer *)

Section importer_facts.
Import RawDataImporter.
Variable load_dataset : string → string → res pandas_obj.

(** C5.  When the download returns an object, [obtain] raises
    [TypeError] exactly when the object is not a table; when it is a
    table, [obtain] raises nothing and the table is the raw data. *)
Theorem obtain_type_check (self : t) (loaded : pandas_obj) :
    load_dataset (_hf_name self) "train" = Ok loaded →
    ((∃ msg, (obtain load_dataset self).1 = Raise (TypeError msg))
       ↔ isinstance_DataFrame loaded = false)
    ∧ (∀ df, loaded = IsDataFrame df →
         (obtain load_dataset self).1 = Ok ()
         ∧ _raw_data (obtain load_dataset self).2 = Some (IsDataFrame df)).
Proof.
    intros Hload. unfold obtain, report_time. rewrite Hload.
    destruct loaded as [df|repr]; simpl; split.
    - split; [intros [msg Hmsg]; discriminate | discriminate].
    - intros df' [= <-]. done.
    - split; [done | eauto].
    - intros df' [=].
Qed.
End importer_facts.

Lemma obtain_type_check_witness :
  let self := RawDataImporter.mk "toxicity" None in
  let loaded := RawDataImporter.IsDataFrame toxicity_table in
  ((∃ msg, (RawDataImporter.obtain (hub_of loaded) self).1 = Raise (TypeError msg))
     ↔ RawDataImporter.isinstance_DataFrame loaded = false)
  ∧ (∀ df, loaded = RawDataImporter.IsDataFrame df →
       (RawDataImporter.obtain (hub_of loaded) self).1 = Ok ()
       ∧ RawDataImporter._raw_data (RawDataImporter.obtain (hub_of loaded) self).2
         = Some (RawDataImporter.IsDataFrame df)).
Proof.
  intros self loaded.
  apply (obtain_type_check (hub_of loaded) self loaded).
  reflexivity.
Defined.

(** ** The null-model guard *)

(** C4.  With no model, [infer_sample] returns [None] and the model is
    not run, and [_infer_batch] raises [ValueError]; in both labs. *)
Theorem null_model_guard :
  (∀ classify (self : Lab7.LLMPipeline.t) sample batch calls,
      Lab7.LLMPipeline._model self = None →
      Lab7.LLMPipeline.infer_sample classify self sample calls = (Ok None, calls)
      ∧ Lab7.LLMPipeline._infer_batch classify self batch calls
        = (Raise (ValueError "Model is not defined"), calls))
  ∧ (∀ generate (self : Lab8.LLMPipeline.t) sample batch calls,
      Lab8.LLMPipeline._model self = None →
      Lab8.LLMPipeline.infer_sample generate self sample calls = (Ok None, calls)
      ∧ Lab8.LLMPipeline._infer_batch generate self batch calls
        = (Raise (ValueError "Model is not defined"), calls)).
Proof.
  split; intros ext self sample batch calls Hnull.
  - unfold Lab7.LLMPipeline.infer_sample, Lab7.LLMPipeline._infer_batch, report_time.
    rewrite Hnull. done.
  - unfold Lab8.LLMPipeline.infer_sample, Lab8.LLMPipeline._infer_batch, report_time.
    rewrite Hnull. done.
Qed.

(** ** The preprocessor and the store *)

Ltac run_ST :=
  unfold copy, inplace, deref, alloc, update, set_data, get_raw_data, lift,
         report_time;
  repeat (progress (unfold mbind, mret, ST_bind, ST_ret;
                    cbn [fst snd heap self _raw_data _data];
                    rewrite ?lookup_insert_eq, ?insert_insert_eq)).

Lemma transform7_run (σ : state) (df : pd.DataFrame) :
  heap σ !! _raw_data (self σ) = Some df →
  Lab7.RawDataPreprocessor.transform σ
  = ((transform7_steps df).1, after_transform σ (transform7_steps df).2).
Proof.
  intros Hraw. unfold Lab7.RawDataPreprocessor.transform, transform7_steps, after_transform.
  run_ST. rewrite Hraw. run_ST.
  destruct (pd.getitem _ _) as [col|e]; run_ST; [|done].
  destruct (pd.setitem _ _ _) as [df2|e]; run_ST; [|done].
  destruct (pd.reset_index df2) as [df3|e]; run_ST; done.
Qed.

Lemma transform8_run (σ : state) (df : pd.DataFrame) :
  heap σ !! _raw_data (self σ) = Some df →
  Lab8.RawDataPreprocessor.transform σ
  = ((transform8_steps df).1, after_transform σ (transform8_steps df).2).
Proof.
  intros Hraw. unfold Lab8.RawDataPreprocessor.transform, transform8_steps, after_transform.
  run_ST. rewrite Hraw. run_ST.
  destruct (pd.drop _ _) as [df1|e]; run_ST.
  - destruct (pd.reset_index _) as [df3|e]; run_ST; done.
  - done.
Qed.

Lemma transform_dangling (σ : state) :
  heap σ !! _raw_data (self σ) = None →
  (Lab7.RawDataPreprocessor.transform σ).2 = σ
  ∧ (Lab8.RawDataPreprocessor.transform σ).2 = σ.
Proof.
  intros Hraw.
  unfold Lab7.RawDataPreprocessor.transform, Lab8.RawDataPreprocessor.transform.
  run_ST. rewrite Hraw. done.
Qed.

Lemma after_transform_raw (σ : state) (out : pd.DataFrame) :
  is_Some (heap σ !! _raw_data (self σ)) →
  heap (after_transform σ out) !! _raw_data (self σ) = heap σ !! _raw_data (self σ).
Proof.
  intros Hraw. unfold after_transform. cbn.
  apply lookup_insert_ne. intros Heq.
  apply elem_of_dom in Hraw. rewrite <- Heq in Hraw.
  by apply is_fresh in Hraw.
Qed.

Lemma analyze_column_state (c : string) (σ : state) :
  (analyze_column c σ).2 = σ.
Proof.
  unfold analyze_column. run_ST.
  destruct (heap σ !! _) as [df|]; run_ST; [|done].
  destruct (pd.getitem df c) as [col|e]; run_ST; [|done].
  destruct (map_len col) as [lens|e]; run_ST; done.
Qed.

Lemma analyze_column_run (c : string) (σ : state) (df : pd.DataFrame) :
  heap σ !! _raw_data (self σ) = Some df →
  analyze_column c σ
  = (col ← pd.getitem df c;
     lens ← map_len col;
     Ok (mkAnalysis (pd.len df) (length (pd.columns df)) (pd.duplicated_sum df)
           (pd.len df - pd.len (pd.dropna (pd.replace_empty df)))
           (series_min lens) (series_max lens)),
     σ).
Proof.
  intros Hraw. unfold analyze_column. run_ST. rewrite Hraw. run_ST.
  destruct (pd.getitem df c) as [col|e]; cbn; [|done].
  by destruct (map_len col) as [lens|e].
Qed.

(** C8.  [analyze] leaves the whole state as it was, and after
    [transform] the raw table is the object it was, with the cells it
    had: the in-place operations work on the copy.  In both labs. *)
Theorem raw_data_unchanged (σ : state) :
  (Lab7.RawDataPreprocessor.analyze σ).2 = σ
  ∧ (Lab8.RawDataPreprocessor.analyze σ).2 = σ
  ∧ (let σ' := (Lab7.RawDataPreprocessor.transform σ).2 in
     _raw_data (self σ') = _raw_data (self σ)
     ∧ heap σ' !! _raw_data (self σ') = heap σ !! _raw_data (self σ))
  ∧ (let σ' := (Lab8.RawDataPreprocessor.transform σ).2 in
     _raw_data (self σ') = _raw_data (self σ)
     ∧ heap σ' !! _raw_data (self σ') = heap σ !! _raw_data (self σ)).
Proof.
  split; [apply analyze_column_state|].
  split; [apply analyze_column_state|].
  destruct (heap σ !! _raw_data (self σ)) as [df|] eqn:Hraw.
  - rewrite (transform7_run σ df Hraw), (transform8_run σ df Hraw). cbn [snd].
    split; (split; [done|]); cbn [after_transform self _raw_data];
      rewrite <- Hraw; apply after_transform_raw; rewrite Hraw; eauto.
  - destruct (transform_dangling σ Hraw) as [-> ->]. cbn. rewrite Hraw. done.
Qed.

(** ** Facts about the table operations *)

Section table_facts.
Implicit Types (cols : list string) (r : pd.row) (rs : list (Z * pd.row)).

Lemma keep_first_sublist seen rs : pd.keep_first seen rs `sublist_of` rs.
Proof.
  revert seen. induction rs as [|kr rs IH]; intros seen; cbn; [done|].
  case_decide; [apply sublist_cons, IH | apply sublist_skip, IH].
Qed.

Lemma keep_first_elem seen rs k :
  k ∈ pd.row_key <$> (pd.keep_first seen rs).*2
  ↔ k ∈ pd.row_key <$> rs.*2 ∧ k ∉ seen.
Proof.
  revert seen. induction rs as [|kr rs IH]; intros seen; cbn.
  - set_solver.
  - case_decide as Hseen; cbn; rewrite ?elem_of_cons, IH.
    + split; [intros [? ?]; auto | intros [[->|?] ?]; done].
    + rewrite not_elem_of_cons. split.
      * intros [->|[? [? ?]]]; auto.
      * intros [[->|?] ?]; [auto|].
        destruct (decide (k = pd.row_key kr.2)); auto.
Qed.

(** No two rows that [drop_duplicates] keeps are equal. *)
Lemma keep_first_NoDup seen rs : NoDup (pd.row_key <$> (pd.keep_first seen rs).*2).
Proof.
  revert seen. induction rs as [|kr rs IH]; intros seen; cbn; [constructor|].
  case_decide; cbn; [apply IH|].
  constructor; [|apply IH].
  rewrite keep_first_elem. intros [_ Hnot]. apply Hnot. by left.
Qed.

(** The rows [drop_duplicates] keeps are as many as the different rows. *)
Lemma keep_first_length rs :
  length (pd.keep_first [] rs) = length (remove_dups (pd.row_key <$> rs.*2)).
Proof.
  rewrite <- (length_fmap snd), <- (length_fmap pd.row_key).
  apply Permutation_length, NoDup_Permutation.
  - apply keep_first_NoDup.
  - apply NoDup_remove_dups.
  - intros k. rewrite keep_first_elem, elem_of_remove_dups. set_solver.
Qed.

Lemma select_put label f cols r :
  pd.select label cols (pd.put label cols r (f <$> pd.select label cols r))
  = f <$> pd.select label cols r.
Proof.
  revert r. induction cols as [|c cols IH]; intros [|v r]; cbn; try done.
  case_decide; cbn; rewrite ?decide_True, ?decide_False by done;
    cbn; by rewrite IH.
Qed.

Lemma length_put label cols r new : length (pd.put label cols r new) = length r.
Proof.
  revert r new. induction cols as [|c cols IH]; intros [|v r] new; cbn; try done.
  case_decide; [destruct new|]; cbn; by rewrite IH.
Qed.

(** A label that occurs once in the columns of a full row selects one
    cell. *)
Lemma select_once label cols r :
  label ∈ cols → NoDup cols → length r = length cols →
  ∃ v, pd.select label cols r = [v].
Proof.
  revert r. induction cols as [|c cols IH]; intros [|v r] Hin Hnd Hlen;
    cbn in *; try done; [by apply elem_of_nil in Hin|].
  apply NoDup_cons in Hnd as [Hc Hnd].
  case_decide as Hlabel.
  - subst c. exists v. f_equal.
    clear IH Hin Hnd. revert r Hlen.
    induction cols as [|c cols IH]; intros [|w r] Hlen; cbn in *; try done.
    apply not_elem_of_cons in Hc as [Hne Hc].
    rewrite decide_False by done. apply IH; [done | lia].
  - apply elem_of_cons in Hin as [->|Hin]; [done|].
    apply IH; [done | done | lia].
Qed.

Lemma select_fmap_labels (g : string → string) label label' cols r :
  (∀ c, c ∈ cols → g c = label' ↔ c = label) →
  pd.select label' (g <$> cols) r = pd.select label cols r.
Proof.
  revert r. induction cols as [|c cols IH]; intros [|v r] Hg; cbn; try done.
  assert (g c = label' ↔ c = label) as Hc by (apply Hg; by left).
  rewrite IH by (intros c' Hc'; apply Hg; by right).
  repeat case_decide; naive_solver.
Qed.

Lemma filter_fmap_labels (g : string → string) label label' cols :
  (∀ c, c ∈ cols → g c = label' ↔ c = label) →
  length (filter (λ c, c = label') (g <$> cols))
  = length (filter (λ c, c = label) cols).
Proof.
  induction cols as [|c cols IH]; intros Hg; [done|].
  assert (g c = label' ↔ c = label) as Hc by (apply Hg; by left).
  rewrite fmap_cons, !filter_cons.
  assert (∀ c', c' ∈ cols → g c' = label' ↔ c' = label) as Hg'
    by (intros c' Hc'; apply Hg; by right).
  specialize (IH Hg').
  repeat case_decide; cbn; naive_solver.
Qed.

Lemma filter_once label cols :
  label ∈ cols → NoDup cols → filter (λ c, c = label) cols = [label].
Proof.
  induction cols as [|c cols IH]; intros Hin Hnd; [by apply elem_of_nil in Hin|].
  apply NoDup_cons in Hnd as [Hc Hnd]. rewrite filter_cons.
  case_decide as Hlabel.
  - subst c. f_equal. clear IH Hin Hnd.
    induction cols as [|c cols IH]; [done|].
    apply not_elem_of_cons in Hc as [Hne Hc].
    rewrite filter_cons, decide_False by done. by apply IH.
  - apply elem_of_cons in Hin as [->|Hin]; [done | by apply IH].
Qed.

End table_facts.

(** ** The steps of [transform] *)

Section transform_facts.
Implicit Types (df : pd.DataFrame) (c : string).

Lemma rename7_label c :
  pd.rename_label mapping7 c
  = if decide (c = "neutral") then "source"
    else if decide (c = "toxic") then "target" else c.
Proof.
  unfold pd.rename_label. cbn.
  repeat (case_decide; subst; cbn; try done).
Qed.

Lemma rename8_label c :
  pd.rename_label mapping8 c
  = if decide (c = "article_content") then "source"
    else if decide (c = "summary") then "target" else c.
Proof.
  unfold pd.rename_label. cbn.
  repeat (case_decide; subst; cbn; try done).
Qed.

Lemma transform7_steps_labelled df :
  (ColumnNames.TARGET : string) ∈ pd.columns (pd.rename mapping7 df) →
  transform7_steps df
  = match pd.reset_index (labelled7 df) with
    | Raise e => (Raise e, labelled7 df)
    | Ok df3 => (Ok (), df3)
    end.
Proof.
  intros Htarget. unfold transform7_steps, labelled7.
  set (df1 := pd.drop_duplicates _) in *.
  unfold pd.getitem, pd.setitem, pd.map. cbn [pd.columns pd.rows].
  rewrite !decide_True by done. cbn [pd.rows].
  rewrite <- list_fmap_compose, zip_with_fmap_r, zip_with_diag. done.
Qed.

Lemma transform7_steps_no_target df :
  (ColumnNames.TARGET : string) ∉ pd.columns (pd.rename mapping7 df) →
  transform7_steps df
  = (Raise (KeyError ColumnNames.TARGET),
     pd.drop_duplicates (pd.rename mapping7 df)).
Proof.
  intros Htarget. unfold transform7_steps, pd.getitem. cbn [pd.columns pd.drop_duplicates].
  by rewrite decide_False.
Qed.

Lemma drop_ok labels df :
  Forall (λ l, l ∈ pd.columns df) labels →
  pd.drop labels df
  = Ok (pd.mkDataFrame (filter (λ c, c ∉ labels) (pd.columns df))
          ((λ kr : Z * pd.row, (kr.1, pd.without labels (pd.columns df) kr.2))
             <$> pd.rows df)).
Proof.
  intros Hall. unfold pd.drop.
  replace (filter (λ l, l ∉ pd.columns df) labels) with (@nil string); [done|].
  symmetry. induction Hall as [|l labels' Hl _ IH]; [done|].
  rewrite filter_cons, decide_False by auto. exact IH.
Qed.

Lemma drop_missing labels df :
  ¬ Forall (λ l, l ∈ pd.columns df) labels →
  pd.drop labels df
  = Raise (KeyError (pd.repr_labels (filter (λ l, l ∉ pd.columns df) labels)
                     +:+ " not found in axis")).
Proof.
  intros Hall. unfold pd.drop.
  destruct (filter _ labels) as [|l missing] eqn:Hmissing; [|done].
  destruct Hall. apply Forall_forall. intros l Hl.
  destruct (decide (l ∈ pd.columns df)) as [|Hnot]; [done|].
  assert (l ∈ filter (λ l, l ∉ pd.columns df) labels) as Hin
    by (by apply list_elem_of_filter).
  rewrite Hmissing in Hin. by apply elem_of_nil in Hin.
Qed.

Lemma reset_index_ok df :
  ¬ ("index" ∈ pd.columns df ∧ "level_0" ∈ pd.columns df) →
  ∃ name, (name ∉ ["source"; "target"])
    ∧ pd.reset_index df
      = Ok (pd.mkDataFrame (name :: pd.columns df)
              (imap (λ i (kr : Z * pd.row), (Z.of_nat i, VInt kr.1 :: kr.2))
                    (pd.rows df))).
Proof.
  intros Hclash. unfold pd.reset_index.
  destruct (decide ("index" ∈ pd.columns df)) as [Hindex|Hindex]; cbn zeta.
  - exists "level_0". split; [set_solver|].
    rewrite decide_False; [done|]. tauto.
  - exists "index". split; [set_solver|]. by rewrite decide_False.
Qed.

Lemma reset_index_columns df df' :
  pd.reset_index df = Ok df' →
  ∃ name, (name ∉ ["source"; "target"])
    ∧ df' = pd.mkDataFrame (name :: pd.columns df)
              (imap (λ i (kr : Z * pd.row), (Z.of_nat i, VInt kr.1 :: kr.2))
                    (pd.rows df)).
Proof.
  unfold pd.reset_index.
  destruct (decide ("index" ∈ pd.columns df)); cbn zeta;
    case_decide; intros [= <-]; eexists; (split; [|done]); set_solver.
Qed.

End transform_facts.

(** ** What [transform] produces *)

Lemma data_of_after_transform (σ : state) (out : pd.DataFrame) :
  data_of (after_transform σ out) = Some out.
Proof. unfold data_of, after_transform. cbn. apply lookup_insert_eq. Qed.

Lemma rename7_canonical (cols : list string) :
  ("neutral" ∈ cols → "source" ∈ pd.rename_label
      [("neutral", ColumnNames.SOURCE : string); ("toxic", ColumnNames.TARGET : string)]
      <$> cols)
  ∧ ("toxic" ∈ cols → "target" ∈ pd.rename_label
      [("neutral", ColumnNames.SOURCE : string); ("toxic", ColumnNames.TARGET : string)]
      <$> cols)
  ∧ (∀ c, c ∉ ["source"; "target"] →
       c ∈ pd.rename_label
         [("neutral", ColumnNames.SOURCE : string); ("toxic", ColumnNames.TARGET : string)]
         <$> cols → c ∈ cols).
Proof.
  split_and!.
  - intros Hin. apply list_elem_of_fmap. by exists "neutral".
  - intros Hin. apply list_elem_of_fmap. by exists "toxic".
  - intros c Hc (c' & -> & Hc')%list_elem_of_fmap.
    rewrite rename7_label in Hc |- *.
    repeat case_decide; subst; set_solver.
Qed.

Lemma rename8_canonical (cols : list string) :
  ("article_content" ∈ cols → "source" ∈ pd.rename_label
      [("article_content", ColumnNames.SOURCE : string);
       ("summary", ColumnNames.TARGET : string)] <$> cols)
  ∧ ("summary" ∈ cols → "target" ∈ pd.rename_label
      [("article_content", ColumnNames.SOURCE : string);
       ("summary", ColumnNames.TARGET : string)] <$> cols)
  ∧ (∀ c, c ∉ ["source"; "target"] →
       c ∈ pd.rename_label
         [("article_content", ColumnNames.SOURCE : string);
          ("summary", ColumnNames.TARGET : string)] <$> cols → c ∈ cols).
Proof.
  split_and!.
  - intros Hin. apply list_elem_of_fmap. by exists "article_content".
  - intros Hin. apply list_elem_of_fmap. by exists "summary".
  - intros c Hc (c' & -> & Hc')%list_elem_of_fmap.
    rewrite rename8_label in Hc |- *.
    repeat case_decide; subst; set_solver.
Qed.

Lemma transform7_outcome (df : pd.DataFrame) :
  has_columns7 df →
  ∃ out, (transform7_steps df).2 = out
    ∧ (ColumnNames.SOURCE : string) ∈ pd.columns out
    ∧ (ColumnNames.TARGET : string) ∈ pd.columns out
    ∧ (¬ index_names_taken df → (transform7_steps df).1 = Ok ()).
Proof.
  intros [Hneutral Htoxic].
  destruct (rename7_canonical (pd.columns df)) as (Hsource & Htarget & Hback).
  rewrite transform7_steps_labelled by (by apply Htarget).
  destruct (pd.reset_index (labelled7 df)) as [df3|e] eqn:Hreset.
  - apply reset_index_columns in Hreset as (name & _ & ->).
    eexists; split; [done|]. cbn. split_and!; [set_solver..|done].
  - eexists; split; [done|]. cbn. split_and!; [by apply Hsource | by apply Htarget |].
    intros Hfree. destruct (reset_index_ok (labelled7 df)) as (name & _ & Hok).
    + intros [Hi Hl]. apply Hfree. split; apply Hback; try done; set_solver.
    + congruence.
Qed.

Lemma transform8_steps_renamed (df : pd.DataFrame) :
  has_columns8 df →
  ∃ df1, pd.drop ["title"; "date"; "url"] df = Ok df1
    ∧ pd.columns df1 = filter (λ c, c ∉ ["title"; "date"; "url"]) (pd.columns df)
    ∧ length (pd.rows df1) = length (pd.rows df)
    ∧ (pd.rows df1).*1 = (pd.rows df).*1
    ∧ transform8_steps df
      = match pd.reset_index
                (pd.rename [("article_content", ColumnNames.SOURCE : string);
                            ("summary", ColumnNames.TARGET : string)] df1) with
        | Raise e =>
            (Raise e, pd.rename [("article_content", ColumnNames.SOURCE : string);
                                 ("summary", ColumnNames.TARGET : string)] df1)
        | Ok df3 => (Ok (), df3)
        end.
Proof.
  intros Hcols. unfold transform8_steps. rewrite drop_ok.
  - eexists; split_and!; [done|done|..|done]; cbn.
    + by rewrite length_fmap.
    + rewrite <- list_fmap_compose. by apply list_fmap_ext.
  - unfold has_columns8 in Hcols.
    repeat (apply Forall_cons in Hcols as [? Hcols]). by repeat constructor.
Qed.

Lemma transform8_outcome (df : pd.DataFrame) :
  has_columns8 df →
  (ColumnNames.SOURCE : string) ∈ pd.columns (transform8_steps df).2
  ∧ (ColumnNames.TARGET : string) ∈ pd.columns (transform8_steps df).2
  ∧ (¬ index_names_taken df → (transform8_steps df).1 = Ok ()).
Proof.
  intros Hcols.
  destruct (transform8_steps_renamed df Hcols) as (df1 & _ & Hcols1 & _ & _ & ->).
  unfold has_columns8 in Hcols.
  rewrite !Forall_cons in Hcols; cbn beta in Hcols.
  destruct Hcols as (_ & _ & _ & Harticle & Hsummary & _).
  destruct (rename8_canonical (pd.columns df1)) as (Hsource & Htarget & Hback).
  assert ("article_content" ∈ pd.columns df1) as Ha.
  { rewrite Hcols1. apply list_elem_of_filter. split; [set_solver|done]. }
  assert ("summary" ∈ pd.columns df1) as Hs.
  { rewrite Hcols1. apply list_elem_of_filter. split; [set_solver|done]. }
  destruct (pd.reset_index _) as [df3|e] eqn:Hreset.
  - apply reset_index_columns in Hreset as (name & _ & ->).
    cbn. split_and!; [set_solver..|done].
  - cbn. split_and!; [by apply Hsource | by apply Htarget |].
    intros Hfree.
    destruct (reset_index_ok (pd.rename
      [("article_content", ColumnNames.SOURCE : string);
       ("summary", ColumnNames.TARGET : string)] df1)) as (name & _ & Hok).
    + intros [Hi Hl]. apply Hfree.
      split; (eapply list_elem_of_filter; rewrite <- Hcols1);
        apply Hback; try done; set_solver.
    + congruence.
Qed.

Lemma null_model_guard_witness :
  let self7 := Lab7.LLMPipeline.mk None (Lab7.TaskDataset.mk toxicity_table) 120 2 "cpu" in
  let self8 := Lab8.LLMPipeline.mk None (Lab8.TaskDataset.mk news_table) 120 2 "cpu" in
  (Lab7.LLMPipeline.infer_sample (λ _ _, Ok [1%Z]) self7 [VStr "a"] [] = (Ok None, [])
   ∧ Lab7.LLMPipeline._infer_batch (λ _ _, Ok [1%Z]) self7 [[VStr "a"]] []
     = (Raise (ValueError "Model is not defined"), []))
  ∧ (Lab8.LLMPipeline.infer_sample (λ _ _ _, Ok ["s"]) self8 [VStr "a"] [] = (Ok None, [])
   ∧ Lab8.LLMPipeline._infer_batch (λ _ _ _, Ok ["s"]) self8 [[VStr "a"]] []
     = (Raise (ValueError "Model is not defined"), [])).
Proof.
  intros self7 self8. split.
  - apply (proj1 null_model_guard). reflexivity.
  - apply (proj2 null_model_guard). reflexivity.
Defined.

(** ** Rows after [transform] *)

Lemma reset_index_rows (df df' : pd.DataFrame) :
  pd.reset_index df = Ok df' →
  pd.values df' = (λ kr : Z * pd.row, VInt kr.1 :: kr.2) <$> pd.rows df
  ∧ pd.len df' = pd.len df.
Proof.
  intros (name & _ & ->)%reset_index_columns. unfold pd.values, pd.len. cbn. split.
  - rewrite fmap_imap. rewrite <- imap_const. by apply imap_ext.
  - by rewrite length_imap.
Qed.

Lemma labelled7_index (df : pd.DataFrame) :
  (pd.rows (labelled7 df)).*1 `sublist_of` (pd.rows df).*1
  ∧ pd.len (labelled7 df) = length (remove_dups (pd.row_key <$> pd.values df)).
Proof.
  unfold labelled7, pd.len, pd.values. cbn. split.
  - rewrite <- list_fmap_compose.
    erewrite list_fmap_ext; [apply fmap_sublist, keep_first_sublist|]. done.
  - by rewrite length_fmap, keep_first_length.
Qed.

(** C2 does not hold for lab 8.  The lab 8 [transform] on a table with
    the same article twice: both rows are in the result, which has two
    rows where the raw table has one distinct row. *)
Lemma transform8_keeps_duplicate_rows :
  (Lab8.RawDataPreprocessor.transform (store_of news_table)).1 = Ok ()
  ∧ ∃ out, data_of (Lab8.RawDataPreprocessor.transform (store_of news_table)).2
           = Some out
      ∧ pd.len out = 2
      ∧ length (remove_dups (pd.values
          (pd.rename [("article_content", ColumnNames.SOURCE : string);
                      ("summary", ColumnNames.TARGET : string)] news_table))) = 1
      ∧ pd.len out
        ≠ length (remove_dups (pd.values
            (pd.rename [("article_content", ColumnNames.SOURCE : string);
                        ("summary", ColumnNames.TARGET : string)] news_table))).
Proof.
  split; [reflexivity|].
  eexists. split; [vm_compute; reflexivity|].
  split; [reflexivity|]. split; [reflexivity|]. vm_compute. discriminate.
Qed.

(** ** The labels of lab 7 *)

Lemma column_values (df : pd.DataFrame) (label : string) :
  length (filter (λ c, c = label) (pd.columns df)) = 1 →
  ∃ s, pd.column df label = Ok s
    ∧ s.*2 = cell label (pd.columns df) <$> pd.values df.
Proof.
  intros Hone. unfold pd.column, pd.getitem.
  assert (label ∈ pd.columns df) as Hin.
  { destruct (filter _ _) as [|c l] eqn:Hf; [done|].
    assert (c ∈ filter (λ c, c = label) (pd.columns df)) as Hc
      by (rewrite Hf; by left).
    apply list_elem_of_filter in Hc as [-> ?]. done. }
  rewrite decide_True by done. cbn.
  destruct (filter _ _) as [|c [|c' l]]; try done.
  eexists. split; [done|].
  unfold pd.values. rewrite <- !list_fmap_compose. by apply list_fmap_ext.
Qed.

Lemma to_label_spec (x : value) :
  (Lab7.RawDataPreprocessor.to_label x = VInt 0
   ∨ Lab7.RawDataPreprocessor.to_label x = VInt 1)
  ∧ (Lab7.RawDataPreprocessor.to_label x = VInt 1 ↔ x = VBool true).
Proof. unfold Lab7.RawDataPreprocessor.to_label. case_decide; naive_solver. Qed.

Lemma rename7_target_iff (cols : list string) (c : string) :
  "target" ∉ cols → c ∈ cols →
  pd.rename_label [("neutral", ColumnNames.SOURCE : string);
                   ("toxic", ColumnNames.TARGET : string)] c = "target"
  ↔ c = "toxic".
Proof.
  intros Hnot Hin. rewrite rename7_label.
  repeat case_decide; subst; naive_solver.
Qed.

(** The target cells of the labelled table are the labels of the toxic
    cells of the rows that were kept. *)
Lemma labelled7_cells (df : pd.DataFrame) :
  pd.rectangular df → NoDup (pd.columns df) →
  "toxic" ∈ pd.columns df → "target" ∉ pd.columns df →
  cell ColumnNames.TARGET (pd.columns (labelled7 df)) <$> pd.values (labelled7 df)
  = Lab7.RawDataPreprocessor.to_label
      <$> (cell "toxic" (pd.columns df) <$> pd.values (pd.drop_duplicates df)).
Proof.
  intros Hrect Hnd Htoxic Hnot.
  unfold labelled7, pd.values, cell. cbn.
  rewrite <- !list_fmap_compose. apply list_fmap_ext. intros i [k r] Hkr. cbn.
  rewrite select_put.
  rewrite (select_fmap_labels _ "toxic") by (intros c Hc; by apply (rename7_target_iff (pd.columns df))).
  destruct (select_once "toxic" (pd.columns df) r) as [v ->]; try done.
  apply list_elem_of_lookup_2 in Hkr.
  eapply elem_of_sublist in Hkr; [|apply keep_first_sublist].
  unfold pd.rectangular in Hrect. rewrite Forall_forall in Hrect.
  apply (Hrect (k, r) Hkr).
Qed.

Lemma reset_index_cells (df df' : pd.DataFrame) (label : string) :
  pd.reset_index df = Ok df' → label ∈ ["source"; "target"] →
  length (filter (λ c, c = label) (pd.columns df'))
  = length (filter (λ c, c = label) (pd.columns df))
  ∧ cell label (pd.columns df') <$> pd.values df'
    = cell label (pd.columns df) <$> pd.values df.
Proof.
  intros Hreset Hlabel.
  destruct (reset_index_rows _ _ Hreset) as [-> _].
  apply reset_index_columns in Hreset as (name & Hname & ->). cbn [pd.columns].
  assert (name ≠ label) as Hne by (intros ->; done).
  split.
  - by rewrite filter_cons, decide_False.
  - unfold pd.values. rewrite <- !list_fmap_compose. apply list_fmap_ext.
    intros i [k r] _. unfold cell. cbn. by rewrite decide_False.
Qed.

(** C9.  For a raw table of full rows with distinct column labels, a
    column [toxic] and no column [target]: after the lab 7 [transform]
    every cell of the target column is the integer 0 or 1, and it is 1
    exactly when the toxic cell of the row (a row that [drop_duplicates]
    kept) is the boolean [True]. *)
Theorem transform_target_labels (σ : state) (df : pd.DataFrame) :
  heap σ !! _raw_data (self σ) = Some df →
  pd.rectangular df → NoDup (pd.columns df) →
  "toxic" ∈ pd.columns df → "target" ∉ pd.columns df →
  ∃ out toxic target,
    data_of (Lab7.RawDataPreprocessor.transform σ).2 = Some out
    ∧ pd.column (pd.drop_duplicates df) "toxic" = Ok toxic
    ∧ pd.column out ColumnNames.TARGET = Ok target
    ∧ Forall2 (λ x y : value,
                 (y = VInt 0 ∨ y = VInt 1) ∧ (y = VInt 1 ↔ x = VBool true))
              toxic.*2 target.*2.
Proof.
  intros Hraw Hrect Hnd Htoxic Hnot.
  rewrite (transform7_run σ df Hraw). cbn [snd].
  rewrite data_of_after_transform.
  destruct (column_values (pd.drop_duplicates df) "toxic") as (toxic & Hcol & Hvals).
  { cbn. by rewrite filter_once. }
  assert (length (filter (λ c, c = (ColumnNames.TARGET : string))
                         (pd.columns (labelled7 df))) = 1) as Hone.
  { unfold labelled7. cbn [pd.columns pd.drop_duplicates pd.rename].
    rewrite (filter_fmap_labels _ "toxic")
      by (intros c Hc; by apply (rename7_target_iff (pd.columns df))).
    by rewrite filter_once. }
  assert (∃ target,
    pd.column (transform7_steps df).2 ColumnNames.TARGET = Ok target
    ∧ target.*2 = cell ColumnNames.TARGET (pd.columns (labelled7 df))
                    <$> pd.values (labelled7 df)) as (target & Htarget & Htvals).
  { destruct (rename7_canonical (pd.columns df)) as (_ & Hin & _).
    rewrite transform7_steps_labelled by (by apply Hin).
    destruct (pd.reset_index (labelled7 df)) as [df3|e] eqn:Hreset; cbn [snd].
    - destruct (reset_index_cells _ _ ColumnNames.TARGET Hreset) as [Hlen Hcells];
        [set_solver|].
      destruct (column_values df3 ColumnNames.TARGET) as (target & ? & ?);
        [congruence|].
      exists target. split; [done|congruence].
    - by apply column_values. }
  exists (transform7_steps df).2, toxic, target.
  split_and!; [done..|].
  rewrite Htvals, Hvals, labelled7_cells by done.
  apply Forall2_fmap_r, Forall_Forall2_diag, Forall_forall.
  intros x _. apply to_label_spec.
Qed.

Lemma transform_target_labels_witness :
  ∃ out toxic target,
    data_of (Lab7.RawDataPreprocessor.transform (store_of toxicity_table)).2 = Some out
    ∧ pd.column (pd.drop_duplicates toxicity_table) "toxic" = Ok toxic
    ∧ pd.column out ColumnNames.TARGET = Ok target
    ∧ Forall2 (λ x y : value,
                 (y = VInt 0 ∨ y = VInt 1) ∧ (y = VInt 1 ↔ x = VBool true))
              toxic.*2 target.*2.
Proof.
  apply (transform_target_labels (store_of toxicity_table) toxicity_table).
  - reflexivity.
  - unfold pd.rectangular. vm_compute. repeat constructor.
  - compute_done.
  - vm_compute. repeat constructor.
  - compute_done.
Defined.

(** ** Facts about the batches *)

Lemma chunks_upto_concat {A} (fuel n : nat) (l : list A) :
  0 < n → length l ≤ fuel → concat (chunks_upto fuel n l) = l.
Proof.
  intros Hn. revert l. induction fuel as [|fuel IH]; intros l Hlen.
  - destruct l; [done | cbn in Hlen; lia].
  - destruct l as [|x l]; [done|].
    cbn [chunks_upto concat]. rewrite IH, take_drop; [done|].
    rewrite length_drop. cbn in *. lia.
Qed.

Lemma chunks_concat {A} (n : nat) (l : list A) :
  0 < n → concat (chunks n l) = l.
Proof. intros Hn. by apply chunks_upto_concat. Qed.

Lemma concat_singletons {A} (l : list A) : concat ((λ v, [v]) <$> l) = l.
Proof. induction l as [|x l IH]; cbn; by f_equal. Qed.

(** No batch is empty, and what holds of every item holds of the items of
    every batch. *)
Lemma chunks_upto_Forall {A} (P : A → Prop) (fuel n : nat) (l : list A) :
  0 < n → Forall P l →
  Forall (λ batch, batch ≠ [] ∧ Forall P batch) (chunks_upto fuel n l).
Proof.
  intros Hn. revert l. induction fuel as [|fuel IH]; intros [|x l] Hl;
    cbn [chunks_upto]; try constructor.
  - split; [destruct n; [lia|done] | by apply Forall_take].
  - apply IH. by apply Forall_drop.
Qed.

(** A batch of one-element tuples of strings is collated to the list of
    the strings. *)
Lemma collate_texts (torch_tensor : list value → res (list value))
    (texts : list value) :
  texts ≠ [] → Forall is_text texts →
  default_collate torch_tensor ((λ v, [v]) <$> texts) = Ok [texts].
Proof.
  intros Hne Htexts. unfold default_collate. rewrite concat_singletons.
  destruct texts as [|v texts]; [done|].
  apply Forall_cons in Htexts as [Hv _]. by destruct v.
Qed.

(** A batch is collated by its first item. *)
Lemma collate_text_first (torch_tensor : list value → res (list value))
    (s : string) (texts : list value) :
  default_collate torch_tensor ((λ v, [v]) <$> (VStr s :: texts))
  = Ok [VStr s :: texts].
Proof. unfold default_collate. by rewrite concat_singletons. Qed.

Lemma collate_none_first (torch_tensor : list value → res (list value)) :
  ∃ msg, ∀ texts,
    default_collate torch_tensor ((λ v, [v]) <$> (VNone :: texts))
    = Raise (TypeError msg).
Proof.
  eexists. intros texts. unfold default_collate. rewrite concat_singletons.
  reflexivity.
Qed.

Lemma concat_lengths {A B} (P : list A → list B → Prop) (ls : list (list A))
    (ks : list (list B)) :
  Forall2 (λ l k, length k = length l) ls ks →
  length (concat ks) = length (concat ls).
Proof.
  induction 1 as [|l k ls ks Hlk _ IH]; [done|].
  cbn. rewrite !length_app. lia.
Qed.

Section fetch_facts.
Variable getitem : nat → res (list value).
Variable items : list value.
Hypothesis getitem_items : ∀ i v, items !! i = Some v → getitem i = Ok [v].

Lemma fetch_seq (k start : nat) :
  start + k ≤ length items →
  res_mapM getitem (seq start k) = Ok ((λ v, [v]) <$> take k (drop start items)).
Proof using getitem_items.
  revert start. induction k as [|k IH]; intros start Hle; [done|].
  destruct (lookup_lt_is_Some_2 items start) as [v Hv]; [lia|].
  rewrite (drop_S _ _ _ Hv). cbn.
  rewrite (getitem_items _ _ Hv). cbn.
  rewrite IH by lia. done.
Qed.

(** What the data loader hands over batch by batch: the items in order. *)
Lemma chunks_upto_fetch (n fuel start : nat) :
  Forall2 (λ idxs texts, res_mapM getitem idxs = Ok ((λ v, [v]) <$> texts))
    (chunks_upto fuel n (seq start (length items - start)))
    (chunks_upto fuel n (drop start items)).
Proof using getitem_items.
  revert start. induction fuel as [|fuel IH]; intros start; [constructor|].
  destruct (decide (length items ≤ start)) as [Hge|Hlt].
  - rewrite drop_ge by done. replace (length items - start) with 0 by lia.
    constructor.
  - destruct (length items - start) as [|len] eqn:Hlen; [lia|].
    destruct (drop start items) as [|x rest] eqn:Hdrop.
    { apply drop_nil_inv in Hdrop. lia. }
    cbn [chunks_upto seq]. rewrite <- Hdrop.
    change (start :: seq (S start) len) with (seq start (S len)).
    constructor.
    + rewrite take_seq, fetch_seq by lia.
      rewrite <- take_take, (take_ge _ (S len)); [done|].
      rewrite length_drop. lia.
    + rewrite drop_seq, drop_drop.
      replace (S len - n) with (length items - (start + n)) by lia.
      apply IH.
Qed.

Lemma chunks_fetch (n : nat) :
  Forall2 (λ idxs texts, res_mapM getitem idxs = Ok ((λ v, [v]) <$> texts))
    (chunks n (seq 0 (length items))) (chunks n items).
Proof using getitem_items.
  unfold chunks. rewrite length_seq.
  pose proof (chunks_upto_fetch n (length items) 0) as H.
  by rewrite Nat.sub_0_r in H.
Qed.
End fetch_facts.

Lemma ST_mapM_raise {S A B} (f : A → ST S B) (pre post : list A) (x : A)
    (ys : list B) (σ σ1 σ2 : S) (e : exn) :
  ST_mapM f pre σ = (Ok ys, σ1) → f x σ1 = (Raise e, σ2) →
  ST_mapM f (pre ++ x :: post) σ = (Raise e, σ2).
Proof.
  revert ys σ. induction pre as [|a pre IH]; intros ys σ Hpre Hx.
  - injection Hpre as <- <-. cbn. unfold mbind, ST_bind. by rewrite Hx.
  - cbn in *. unfold mbind, ST_bind in *.
    destruct (f a σ) as [[y|e'] σ']; [|done].
    destruct (ST_mapM f pre σ') as [[ys'|e'] σ''] eqn:Hrest; [|done].
    injection Hpre as <- <-. by rewrite (IH _ _ Hrest Hx).
Qed.

Lemma ST_foldM_raise {S A B} (f : B → A → ST S B) (pre post : list A) (x : A)
    (acc acc1 : B) (σ σ1 σ2 : S) (e : exn) :
  ST_foldM f acc pre σ = (Ok acc1, σ1) → f acc1 x σ1 = (Raise e, σ2) →
  ST_foldM f acc (pre ++ x :: post) σ = (Raise e, σ2).
Proof.
  revert acc σ. induction pre as [|a pre IH]; intros acc σ Hpre Hx.
  - injection Hpre as <- <-. cbn. unfold mbind, ST_bind. by rewrite Hx.
  - cbn in *. unfold mbind, ST_bind in *.
    destruct (f acc a σ) as [[acc'|e'] σ']; [|done].
    by apply IH.
Qed.

(** ** Inference over the dataset *)

Lemma column_length (df : pd.DataFrame) (label : string) (s : pd.Series) :
  pd.column df label = Ok s → length s = pd.len df.
Proof.
  unfold pd.column, pd.getitem. case_decide; [|done]. cbn.
  destruct (filter _ _) as [|c [|c' l]]; try done.
  intros [= <-]. by rewrite !length_fmap.
Qed.

Section lab7_inference.
Import Lab7.
Variable torch_tensor : list value → res (list value).
Variable classify : string → list value → res (list Z).
Variable self : LLMPipeline.t.
Variable model : string.
Variables src tgt : pd.Series.
Hypothesis Hmodel : LLMPipeline._model self = Some model.
Hypothesis Hsrc :
  pd.column (TaskDataset.data (LLMPipeline._dataset self)) ColumnNames.SOURCE = Ok src.
Hypothesis Htgt :
  pd.column (TaskDataset.data (LLMPipeline._dataset self)) ColumnNames.TARGET = Ok tgt.
Hypothesis Htexts : Forall is_text src.*2.

Lemma getitem7_items (i : nat) (v : value) :
  src.*2 !! i = Some v →
  TaskDataset.__getitem__ (LLMPipeline._dataset self) i = Ok [v].
Proof using Hsrc.
  intros Hi. unfold TaskDataset.__getitem__, TaskDataset.data in *.
  rewrite Hsrc. cbn. unfold pd.iloc.
  rewrite list_lookup_fmap in Hi.
  destruct (src !! i) as [kv|]; [|done]. by injection Hi as ->.
Qed.

Lemma infer_indices7_run (idxs : list nat) (texts : list value)
    (calls : list (list value)) :
  res_mapM (TaskDataset.__getitem__ (LLMPipeline._dataset self)) idxs
    = Ok ((λ v, [v]) <$> texts) →
  texts ≠ [] → Forall is_text texts →
  LLMPipeline.infer_indices torch_tensor classify self idxs calls
  = ((λ logits : list Z, (λ logit : Z, pretty logit) <$> logits)
       <$> classify model texts,
     calls ++ [texts]).
Proof using Hmodel.
  intros Hfetch Hne Htext.
  unfold LLMPipeline.infer_indices, LLMPipeline._infer_batch,
    LLMPipeline.run_model, lift, first_of.
  rewrite Hfetch, Hmodel.
  unfold mbind, mret, ST_bind, ST_ret. rewrite collate_texts by done.
  by destruct (classify model texts).
Qed.

(** The batches of a dataset whose source cells are strings. *)
Lemma batches7 (n : nat) :
  0 < n →
  Forall2 (λ idxs texts,
      res_mapM (TaskDataset.__getitem__ (LLMPipeline._dataset self)) idxs
      = Ok ((λ v, [v]) <$> texts))
    (chunks n (seq 0 (TaskDataset.__len__ (LLMPipeline._dataset self))))
    (chunks n src.*2)
  ∧ Forall (λ texts, texts ≠ [] ∧ Forall is_text texts) (chunks n src.*2).
Proof using Hsrc Htexts.
  intros Hn. split.
  - pose proof (chunks_fetch _ _ getitem7_items n) as Hfetch.
    by rewrite length_fmap, (column_length _ _ _ Hsrc) in Hfetch.
  - by apply chunks_upto_Forall.
Qed.

Lemma infer_loop7 (idxss : list (list nat)) (textss : list (list value))
    (calls : list (list value)) :
  Forall2 (λ idxs texts,
      res_mapM (TaskDataset.__getitem__ (LLMPipeline._dataset self)) idxs
      = Ok ((λ v, [v]) <$> texts)) idxss textss →
  Forall (λ texts, texts ≠ [] ∧ Forall is_text texts) textss →
  Forall (λ texts, ∃ preds, predicted7 classify model texts preds) textss →
  ∃ per_batch,
    ST_mapM (LLMPipeline.infer_indices torch_tensor classify self) idxss calls
    = (Ok per_batch, calls ++ textss)
    ∧ Forall2 (predicted7 classify model) textss per_batch.
Proof using Hmodel.
  intros Hfetch. revert calls.
  induction Hfetch as [|idxs texts idxss textss Hf _ IH]; intros calls Htext Hok.
  - exists []. rewrite app_nil_r. by split.
  - apply Forall_cons in Hok as [(preds & Hpreds) Hok].
    apply Forall_cons in Htext as [[Hne Htext1] Htext].
    destruct (IH (calls ++ [texts]) Htext Hok) as (per_batch & Hrun & Hall).
    exists (preds :: per_batch). split; [|by constructor].
    cbn. unfold mbind, ST_bind at 1.
    rewrite (infer_indices7_run _ _ _ Hf Hne Htext1).
    destruct Hpreds as (logits & -> & -> & _). cbn.
    unfold mbind, ST_bind. rewrite Hrun. cbn.
    by rewrite <- app_assoc.
Qed.

Lemma infer_dataset7_run (calls : list (list value)) :
  (0 < LLMPipeline._batch_size self)%Z →
  Forall (λ texts, ∃ preds, predicted7 classify model texts preds)
         (chunks (Z.to_nat (LLMPipeline._batch_size self)) src.*2) →
  ∃ per_batch,
    Forall2 (predicted7 classify model)
            (chunks (Z.to_nat (LLMPipeline._batch_size self)) src.*2) per_batch
    ∧ length (concat per_batch) = TaskDataset.__len__ (LLMPipeline._dataset self)
    ∧ LLMPipeline.infer_dataset torch_tensor classify self calls
      = (Ok (predictions_table tgt (concat per_batch)),
         calls ++ chunks (Z.to_nat (LLMPipeline._batch_size self)) src.*2).
Proof using Hmodel Hsrc Htgt Htexts.
  intros Hbs Hok.
  pose proof (column_length _ _ _ Hsrc) as Hlsrc.
  pose proof (column_length _ _ _ Htgt) as Hltgt.
  destruct (batches7 (Z.to_nat (LLMPipeline._batch_size self))) as [Hfetch Htext];
    [lia|].
  destruct (infer_loop7 _ _ calls Hfetch Htext Hok) as (per_batch & Hrun & Hall).
  assert (length (concat per_batch) = pd.len (TaskDataset.data (LLMPipeline._dataset self)))
    as Hlen.
  { rewrite <- Hlsrc, <- (length_fmap snd src).
    rewrite <- (chunks_concat (Z.to_nat (LLMPipeline._batch_size self)) src.*2) at 1
      by lia.
    apply (concat_lengths (λ _ _, True)).
    eapply Forall2_impl; [exact Hall|].
    intros texts preds (logits & _ & -> & <-). by rewrite length_fmap. }
  exists per_batch. split; [done|]. split; [done|].
  unfold LLMPipeline.infer_dataset, report_time, DataLoader, lift.
  rewrite decide_False by lia.
  unfold mbind, ST_bind at 1. unfold mbind, ST_bind at 1.
  unfold TaskDataset.data in *. rewrite Hrun, Htgt.
  unfold mbind, ST_bind, pd.of_series_and_list.
  rewrite decide_True by (rewrite length_fmap; congruence). done.
Qed.
End lab7_inference.

Section lab8_inference.
Import Lab8.
Variable torch_tensor : list value → res (list value).
Variable generate : string → Z → list value → res (list string).
Variable self : LLMPipeline.t.
Variable model : string.
Variables src tgt : pd.Series.
Hypothesis Hmodel : LLMPipeline._model self = Some model.
Hypothesis Hsrc :
  pd.column (TaskDataset.data (LLMPipeline._dataset self)) ColumnNames.SOURCE = Ok src.
Hypothesis Htgt :
  pd.column (TaskDataset.data (LLMPipeline._dataset self)) ColumnNames.TARGET = Ok tgt.

Lemma getitem8_items (i : nat) (v : value) :
  items8 src !! i = Some v →
  TaskDataset.__getitem__ (LLMPipeline._dataset self) i = Ok [v].
Proof using Hsrc.
  intros Hi. unfold TaskDataset.__getitem__, TaskDataset.data, items8 in *.
  rewrite Hsrc. cbn. unfold pd.iloc.
  rewrite !list_lookup_fmap in Hi.
  destruct (src !! i) as [kv|]; [|done]. by injection Hi as <-.
Qed.

Lemma infer_indices8_run (preds : list string) (idxs : list nat)
    (texts : list value) (calls : list (list value)) :
  res_mapM (TaskDataset.__getitem__ (LLMPipeline._dataset self)) idxs
    = Ok ((λ v, [v]) <$> texts) →
  texts ≠ [] → Forall is_text texts →
  LLMPipeline.infer_indices torch_tensor generate self preds idxs calls
  = ((λ pred : list string, preds ++ pred)
       <$> generate model (LLMPipeline._max_length self) texts,
     calls ++ [texts]).
Proof using Hmodel.
  intros Hfetch Hne Htext.
  unfold LLMPipeline.infer_indices, LLMPipeline._infer_batch,
    LLMPipeline.run_model, lift, first_of.
  rewrite Hfetch, Hmodel.
  unfold mbind, mret, ST_bind, ST_ret. rewrite collate_texts by done.
  by destruct (generate model _ texts).
Qed.

(** The items of the lab 8 dataset are strings whatever the cells are. *)
Lemma items8_texts : Forall is_text (items8 src).
Proof. unfold items8. apply Forall_fmap, Forall_true. by intros v. Qed.

Lemma batches8 (n : nat) :
  0 < n →
  Forall2 (λ idxs texts,
      res_mapM (TaskDataset.__getitem__ (LLMPipeline._dataset self)) idxs
      = Ok ((λ v, [v]) <$> texts))
    (chunks n (seq 0 (TaskDataset.__len__ (LLMPipeline._dataset self))))
    (chunks n (items8 src))
  ∧ Forall (λ texts, texts ≠ [] ∧ Forall is_text texts) (chunks n (items8 src)).
Proof using Hsrc.
  intros Hn. split.
  - pose proof (chunks_fetch _ _ getitem8_items n) as Hfetch.
    assert (length (items8 src) = length src) as Hlitems
      by (unfold items8; by rewrite !length_fmap).
    by rewrite Hlitems, (column_length _ _ _ Hsrc) in Hfetch.
  - apply chunks_upto_Forall; [done | apply items8_texts].
Qed.

Lemma infer_loop8 (idxss : list (list nat)) (textss : list (list value))
    (preds : list string) (calls : list (list value)) :
  Forall2 (λ idxs texts,
      res_mapM (TaskDataset.__getitem__ (LLMPipeline._dataset self)) idxs
      = Ok ((λ v, [v]) <$> texts)) idxss textss →
  Forall (λ texts, texts ≠ [] ∧ Forall is_text texts) textss →
  Forall (λ texts, ∃ pred,
            predicted8 generate model (LLMPipeline._max_length self) texts pred)
         textss →
  ∃ per_batch,
    ST_foldM (LLMPipeline.infer_indices torch_tensor generate self) preds idxss calls
    = (Ok (preds ++ concat per_batch), calls ++ textss)
    ∧ Forall2 (predicted8 generate model (LLMPipeline._max_length self))
              textss per_batch.
Proof using Hmodel.
  intros Hfetch. revert preds calls.
  induction Hfetch as [|idxs texts idxss textss Hf _ IH];
    intros preds calls Htext Hok.
  - exists []. cbn. rewrite !app_nil_r. by split.
  - apply Forall_cons in Hok as [(pred & Hpred) Hok].
    apply Forall_cons in Htext as [[Hne Htext1] Htext].
    destruct (IH (preds ++ pred) (calls ++ [texts]) Htext Hok)
      as (per_batch & Hrun & Hall).
    exists (pred :: per_batch). split; [|by constructor].
    cbn. unfold mbind, ST_bind at 1.
    rewrite (infer_indices8_run _ _ _ _ Hf Hne Htext1).
    destruct Hpred as [-> _]. cbn.
    by rewrite Hrun, <- !app_assoc.
Qed.

Lemma infer_dataset8_run (calls : list (list value)) :
  (0 < LLMPipeline._batch_size self)%Z →
  Forall (λ texts, ∃ pred,
            predicted8 generate model (LLMPipeline._max_length self) texts pred)
         (chunks (Z.to_nat (LLMPipeline._batch_size self)) (items8 src)) →
  ∃ per_batch,
    Forall2 (predicted8 generate model (LLMPipeline._max_length self))
            (chunks (Z.to_nat (LLMPipeline._batch_size self)) (items8 src)) per_batch
    ∧ length (concat per_batch) = TaskDataset.__len__ (LLMPipeline._dataset self)
    ∧ LLMPipeline.infer_dataset torch_tensor generate self calls
      = (Ok (predictions_table tgt (concat per_batch)),
         calls ++ chunks (Z.to_nat (LLMPipeline._batch_size self)) (items8 src)).
Proof using Hmodel Hsrc Htgt.
  intros Hbs Hok.
  pose proof (column_length _ _ _ Hsrc) as Hlsrc.
  pose proof (column_length _ _ _ Htgt) as Hltgt.
  destruct (batches8 (Z.to_nat (LLMPipeline._batch_size self))) as [Hfetch Htext];
    [lia|].
  assert (length (items8 src) = length src) as Hlitems
    by (unfold items8; by rewrite !length_fmap).
  destruct (infer_loop8 _ _ [] calls Hfetch Htext Hok) as (per_batch & Hrun & Hall).
  assert (length (concat per_batch) = pd.len (TaskDataset.data (LLMPipeline._dataset self)))
    as Hlen.
  { rewrite <- Hlsrc, <- Hlitems.
    rewrite <- (chunks_concat (Z.to_nat (LLMPipeline._batch_size self)) (items8 src)) at 1
      by lia.
    apply (concat_lengths (λ _ _, True)).
    eapply Forall2_impl; [exact Hall|].
    by intros texts preds [_ ?]. }
  exists per_batch. split; [done|]. split; [done|].
  unfold LLMPipeline.infer_dataset, report_time, DataLoader, lift.
  rewrite decide_False by lia.
  unfold mbind, ST_bind at 1. unfold mbind, ST_bind at 1.
  unfold TaskDataset.data in *. rewrite Hrun, Htgt.
  unfold mbind, ST_bind, pd.of_series_and_list. cbn [app].
  rewrite decide_True by (rewrite length_fmap; congruence). done.
Qed.
End lab8_inference.

Lemma infer_dataset7_returns torch_tensor classify (self : Lab7.LLMPipeline.t) calls df :
  (Lab7.LLMPipeline.infer_dataset torch_tensor classify self calls).1 = Ok df →
  pd.columns df = ["target"; "prediction"].
Proof.
  unfold Lab7.LLMPipeline.infer_dataset, report_time, lift, mbind, ST_bind.
  destruct (DataLoader _ _) as [dataloader|e]; [|done].
  destruct (ST_mapM _ _ _) as [[batches|e] calls']; [|done].
  destruct (pd.column _ _) as [target|e]; [|done].
  unfold pd.of_series_and_list. case_decide; [|done]. by intros [= <-].
Qed.

Lemma infer_dataset8_returns torch_tensor generate (self : Lab8.LLMPipeline.t) calls df :
  (Lab8.LLMPipeline.infer_dataset torch_tensor generate self calls).1 = Ok df →
  pd.columns df = ["target"; "prediction"].
Proof.
  unfold Lab8.LLMPipeline.infer_dataset, report_time, lift, mbind, ST_bind.
  destruct (DataLoader _ _) as [dataloader|e]; [|done].
  destruct (ST_foldM _ _ _ _) as [[preds|e] calls']; [|done].
  destruct (pd.column _ _) as [target|e]; [|done].
  unfold pd.of_series_and_list. case_decide; [|done]. by intros [= <-].
Qed.

(** C6.  The table [infer_dataset] returns has the two columns [target]
    and [prediction], in both labs; and it does return a table when the
    model is there, the batch size is positive, the dataset has a source
    and a target column, the items are strings (in lab 7 the source cells
    are the items, in lab 8 every item is [str] of its cell), and the
    model gives one prediction for each text of each batch. *)
Theorem infer_dataset_columns :
  (∀ torch_tensor classify (self : Lab7.LLMPipeline.t) calls,
     (∀ df, (Lab7.LLMPipeline.infer_dataset torch_tensor classify self calls).1
            = Ok df →
            pd.columns df = ["target"; "prediction"])
     ∧ (∀ model src tgt,
          Lab7.LLMPipeline._model self = Some model →
          pd.column (Lab7.TaskDataset.data (Lab7.LLMPipeline._dataset self))
                    ColumnNames.SOURCE = Ok src →
          pd.column (Lab7.TaskDataset.data (Lab7.LLMPipeline._dataset self))
                    ColumnNames.TARGET = Ok tgt →
          Forall is_text src.*2 →
          (0 < Lab7.LLMPipeline._batch_size self)%Z →
          Forall (λ texts, ∃ preds, predicted7 classify model texts preds)
                 (chunks (Z.to_nat (Lab7.LLMPipeline._batch_size self)) src.*2) →
          ∃ df, (Lab7.LLMPipeline.infer_dataset torch_tensor classify self calls).1
                = Ok df
            ∧ pd.columns df = ["target"; "prediction"]))
  ∧ (∀ torch_tensor generate (self : Lab8.LLMPipeline.t) calls,
     (∀ df, (Lab8.LLMPipeline.infer_dataset torch_tensor generate self calls).1
            = Ok df →
            pd.columns df = ["target"; "prediction"])
     ∧ (∀ model src tgt,
          Lab8.LLMPipeline._model self = Some model →
          pd.column (Lab8.TaskDataset.data (Lab8.LLMPipeline._dataset self))
                    ColumnNames.SOURCE = Ok src →
          pd.column (Lab8.TaskDataset.data (Lab8.LLMPipeline._dataset self))
                    ColumnNames.TARGET = Ok tgt →
          (0 < Lab8.LLMPipeline._batch_size self)%Z →
          Forall (λ texts, ∃ pred,
                    predicted8 generate model (Lab8.LLMPipeline._max_length self)
                               texts pred)
                 (chunks (Z.to_nat (Lab8.LLMPipeline._batch_size self)) (items8 src)) →
          ∃ df, (Lab8.LLMPipeline.infer_dataset torch_tensor generate self calls).1
                = Ok df
            ∧ pd.columns df = ["target"; "prediction"])).
Proof.
  split; intros tt ext self calls; (split; [intros df|]).
  - apply infer_dataset7_returns.
  - intros model src tgt Hmodel Hsrc Htgt Htexts Hbs Hok.
    destruct (infer_dataset7_run tt ext self model src tgt Hmodel Hsrc Htgt Htexts
                calls Hbs Hok) as (per_batch & _ & _ & ->).
    eexists. by split.
  - apply infer_dataset8_returns.
  - intros model src tgt Hmodel Hsrc Htgt Hbs Hok.
    destruct (infer_dataset8_run tt ext self model src tgt Hmodel Hsrc Htgt calls Hbs Hok)
      as (per_batch & _ & _ & ->).
    eexists. by split.
Qed.

Lemma infer_dataset_columns_witness :
  (∃ df, (Lab7.LLMPipeline.infer_dataset any_tensor always_toxic pipeline7 []).1 = Ok df
     ∧ pd.columns df = ["target"; "prediction"])
  ∧ (∃ df, (Lab8.LLMPipeline.infer_dataset any_tensor always_s pipeline8 []).1 = Ok df
     ∧ pd.columns df = ["target"; "prediction"]).
Proof.
  split.
  - apply (proj2 (proj1 infer_dataset_columns any_tensor always_toxic pipeline7 [])
             "bert"
             [(0%Z, VStr "a"); (1%Z, VStr "b"); (2%Z, VStr "c")]
             [(0%Z, VInt 1); (1%Z, VInt 0); (2%Z, VInt 1)]).
    + reflexivity.
    + reflexivity.
    + reflexivity.
    + compute_done.
    + reflexivity.
    + vm_compute. repeat constructor; eexists; eexists; repeat split; reflexivity.
  - apply (proj2 (proj2 infer_dataset_columns any_tensor always_s pipeline8 []) "t5"
             [(0%Z, VStr "long a"); (1%Z, VStr "long b"); (2%Z, VStr "long c")]
             [(0%Z, VStr "a"); (1%Z, VStr "b"); (2%Z, VStr "c")]).
    + reflexivity.
    + reflexivity.
    + reflexivity.
    + reflexivity.
    + vm_compute. repeat constructor; eexists; repeat split; reflexivity.
Defined.



(** ** The arguments of the metric *)

Section evaluator_facts.
Variable score : Type.
Variable read_csv : string → res pd.DataFrame.
Variable Metric : Type.

(** What lab 8 hands to every [compute] call: the prediction column as
    the predictions, the target column as the references. *)
Lemma run8_arguments (load : string → Z → res Metric)
    (compute : Metric → Lab8.TaskEvaluator.call → res (gmap string score))
    (ROUGE : string) (self : Lab8.TaskEvaluator.t) (target2pred : pd.DataFrame)
    (tgt prd : pd.Series) (calls : list Lab8.TaskEvaluator.call) :
  read_csv (Lab8.TaskEvaluator.data_path self) = Ok target2pred →
  pd.column target2pred ColumnNames.TARGET = Ok tgt →
  pd.column target2pred ColumnNames.PREDICTION = Ok prd →
  ∃ new,
    (Lab8.TaskEvaluator.run score read_csv Metric load compute ROUGE self calls).2
    = calls ++ new
    ∧ Forall (λ c, Lab8.TaskEvaluator.predictions c = prd
                   ∧ Lab8.TaskEvaluator.references c = tgt) new.
Proof.
  intros Hread Htgt Hprd. unfold Lab8.TaskEvaluator.run, lift.
  unfold mbind, ST_bind at 1. rewrite Hread.
  generalize (∅ : gmap string score) as results. revert calls.
  induction (Lab8.TaskEvaluator.metrics self) as [|metric metrics IH];
    intros calls results; cbn.
  - exists []. by rewrite app_nil_r.
  - unfold mbind, ST_bind at 1.
    unfold Lab8.TaskEvaluator.run_metric at 1.
    unfold Lab8.TaskEvaluator.run_compute, lift, mbind, mret, ST_bind, ST_ret.
    destruct (load metric 77%Z) as [m|e]; [|exists []; by rewrite app_nil_r].
    rewrite Hprd, Htgt.
    set (c := Lab8.TaskEvaluator.mkCall metric prd tgt).
    assert (∀ rest, Forall (λ c, Lab8.TaskEvaluator.predictions c = prd
                   ∧ Lab8.TaskEvaluator.references c = tgt) rest →
            Forall (λ c, Lab8.TaskEvaluator.predictions c = prd
                   ∧ Lab8.TaskEvaluator.references c = tgt) (c :: rest)) as Hc
      by (intros rest ?; by constructor).
    destruct (compute m c) as [result|e]; [|exists [c]; split; [done|by apply Hc]].
    destruct (if decide (metric = ROUGE) then _ else _) as [v|e];
      [|exists [c]; split; [done|by apply Hc]].
    destruct (IH (calls ++ [c]) (<[metric:=v]> results)) as (new & Heq & Hnew).
    exists (c :: new). split; [|by apply Hc].
    transitivity ((calls ++ [c]) ++ new); [exact Heq | by rewrite <- app_assoc].
Qed.

(** What lab 7 hands to every [compute] call: the target column as the
    predictions, the prediction column as the references. *)
Lemma run7_arguments (load : string → res Metric)
    (compute : Metric → Lab7.TaskEvaluator.call → res (gmap string score))
    (self : Lab7.TaskEvaluator.t) (target2pred : pd.DataFrame)
    (tgt prd : pd.Series) (calls : list Lab7.TaskEvaluator.call) :
  read_csv (Lab7.TaskEvaluator.data_path self) = Ok target2pred →
  pd.column target2pred ColumnNames.TARGET = Ok tgt →
  pd.column target2pred ColumnNames.PREDICTION = Ok prd →
  ∃ new,
    (Lab7.TaskEvaluator.run score read_csv Metric load compute self calls).2
    = calls ++ new
    ∧ Forall (λ c, Lab7.TaskEvaluator.predictions c = tgt
                   ∧ Lab7.TaskEvaluator.references c = prd) new.
Proof.
  intros Hread Htgt Hprd. unfold Lab7.TaskEvaluator.run, report_time, lift.
  unfold mbind, ST_bind at 1. rewrite Hread.
  generalize (∅ : gmap string score) as results. revert calls.
  induction (Lab7.TaskEvaluator.metrics self) as [|metric metrics IH];
    intros calls results; cbn.
  - exists []. by rewrite app_nil_r.
  - unfold mbind, ST_bind at 1.
    unfold Lab7.TaskEvaluator.run_metric at 1.
    unfold Lab7.TaskEvaluator.run_compute, lift, mbind, mret, ST_bind, ST_ret.
    destruct (load metric) as [m|e]; [|exists []; by rewrite app_nil_r].
    rewrite Hprd, Htgt.
    set (c := Lab7.TaskEvaluator.mkCall metric tgt prd "micro").
    assert (∀ rest, Forall (λ c, Lab7.TaskEvaluator.predictions c = tgt
                   ∧ Lab7.TaskEvaluator.references c = prd) rest →
            Forall (λ c, Lab7.TaskEvaluator.predictions c = tgt
                   ∧ Lab7.TaskEvaluator.references c = prd) (c :: rest)) as Hc
      by (intros rest ?; by constructor).
    destruct (compute m c) as [result|e]; [|exists [c]; split; [done|by apply Hc]].
    destruct (IH (calls ++ [c]) (result ∪ results)) as (new & Heq & Hnew).
    exists (c :: new). split; [|by apply Hc].
    transitivity ((calls ++ [c]) ++ new); [exact Heq | by rewrite <- app_assoc].
Qed.
End evaluator_facts.

(** C1 at a file where target and prediction differ.  The one [compute]
    call of the lab 7 [run] gets the target column [1, 1] as its
    predictions and the prediction column [0, 1] as its references; the
    call of the lab 8 [run] on the same file gets them the other way
    round. *)
Theorem run7_swaps_predictions_and_references :
  pd.column predictions_csv ColumnNames.TARGET = Ok [(0%Z, VInt 1); (1%Z, VInt 1)]
  ∧ pd.column predictions_csv ColumnNames.PREDICTION
    = Ok [(0%Z, VInt 0); (1%Z, VInt 1)]
  ∧ (Lab7.TaskEvaluator.run Z read_predictions string (λ name, Ok name)
       (λ _ _, Ok ∅) evaluator7 []).2
    = [Lab7.TaskEvaluator.mkCall "f1"
         [(0%Z, VInt 1); (1%Z, VInt 1)] [(0%Z, VInt 0); (1%Z, VInt 1)] "micro"]
  ∧ (Lab8.TaskEvaluator.run Z read_predictions string (λ name _, Ok name)
       (λ _ _, Ok ∅) "rouge" evaluator8 []).2
    = [Lab8.TaskEvaluator.mkCall "rouge"
         [(0%Z, VInt 0); (1%Z, VInt 1)] [(0%Z, VInt 1); (1%Z, VInt 1)]].
Proof. split_and!; reflexivity. Qed.

(** ** Exceptions *)

(** C7.  An exception raised by a step of a stage is the exception of
    the stage, as it was raised and in the state the step left: nothing is
    caught, tried again or carried on with.  Step by step, for every step
    of the four stages:
    - import: the download; the type check of [obtain] itself;
    - preprocess: in [analyze] the lookup of the column of the samples
      and [map(len)]; in the lab 7 [transform] the lookup of the target
      column and [reset_index] (the assignment between the two has
      nothing to raise once the lookup returned); in the lab 8
      [transform] [drop] and [reset_index]; [_data] holds the table the
      step was reached with;
    - infer: in [_infer_batch] the model; in [infer_sample] the batch and
      the first prediction; in [infer_dataset] the data loader, then for a
      batch, after the batches before it went through, the items, the
      collation and the batch itself, and after the last batch the lookup
      of the target column and the construction of the table; the model
      is run on no later batch (in lab 8 the collation has nothing to
      raise: the items are strings);
    - evaluate: in [run] the file, then for a metric, after the metrics
      before it went through, [load], the two column lookups, [compute]
      and (lab 8) the lookup of the score; no later metric is computed.
    Lab 7 and lab 8. *)
Theorem errors_propagate :
  (∀ load_dataset (self : RawDataImporter.t) e,
     load_dataset (RawDataImporter._hf_name self) "train" = Raise e →
     RawDataImporter.obtain load_dataset self = (Raise e, self))
  ∧ (∀ load_dataset (self : RawDataImporter.t) loaded,
     load_dataset (RawDataImporter._hf_name self) "train" = Ok loaded →
     RawDataImporter.isinstance_DataFrame loaded = false →
     RawDataImporter.obtain load_dataset self
     = (Raise (TypeError "Downloaded dataset's type is not pd.DataFrame"),
        RawDataImporter.mk (RawDataImporter._hf_name self) (Some loaded)))
  ∧ (∀ (σ : state) df e,
     heap σ !! _raw_data (self σ) = Some df →
     pd.getitem df "neutral" = Raise e →
     Lab7.RawDataPreprocessor.analyze σ = (Raise e, σ))
  ∧ (∀ (σ : state) df col e,
     heap σ !! _raw_data (self σ) = Some df →
     pd.getitem df "neutral" = Ok col →
     map_len col = Raise e →
     Lab7.RawDataPreprocessor.analyze σ = (Raise e, σ))
  ∧ (∀ (σ : state) df e,
     heap σ !! _raw_data (self σ) = Some df →
     pd.getitem df "article_content" = Raise e →
     Lab8.RawDataPreprocessor.analyze σ = (Raise e, σ))
  ∧ (∀ (σ : state) df col e,
     heap σ !! _raw_data (self σ) = Some df →
     pd.getitem df "article_content" = Ok col →
     map_len col = Raise e →
     Lab8.RawDataPreprocessor.analyze σ = (Raise e, σ))
  ∧ (∀ (σ : state) df e,
     heap σ !! _raw_data (self σ) = Some df →
     pd.getitem (pd.drop_duplicates (pd.rename mapping7 df)) ColumnNames.TARGET
       = Raise e →
     (Lab7.RawDataPreprocessor.transform σ).1 = Raise e
     ∧ data_of (Lab7.RawDataPreprocessor.transform σ).2
         = Some (pd.drop_duplicates (pd.rename mapping7 df)))
  ∧ (∀ (df col : pd.DataFrame) (label : string) (f : value → value),
     pd.getitem df label = Ok col →
     ∃ df2, pd.setitem df label (pd.map f col) = Ok df2)
  ∧ (∀ (σ : state) df col df2 e,
     heap σ !! _raw_data (self σ) = Some df →
     pd.getitem (pd.drop_duplicates (pd.rename mapping7 df)) ColumnNames.TARGET
       = Ok col →
     pd.setitem (pd.drop_duplicates (pd.rename mapping7 df)) ColumnNames.TARGET
                (pd.map Lab7.RawDataPreprocessor.to_label col) = Ok df2 →
     pd.reset_index df2 = Raise e →
     (Lab7.RawDataPreprocessor.transform σ).1 = Raise e
     ∧ data_of (Lab7.RawDataPreprocessor.transform σ).2 = Some df2)
  ∧ (∀ (σ : state) df e,
     heap σ !! _raw_data (self σ) = Some df →
     pd.drop ["title"; "date"; "url"] df = Raise e →
     (Lab8.RawDataPreprocessor.transform σ).1 = Raise e
     ∧ data_of (Lab8.RawDataPreprocessor.transform σ).2 = Some df)
  ∧ (∀ (σ : state) df df1 e,
     heap σ !! _raw_data (self σ) = Some df →
     pd.drop ["title"; "date"; "url"] df = Ok df1 →
     pd.reset_index (pd.rename mapping8 df1) = Raise e →
     (Lab8.RawDataPreprocessor.transform σ).1 = Raise e
     ∧ data_of (Lab8.RawDataPreprocessor.transform σ).2
       = Some (pd.rename mapping8 df1))
  ∧ (∀ classify (self : Lab7.LLMPipeline.t) model batch texts calls e,
     Lab7.LLMPipeline._model self = Some model →
     first_of batch = Ok texts →
     classify model texts = Raise e →
     Lab7.LLMPipeline._infer_batch classify self batch calls
     = (Raise e, calls ++ [texts]))
  ∧ (∀ classify (self : Lab7.LLMPipeline.t) model sample calls calls' e,
     Lab7.LLMPipeline._model self = Some model →
     Lab7.LLMPipeline._infer_batch classify self [sample] calls = (Raise e, calls') →
     Lab7.LLMPipeline.infer_sample classify self sample calls = (Raise e, calls'))
  ∧ (∀ classify (self : Lab7.LLMPipeline.t) model sample calls calls' predictions e,
     Lab7.LLMPipeline._model self = Some model →
     Lab7.LLMPipeline._infer_batch classify self [sample] calls
       = (Ok predictions, calls') →
     first_of predictions = Raise e →
     Lab7.LLMPipeline.infer_sample classify self sample calls = (Raise e, calls'))
  ∧ (∀ torch_tensor classify (self : Lab7.LLMPipeline.t) calls e,
     DataLoader (Lab7.TaskDataset.__len__ (Lab7.LLMPipeline._dataset self))
                (Lab7.LLMPipeline._batch_size self) = Raise e →
     Lab7.LLMPipeline.infer_dataset torch_tensor classify self calls = (Raise e, calls))
  ∧ (∀ torch_tensor classify (self : Lab7.LLMPipeline.t) calls pre idxs post batches
      calls1 e,
     DataLoader (Lab7.TaskDataset.__len__ (Lab7.LLMPipeline._dataset self))
                (Lab7.LLMPipeline._batch_size self) = Ok (pre ++ idxs :: post) →
     ST_mapM (Lab7.LLMPipeline.infer_indices torch_tensor classify self) pre calls
     = (Ok batches, calls1) →
     res_mapM (Lab7.TaskDataset.__getitem__ (Lab7.LLMPipeline._dataset self)) idxs
       = Raise e →
     Lab7.LLMPipeline.infer_dataset torch_tensor classify self calls
       = (Raise e, calls1))
  ∧ (∀ torch_tensor classify (self : Lab7.LLMPipeline.t) calls pre idxs post batches
      calls1 items e,
     DataLoader (Lab7.TaskDataset.__len__ (Lab7.LLMPipeline._dataset self))
                (Lab7.LLMPipeline._batch_size self) = Ok (pre ++ idxs :: post) →
     ST_mapM (Lab7.LLMPipeline.infer_indices torch_tensor classify self) pre calls
     = (Ok batches, calls1) →
     res_mapM (Lab7.TaskDataset.__getitem__ (Lab7.LLMPipeline._dataset self)) idxs
       = Ok items →
     default_collate torch_tensor items = Raise e →
     Lab7.LLMPipeline.infer_dataset torch_tensor classify self calls
       = (Raise e, calls1))
  ∧ (∀ torch_tensor classify (self : Lab7.LLMPipeline.t) calls pre idxs post batches
      calls1 items batch calls2 e,
     DataLoader (Lab7.TaskDataset.__len__ (Lab7.LLMPipeline._dataset self))
                (Lab7.LLMPipeline._batch_size self) = Ok (pre ++ idxs :: post) →
     ST_mapM (Lab7.LLMPipeline.infer_indices torch_tensor classify self) pre calls
     = (Ok batches, calls1) →
     res_mapM (Lab7.TaskDataset.__getitem__ (Lab7.LLMPipeline._dataset self)) idxs
       = Ok items →
     default_collate torch_tensor items = Ok batch →
     Lab7.LLMPipeline._infer_batch classify self batch calls1 = (Raise e, calls2) →
     Lab7.LLMPipeline.infer_dataset torch_tensor classify self calls
       = (Raise e, calls2))
  ∧ (∀ torch_tensor classify (self : Lab7.LLMPipeline.t) calls dataloader batches
      calls1 e,
     DataLoader (Lab7.TaskDataset.__len__ (Lab7.LLMPipeline._dataset self))
                (Lab7.LLMPipeline._batch_size self) = Ok dataloader →
     ST_mapM (Lab7.LLMPipeline.infer_indices torch_tensor classify self) dataloader
       calls
     = (Ok batches, calls1) →
     pd.column (Lab7.TaskDataset.data (Lab7.LLMPipeline._dataset self))
               ColumnNames.TARGET = Raise e →
     Lab7.LLMPipeline.infer_dataset torch_tensor classify self calls
       = (Raise e, calls1))
  ∧ (∀ torch_tensor classify (self : Lab7.LLMPipeline.t) calls dataloader batches
      calls1 target e,
     DataLoader (Lab7.TaskDataset.__len__ (Lab7.LLMPipeline._dataset self))
                (Lab7.LLMPipeline._batch_size self) = Ok dataloader →
     ST_mapM (Lab7.LLMPipeline.infer_indices torch_tensor classify self) dataloader
       calls
     = (Ok batches, calls1) →
     pd.column (Lab7.TaskDataset.data (Lab7.LLMPipeline._dataset self))
               ColumnNames.TARGET = Ok target →
     pd.of_series_and_list ColumnNames.TARGET target ColumnNames.PREDICTION
       (VStr <$> concat batches) = Raise e →
     Lab7.LLMPipeline.infer_dataset torch_tensor classify self calls
       = (Raise e, calls1))
  ∧ (∀ generate (self : Lab8.LLMPipeline.t) model batch texts calls e,
     Lab8.LLMPipeline._model self = Some model →
     first_of batch = Ok texts →
     generate model (Lab8.LLMPipeline._max_length self) texts = Raise e →
     Lab8.LLMPipeline._infer_batch generate self batch calls
     = (Raise e, calls ++ [texts]))
  ∧ (∀ generate (self : Lab8.LLMPipeline.t) model sample calls calls' e,
     Lab8.LLMPipeline._model self = Some model →
     Lab8.LLMPipeline._infer_batch generate self [sample] calls = (Raise e, calls') →
     Lab8.LLMPipeline.infer_sample generate self sample calls = (Raise e, calls'))
  ∧ (∀ generate (self : Lab8.LLMPipeline.t) model sample calls calls' predictions e,
     Lab8.LLMPipeline._model self = Some model →
     Lab8.LLMPipeline._infer_batch generate self [sample] calls
       = (Ok predictions, calls') →
     first_of predictions = Raise e →
     Lab8.LLMPipeline.infer_sample generate self sample calls = (Raise e, calls'))
  ∧ (∀ torch_tensor generate (self : Lab8.LLMPipeline.t) calls e,
     DataLoader (Lab8.TaskDataset.__len__ (Lab8.LLMPipeline._dataset self))
                (Lab8.LLMPipeline._batch_size self) = Raise e →
     Lab8.LLMPipeline.infer_dataset torch_tensor generate self calls = (Raise e, calls))
  ∧ (∀ torch_tensor generate (self : Lab8.LLMPipeline.t) calls pre idxs post preds
      calls1 e,
     DataLoader (Lab8.TaskDataset.__len__ (Lab8.LLMPipeline._dataset self))
                (Lab8.LLMPipeline._batch_size self) = Ok (pre ++ idxs :: post) →
     ST_foldM (Lab8.LLMPipeline.infer_indices torch_tensor generate self) [] pre calls
     = (Ok preds, calls1) →
     res_mapM (Lab8.TaskDataset.__getitem__ (Lab8.LLMPipeline._dataset self)) idxs
       = Raise e →
     Lab8.LLMPipeline.infer_dataset torch_tensor generate self calls
       = (Raise e, calls1))
  ∧ (∀ torch_tensor (self : Lab8.LLMPipeline.t) dataloader idxs items,
     DataLoader (Lab8.TaskDataset.__len__ (Lab8.LLMPipeline._dataset self))
                (Lab8.LLMPipeline._batch_size self) = Ok dataloader →
     idxs ∈ dataloader →
     res_mapM (Lab8.TaskDataset.__getitem__ (Lab8.LLMPipeline._dataset self)) idxs
       = Ok items →
     ∃ batch, default_collate torch_tensor items = Ok batch)
  ∧ (∀ torch_tensor generate (self : Lab8.LLMPipeline.t) calls pre idxs post preds
      calls1 items batch calls2 e,
     DataLoader (Lab8.TaskDataset.__len__ (Lab8.LLMPipeline._dataset self))
                (Lab8.LLMPipeline._batch_size self) = Ok (pre ++ idxs :: post) →
     ST_foldM (Lab8.LLMPipeline.infer_indices torch_tensor generate self) [] pre calls
     = (Ok preds, calls1) →
     res_mapM (Lab8.TaskDataset.__getitem__ (Lab8.LLMPipeline._dataset self)) idxs
       = Ok items →
     default_collate torch_tensor items = Ok batch →
     Lab8.LLMPipeline._infer_batch generate self batch calls1 = (Raise e, calls2) →
     Lab8.LLMPipeline.infer_dataset torch_tensor generate self calls
       = (Raise e, calls2))
  ∧ (∀ torch_tensor generate (self : Lab8.LLMPipeline.t) calls dataloader preds calls1
      e,
     DataLoader (Lab8.TaskDataset.__len__ (Lab8.LLMPipeline._dataset self))
                (Lab8.LLMPipeline._batch_size self) = Ok dataloader →
     ST_foldM (Lab8.LLMPipeline.infer_indices torch_tensor generate self) [] dataloader
       calls
     = (Ok preds, calls1) →
     pd.column (Lab8.TaskDataset.data (Lab8.LLMPipeline._dataset self))
               ColumnNames.TARGET = Raise e →
     Lab8.LLMPipeline.infer_dataset torch_tensor generate self calls
       = (Raise e, calls1))
  ∧ (∀ torch_tensor generate (self : Lab8.LLMPipeline.t) calls dataloader preds calls1
      target e,
     DataLoader (Lab8.TaskDataset.__len__ (Lab8.LLMPipeline._dataset self))
                (Lab8.LLMPipeline._batch_size self) = Ok dataloader →
     ST_foldM (Lab8.LLMPipeline.infer_indices torch_tensor generate self) [] dataloader
       calls
     = (Ok preds, calls1) →
     pd.column (Lab8.TaskDataset.data (Lab8.LLMPipeline._dataset self))
               ColumnNames.TARGET = Ok target →
     pd.of_series_and_list ColumnNames.TARGET target ColumnNames.PREDICTION
       (VStr <$> preds) = Raise e →
     Lab8.LLMPipeline.infer_dataset torch_tensor generate self calls
       = (Raise e, calls1))
  ∧ (∀ score read_csv Metric load compute (self : Lab7.TaskEvaluator.t) calls e,
     read_csv (Lab7.TaskEvaluator.data_path self) = Raise e →
     Lab7.TaskEvaluator.run score read_csv Metric load compute self calls
       = (Raise e, calls))
  ∧ (∀ score read_csv Metric load compute (self : Lab7.TaskEvaluator.t) target2pred
       calls pre metric post results calls1 e,
     read_csv (Lab7.TaskEvaluator.data_path self) = Ok target2pred →
     Lab7.TaskEvaluator.metrics self = pre ++ metric :: post →
     ST_foldM (Lab7.TaskEvaluator.run_metric score Metric load compute target2pred) ∅
       pre
              calls
     = (Ok results, calls1) →
     load metric = Raise e →
     Lab7.TaskEvaluator.run score read_csv Metric load compute self calls
       = (Raise e, calls1))
  ∧ (∀ score read_csv Metric load compute (self : Lab7.TaskEvaluator.t) target2pred
       calls pre metric post results calls1 m e,
     read_csv (Lab7.TaskEvaluator.data_path self) = Ok target2pred →
     Lab7.TaskEvaluator.metrics self = pre ++ metric :: post →
     ST_foldM (Lab7.TaskEvaluator.run_metric score Metric load compute target2pred) ∅
       pre
              calls
     = (Ok results, calls1) →
     load metric = Ok m →
     pd.column target2pred ColumnNames.TARGET = Raise e →
     Lab7.TaskEvaluator.run score read_csv Metric load compute self calls
       = (Raise e, calls1))
  ∧ (∀ score read_csv Metric load compute (self : Lab7.TaskEvaluator.t) target2pred
       calls pre metric post results calls1 m c1 e,
     read_csv (Lab7.TaskEvaluator.data_path self) = Ok target2pred →
     Lab7.TaskEvaluator.metrics self = pre ++ metric :: post →
     ST_foldM (Lab7.TaskEvaluator.run_metric score Metric load compute target2pred) ∅
       pre
              calls
     = (Ok results, calls1) →
     load metric = Ok m →
     pd.column target2pred ColumnNames.TARGET = Ok c1 →
     pd.column target2pred ColumnNames.PREDICTION = Raise e →
     Lab7.TaskEvaluator.run score read_csv Metric load compute self calls
       = (Raise e, calls1))
  ∧ (∀ score read_csv Metric load compute (self : Lab7.TaskEvaluator.t) target2pred
       calls pre metric post results calls1 m c1 c2 e,
     read_csv (Lab7.TaskEvaluator.data_path self) = Ok target2pred →
     Lab7.TaskEvaluator.metrics self = pre ++ metric :: post →
     ST_foldM (Lab7.TaskEvaluator.run_metric score Metric load compute target2pred) ∅
       pre
              calls
     = (Ok results, calls1) →
     load metric = Ok m →
     pd.column target2pred ColumnNames.TARGET = Ok c1 →
     pd.column target2pred ColumnNames.PREDICTION = Ok c2 →
     compute m (Lab7.TaskEvaluator.mkCall metric c1 c2 "micro") = Raise e →
     Lab7.TaskEvaluator.run score read_csv Metric load compute self calls
     = (Raise e, calls1 ++ [Lab7.TaskEvaluator.mkCall metric c1 c2 "micro"]))
  ∧ (∀ score read_csv Metric load compute ROUGE (self : Lab8.TaskEvaluator.t) calls e,
     read_csv (Lab8.TaskEvaluator.data_path self) = Raise e →
     Lab8.TaskEvaluator.run score read_csv Metric load compute ROUGE self calls
       = (Raise e, calls))
  ∧ (∀ score read_csv Metric load compute ROUGE (self : Lab8.TaskEvaluator.t)
      target2pred
       calls pre metric post results calls1 e,
     read_csv (Lab8.TaskEvaluator.data_path self) = Ok target2pred →
     Lab8.TaskEvaluator.metrics self = pre ++ metric :: post →
     ST_foldM (Lab8.TaskEvaluator.run_metric score Metric load compute ROUGE
       target2pred) ∅ pre
              calls
     = (Ok results, calls1) →
     load metric 77%Z = Raise e →
     Lab8.TaskEvaluator.run score read_csv Metric load compute ROUGE self calls
       = (Raise e, calls1))
  ∧ (∀ score read_csv Metric load compute ROUGE (self : Lab8.TaskEvaluator.t)
      target2pred
       calls pre metric post results calls1 m e,
     read_csv (Lab8.TaskEvaluator.data_path self) = Ok target2pred →
     Lab8.TaskEvaluator.metrics self = pre ++ metric :: post →
     ST_foldM (Lab8.TaskEvaluator.run_metric score Metric load compute ROUGE
       target2pred) ∅ pre
              calls
     = (Ok results, calls1) →
     load metric 77%Z = Ok m →
     pd.column target2pred ColumnNames.PREDICTION = Raise e →
     Lab8.TaskEvaluator.run score read_csv Metric load compute ROUGE self calls
       = (Raise e, calls1))
  ∧ (∀ score read_csv Metric load compute ROUGE (self : Lab8.TaskEvaluator.t)
      target2pred
       calls pre metric post results calls1 m c1 e,
     read_csv (Lab8.TaskEvaluator.data_path self) = Ok target2pred →
     Lab8.TaskEvaluator.metrics self = pre ++ metric :: post →
     ST_foldM (Lab8.TaskEvaluator.run_metric score Metric load compute ROUGE
       target2pred) ∅ pre
              calls
     = (Ok results, calls1) →
     load metric 77%Z = Ok m →
     pd.column target2pred ColumnNames.PREDICTION = Ok c1 →
     pd.column target2pred ColumnNames.TARGET = Raise e →
     Lab8.TaskEvaluator.run score read_csv Metric load compute ROUGE self calls
       = (Raise e, calls1))
  ∧ (∀ score read_csv Metric load compute ROUGE (self : Lab8.TaskEvaluator.t)
      target2pred
       calls pre metric post results calls1 m c1 c2 e,
     read_csv (Lab8.TaskEvaluator.data_path self) = Ok target2pred →
     Lab8.TaskEvaluator.metrics self = pre ++ metric :: post →
     ST_foldM (Lab8.TaskEvaluator.run_metric score Metric load compute ROUGE
       target2pred) ∅ pre
              calls
     = (Ok results, calls1) →
     load metric 77%Z = Ok m →
     pd.column target2pred ColumnNames.PREDICTION = Ok c1 →
     pd.column target2pred ColumnNames.TARGET = Ok c2 →
     compute m (Lab8.TaskEvaluator.mkCall metric c1 c2) = Raise e →
     Lab8.TaskEvaluator.run score read_csv Metric load compute ROUGE self calls
     = (Raise e, calls1 ++ [Lab8.TaskEvaluator.mkCall metric c1 c2]))
  ∧ (∀ score read_csv Metric load compute ROUGE (self : Lab8.TaskEvaluator.t)
      target2pred
       calls pre metric post results calls1 m c1 c2 result e,
     read_csv (Lab8.TaskEvaluator.data_path self) = Ok target2pred →
     Lab8.TaskEvaluator.metrics self = pre ++ metric :: post →
     ST_foldM (Lab8.TaskEvaluator.run_metric score Metric load compute ROUGE
       target2pred) ∅ pre
              calls
     = (Ok results, calls1) →
     load metric 77%Z = Ok m →
     pd.column target2pred ColumnNames.PREDICTION = Ok c1 →
     pd.column target2pred ColumnNames.TARGET = Ok c2 →
     compute m (Lab8.TaskEvaluator.mkCall metric c1 c2) = Ok result →
     (if decide (metric = ROUGE) then Lab8.TaskEvaluator.dict_get result "rougeL"
      else Lab8.TaskEvaluator.dict_get result metric) = Raise e →
     Lab8.TaskEvaluator.run score read_csv Metric load compute ROUGE self calls
     = (Raise e, calls1 ++ [Lab8.TaskEvaluator.mkCall metric c1 c2])).
Proof.
  split_and!.
  - intros load self e Hload. unfold RawDataImporter.obtain, report_time.
    by rewrite Hload.
  - intros load self loaded Hload Hnot. unfold RawDataImporter.obtain, report_time.
    by rewrite Hload, Hnot.
  - intros σ df e Hraw Hget. unfold Lab7.RawDataPreprocessor.analyze.
    by rewrite (analyze_column_run _ _ _ Hraw), Hget.
  - intros σ df col e Hraw Hget Hlen. unfold Lab7.RawDataPreprocessor.analyze.
    rewrite (analyze_column_run _ _ _ Hraw), Hget. cbn. by rewrite Hlen.
  - intros σ df e Hraw Hget. unfold Lab8.RawDataPreprocessor.analyze.
    by rewrite (analyze_column_run _ _ _ Hraw), Hget.
  - intros σ df col e Hraw Hget Hlen. unfold Lab8.RawDataPreprocessor.analyze.
    rewrite (analyze_column_run _ _ _ Hraw), Hget. cbn. by rewrite Hlen.
  - intros σ df e Hraw Hget. rewrite (transform7_run σ df Hraw). cbn [fst snd].
    rewrite data_of_after_transform. unfold transform7_steps. by rewrite Hget.
  - intros df col label f. unfold pd.getitem, pd.setitem.
    case_decide; [|done]. intros [= <-]. cbn [pd.columns pd.map].
    rewrite decide_True by done. by eexists.
  - intros σ df col df2 e Hraw Hget Hset Hreset.
    rewrite (transform7_run σ df Hraw). cbn [fst snd].
    rewrite data_of_after_transform. unfold transform7_steps.
    by rewrite Hget, Hset, Hreset.
  - intros σ df e Hraw Hdrop. rewrite (transform8_run σ df Hraw). cbn [fst snd].
    rewrite data_of_after_transform. unfold transform8_steps. by rewrite Hdrop.
  - intros σ df df1 e Hraw Hdrop Hreset.
    rewrite (transform8_run σ df Hraw). cbn [fst snd].
    rewrite data_of_after_transform. unfold transform8_steps.
    by rewrite Hdrop, Hreset.
  - intros classify self model batch texts calls e Hmodel Hfirst Hrun.
    unfold Lab7.LLMPipeline._infer_batch, Lab7.LLMPipeline.run_model, lift. rewrite
      Hmodel, Hfirst.
    unfold mbind, mret, ST_bind, ST_ret. by rewrite Hrun.
  - intros classify self model sample calls calls' e Hmodel Hbatch.
    unfold Lab7.LLMPipeline.infer_sample, report_time. rewrite Hmodel.
    unfold mbind, ST_bind. by rewrite Hbatch.
  - intros classify self model sample calls calls' predictions e Hmodel Hbatch
      Hfirst.
    unfold Lab7.LLMPipeline.infer_sample, report_time, lift. rewrite Hmodel.
    unfold mbind, ST_bind. by rewrite Hbatch, Hfirst.
  - intros tt classify self calls e Hdl.
    unfold Lab7.LLMPipeline.infer_dataset, report_time, lift, mbind, ST_bind. by
      rewrite Hdl.
  - intros tt classify self calls pre idxs post batches calls1 e Hdl Hpre Hfetch.
    assert (Lab7.LLMPipeline.infer_indices tt classify self idxs calls1
      = (Raise e, calls1))
      as Hx.
    { unfold Lab7.LLMPipeline.infer_indices, lift, mbind, ST_bind. by rewrite Hfetch. }
    unfold Lab7.LLMPipeline.infer_dataset, report_time, lift.
    rewrite Hdl. unfold mbind, ST_bind at 1. unfold mbind, ST_bind at 1.
    by rewrite (ST_mapM_raise _ _ _ _ _ _ _ _ _ Hpre Hx).
  - intros tt classify self calls pre idxs post batches calls1 items e Hdl Hpre
      Hfetch Hcollate.
    assert (Lab7.LLMPipeline.infer_indices tt classify self idxs calls1
      = (Raise e, calls1))
      as Hx.
    { unfold Lab7.LLMPipeline.infer_indices, lift, mbind, ST_bind. by rewrite Hfetch,
      Hcollate. }
    unfold Lab7.LLMPipeline.infer_dataset, report_time, lift.
    rewrite Hdl. unfold mbind, ST_bind at 1. unfold mbind, ST_bind at 1.
    by rewrite (ST_mapM_raise _ _ _ _ _ _ _ _ _ Hpre Hx).
  - intros tt classify self calls pre idxs post batches calls1 items batch calls2 e
      Hdl Hpre Hfetch Hcollate Hbatch.
    assert (Lab7.LLMPipeline.infer_indices tt classify self idxs calls1
      = (Raise e, calls2))
      as Hx.
    { unfold Lab7.LLMPipeline.infer_indices, lift, mbind, ST_bind.
      by rewrite Hfetch, Hcollate, Hbatch. }
    unfold Lab7.LLMPipeline.infer_dataset, report_time, lift.
    rewrite Hdl. unfold mbind, ST_bind at 1. unfold mbind, ST_bind at 1.
    by rewrite (ST_mapM_raise _ _ _ _ _ _ _ _ _ Hpre Hx).
  - intros tt classify self calls dataloader batches calls1 e Hdl Hloop Htgt.
    unfold Lab7.LLMPipeline.infer_dataset, report_time, lift.
    rewrite Hdl. unfold mbind, ST_bind at 1. unfold mbind, ST_bind at 1.
    rewrite Hloop. unfold mbind, ST_bind. by rewrite Htgt.
  - intros tt classify self calls dataloader batches calls1 target e Hdl Hloop Htgt
      Htable.
    unfold Lab7.LLMPipeline.infer_dataset, report_time, lift.
    rewrite Hdl. unfold mbind, ST_bind at 1. unfold mbind, ST_bind at 1.
    rewrite Hloop. unfold mbind, ST_bind. by rewrite Htgt, Htable.
  - intros generate self model batch texts calls e Hmodel Hfirst Hrun.
    unfold Lab8.LLMPipeline._infer_batch, Lab8.LLMPipeline.run_model, lift. rewrite
      Hmodel, Hfirst.
    unfold mbind, mret, ST_bind, ST_ret. by rewrite Hrun.
  - intros generate self model sample calls calls' e Hmodel Hbatch.
    unfold Lab8.LLMPipeline.infer_sample, report_time. rewrite Hmodel.
    unfold mbind, ST_bind. by rewrite Hbatch.
  - intros generate self model sample calls calls' predictions e Hmodel Hbatch
      Hfirst.
    unfold Lab8.LLMPipeline.infer_sample, report_time, lift. rewrite Hmodel.
    unfold mbind, ST_bind. by rewrite Hbatch, Hfirst.
  - intros tt generate self calls e Hdl.
    unfold Lab8.LLMPipeline.infer_dataset, report_time, lift, mbind, ST_bind. by
      rewrite Hdl.
  - intros tt generate self calls pre idxs post preds calls1 e Hdl Hpre Hfetch.
    assert (Lab8.LLMPipeline.infer_indices tt generate self preds idxs calls1
      = (Raise e, calls1))
      as Hx.
    { unfold Lab8.LLMPipeline.infer_indices, lift, mbind, ST_bind. by rewrite Hfetch. }
    unfold Lab8.LLMPipeline.infer_dataset, report_time, lift.
    rewrite Hdl. unfold mbind, ST_bind at 1. unfold mbind, ST_bind at 1.
    by rewrite (ST_foldM_raise _ _ _ _ _ _ _ _ _ _ Hpre Hx).
  - intros tt self dataloader idxs items Hdl Hin Hfetch.
    unfold DataLoader in Hdl. case_decide; [done|]. injection Hdl as <-.
    assert (Forall (λ batch : list nat, batch ≠ [] ∧ Forall (λ _, True) batch)
              (chunks (Z.to_nat (Lab8.LLMPipeline._batch_size self))
                      (seq 0 (Lab8.TaskDataset.__len__
                        (Lab8.LLMPipeline._dataset self))))) as Hne
      by (apply chunks_upto_Forall; [lia | by apply Forall_true]).
    rewrite Forall_forall in Hne. destruct (Hne idxs Hin) as [Hidxs _].
    destruct idxs as [|i idxs]; [done|]. cbn in Hfetch.
    destruct (Lab8.TaskDataset.__getitem__ _ i) as [item|e] eqn:Hitem; cbn in Hfetch;
      [|done].
    destruct (res_mapM _ idxs) as [rest|e]; cbn in Hfetch; [|done].
    injection Hfetch as <-.
    assert (∃ s, item = [VStr s]) as [s ->].
    { unfold Lab8.TaskDataset.__getitem__ in Hitem.
      destruct (pd.column _ _) as [source|e]; cbn in Hitem; [|done].
      destruct (pd.iloc source i) as [v|e]; cbn in Hitem; [|done].
      injection Hitem as <-. by eexists. }
    unfold default_collate. cbn. by eexists.
  - intros tt generate self calls pre idxs post preds calls1 items batch calls2 e
      Hdl Hpre Hfetch Hcollate Hbatch.
    assert (Lab8.LLMPipeline.infer_indices tt generate self preds idxs calls1
      = (Raise e, calls2))
      as Hx.
    { unfold Lab8.LLMPipeline.infer_indices, lift, mbind, ST_bind.
      by rewrite Hfetch, Hcollate, Hbatch. }
    unfold Lab8.LLMPipeline.infer_dataset, report_time, lift.
    rewrite Hdl. unfold mbind, ST_bind at 1. unfold mbind, ST_bind at 1.
    by rewrite (ST_foldM_raise _ _ _ _ _ _ _ _ _ _ Hpre Hx).
  - intros tt generate self calls dataloader preds calls1 e Hdl Hloop Htgt.
    unfold Lab8.LLMPipeline.infer_dataset, report_time, lift.
    rewrite Hdl. unfold mbind, ST_bind at 1. unfold mbind, ST_bind at 1.
    rewrite Hloop. unfold mbind, ST_bind. by rewrite Htgt.
  - intros tt generate self calls dataloader preds calls1 target e Hdl Hloop Htgt
      Htable.
    unfold Lab8.LLMPipeline.infer_dataset, report_time, lift.
    rewrite Hdl. unfold mbind, ST_bind at 1. unfold mbind, ST_bind at 1.
    rewrite Hloop. unfold mbind, ST_bind. by rewrite Htgt, Htable.
  - intros score read_csv Metric load compute self calls e Hread.
    unfold Lab7.TaskEvaluator.run, report_time, lift, mbind, ST_bind. by rewrite Hread.
  - intros score read_csv Metric load compute self t2p calls pre metric post
      results calls1 e Hread Hmetrics Hpre Hload.
    assert (Lab7.TaskEvaluator.run_metric score Metric load compute t2p results metric
              calls1 = (Raise e, calls1)) as Hx.
    { unfold Lab7.TaskEvaluator.run_metric, Lab7.TaskEvaluator.run_compute, lift,
      mbind, mret, ST_bind,
        ST_ret.
      by rewrite Hload. }
    unfold Lab7.TaskEvaluator.run, report_time, lift.
    unfold mbind, ST_bind at 1. rewrite Hread, Hmetrics.
    by apply (ST_foldM_raise _ _ _ _ _ _ _ _ _ _ Hpre Hx).
  - intros score read_csv Metric load compute self t2p calls pre metric post
      results calls1 m e Hread Hmetrics Hpre Hload Hc1.
    assert (Lab7.TaskEvaluator.run_metric score Metric load compute t2p results metric
              calls1 = (Raise e, calls1)) as Hx.
    { unfold Lab7.TaskEvaluator.run_metric, Lab7.TaskEvaluator.run_compute, lift,
      mbind, mret, ST_bind,
        ST_ret.
      by rewrite Hload, Hc1. }
    unfold Lab7.TaskEvaluator.run, report_time, lift.
    unfold mbind, ST_bind at 1. rewrite Hread, Hmetrics.
    by apply (ST_foldM_raise _ _ _ _ _ _ _ _ _ _ Hpre Hx).
  - intros score read_csv Metric load compute self t2p calls pre metric post
      results calls1 m c1 e Hread Hmetrics Hpre Hload Hc1 Hc2.
    assert (Lab7.TaskEvaluator.run_metric score Metric load compute t2p results metric
              calls1 = (Raise e, calls1)) as Hx.
    { unfold Lab7.TaskEvaluator.run_metric, Lab7.TaskEvaluator.run_compute, lift,
      mbind, mret, ST_bind,
        ST_ret.
      by rewrite Hload, Hc1, Hc2. }
    unfold Lab7.TaskEvaluator.run, report_time, lift.
    unfold mbind, ST_bind at 1. rewrite Hread, Hmetrics.
    by apply (ST_foldM_raise _ _ _ _ _ _ _ _ _ _ Hpre Hx).
  - intros score read_csv Metric load compute self t2p calls pre metric post
      results calls1 m c1 c2 e Hread Hmetrics Hpre Hload Hc1 Hc2 Hcompute.
    assert (Lab7.TaskEvaluator.run_metric score Metric load compute t2p results metric
              calls1
            = (Raise e, calls1 ++ [Lab7.TaskEvaluator.mkCall metric c1 c2 "micro"])) as
              Hx.
    { unfold Lab7.TaskEvaluator.run_metric, Lab7.TaskEvaluator.run_compute, lift,
      mbind, mret, ST_bind,
        ST_ret.
      by rewrite Hload, Hc1, Hc2, Hcompute. }
    unfold Lab7.TaskEvaluator.run, report_time, lift.
    unfold mbind, ST_bind at 1. rewrite Hread, Hmetrics.
    by apply (ST_foldM_raise _ _ _ _ _ _ _ _ _ _ Hpre Hx).
  - intros score read_csv Metric load compute ROUGE self calls e Hread.
    unfold Lab8.TaskEvaluator.run, lift, mbind, ST_bind. by rewrite Hread.
  - intros score read_csv Metric load compute ROUGE self t2p calls pre metric post
      results calls1 e Hread Hmetrics Hpre Hload.
    assert (Lab8.TaskEvaluator.run_metric score Metric load compute ROUGE t2p results
      metric
              calls1 = (Raise e, calls1)) as Hx.
    { unfold Lab8.TaskEvaluator.run_metric, Lab8.TaskEvaluator.run_compute, lift,
      mbind, mret, ST_bind,
        ST_ret.
      by rewrite Hload. }
    unfold Lab8.TaskEvaluator.run, lift.
    unfold mbind, ST_bind at 1. rewrite Hread, Hmetrics.
    by apply (ST_foldM_raise _ _ _ _ _ _ _ _ _ _ Hpre Hx).
  - intros score read_csv Metric load compute ROUGE self t2p calls pre metric post
      results calls1 m e Hread Hmetrics Hpre Hload Hc1.
    assert (Lab8.TaskEvaluator.run_metric score Metric load compute ROUGE t2p results
      metric
              calls1 = (Raise e, calls1)) as Hx.
    { unfold Lab8.TaskEvaluator.run_metric, Lab8.TaskEvaluator.run_compute, lift,
      mbind, mret, ST_bind,
        ST_ret.
      by rewrite Hload, Hc1. }
    unfold Lab8.TaskEvaluator.run, lift.
    unfold mbind, ST_bind at 1. rewrite Hread, Hmetrics.
    by apply (ST_foldM_raise _ _ _ _ _ _ _ _ _ _ Hpre Hx).
  - intros score read_csv Metric load compute ROUGE self t2p calls pre metric post
      results calls1 m c1 e Hread Hmetrics Hpre Hload Hc1 Hc2.
    assert (Lab8.TaskEvaluator.run_metric score Metric load compute ROUGE t2p results
      metric
              calls1 = (Raise e, calls1)) as Hx.
    { unfold Lab8.TaskEvaluator.run_metric, Lab8.TaskEvaluator.run_compute, lift,
      mbind, mret, ST_bind,
        ST_ret.
      by rewrite Hload, Hc1, Hc2. }
    unfold Lab8.TaskEvaluator.run, lift.
    unfold mbind, ST_bind at 1. rewrite Hread, Hmetrics.
    by apply (ST_foldM_raise _ _ _ _ _ _ _ _ _ _ Hpre Hx).
  - intros score read_csv Metric load compute ROUGE self t2p calls pre metric post
      results calls1 m c1 c2 e Hread Hmetrics Hpre Hload Hc1 Hc2 Hcompute.
    assert (Lab8.TaskEvaluator.run_metric score Metric load compute ROUGE t2p results
      metric
              calls1
            = (Raise e, calls1 ++ [Lab8.TaskEvaluator.mkCall metric c1 c2])) as Hx.
    { unfold Lab8.TaskEvaluator.run_metric, Lab8.TaskEvaluator.run_compute, lift,
      mbind, mret, ST_bind,
        ST_ret.
      by rewrite Hload, Hc1, Hc2, Hcompute. }
    unfold Lab8.TaskEvaluator.run, lift.
    unfold mbind, ST_bind at 1. rewrite Hread, Hmetrics.
    by apply (ST_foldM_raise _ _ _ _ _ _ _ _ _ _ Hpre Hx).
  - intros score read_csv Metric load compute ROUGE self t2p calls pre metric post
      results calls1 m c1 c2 result e Hread Hmetrics Hpre Hload Hc1 Hc2 Hcompute Hget.
    assert (Lab8.TaskEvaluator.run_metric score Metric load compute ROUGE t2p results
      metric
              calls1
            = (Raise e, calls1 ++ [Lab8.TaskEvaluator.mkCall metric c1 c2])) as Hx.
    { unfold Lab8.TaskEvaluator.run_metric, Lab8.TaskEvaluator.run_compute, lift,
      mbind, mret, ST_bind,
        ST_ret.
      by rewrite Hload, Hc1, Hc2, Hcompute, Hget. }
    unfold Lab8.TaskEvaluator.run, lift.
    unfold mbind, ST_bind at 1. rewrite Hread, Hmetrics.
    by apply (ST_foldM_raise _ _ _ _ _ _ _ _ _ _ Hpre Hx).
Qed.

Lemma errors_propagate_witness :
  RawDataImporter.obtain offline_hub (RawDataImporter.mk "toxicity" None)
  = (Raise (OtherError "ConnectionError" "offline"), RawDataImporter.mk "toxicity" None)
  ∧ RawDataImporter.obtain (hub_of batches_iterator)
      (RawDataImporter.mk "toxicity" None)
    = (Raise (TypeError "Downloaded dataset's type is not pd.DataFrame"),
       RawDataImporter.mk "toxicity" (Some batches_iterator))
  ∧ Lab7.RawDataPreprocessor.analyze (store_of news_table)
    = (Raise (KeyError "neutral"), store_of news_table)
  ∧ Lab7.RawDataPreprocessor.analyze (store_of numbers7)
    = (Raise (TypeError "object of type 'int' has no len()"), store_of numbers7)
  ∧ Lab8.RawDataPreprocessor.analyze (store_of toxicity_table)
    = (Raise (KeyError "article_content"), store_of toxicity_table)
  ∧ Lab8.RawDataPreprocessor.analyze (store_of numbers8)
    = (Raise (TypeError "object of type 'bool' has no len()"), store_of numbers8)
  ∧ ((Lab7.RawDataPreprocessor.transform (store_of neutral_only)).1
     = Raise (KeyError "target")
     ∧ data_of (Lab7.RawDataPreprocessor.transform (store_of neutral_only)).2
       = Some (pd.drop_duplicates (pd.rename mapping7 neutral_only)))
  ∧ (∃ df2, pd.setitem (pd.drop_duplicates (pd.rename mapping7 toxicity_table))
               ColumnNames.TARGET
               (pd.map Lab7.RawDataPreprocessor.to_label
                  (pd.from_rows ["target"] [[VBool true]; [VBool false]]))
             = Ok df2)
  ∧ ((Lab7.RawDataPreprocessor.transform (store_of indexed7)).1
     = Raise (ValueError "cannot insert level_0, already exists")
     ∧ data_of (Lab7.RawDataPreprocessor.transform (store_of indexed7)).2
       = Some (labelled7 indexed7))
  ∧ ((Lab8.RawDataPreprocessor.transform (store_of toxicity_table)).1
     = Raise (KeyError "['title', 'date', 'url'] not found in axis")
     ∧ data_of (Lab8.RawDataPreprocessor.transform (store_of toxicity_table)).2
       = Some toxicity_table)
  ∧ ((Lab8.RawDataPreprocessor.transform (store_of indexed8)).1
     = Raise (ValueError "cannot insert level_0, already exists")
     ∧ data_of (Lab8.RawDataPreprocessor.transform (store_of indexed8)).2
       = Some (pd.rename mapping8
                 (pd.from_rows ["index"; "level_0"; "article_content"; "summary"]
                    [[VInt 7; VInt 0; VStr "text"; VStr "short"]])))
  ∧ Lab7.LLMPipeline._infer_batch fails_on_c pipeline7 [[VStr "c"]] []
    = (Raise (OtherError "RuntimeError" "out of memory"), [[VStr "c"]])
  ∧ Lab7.LLMPipeline.infer_sample fails_on_c pipeline7 [VStr "c"] []
    = (Raise (OtherError "RuntimeError" "out of memory"), [[VStr "c"]])
  ∧ Lab7.LLMPipeline.infer_sample no_class pipeline7 [VStr "a"] []
    = (Raise (IndexError "list index out of range"), [[VStr "a"]])
  ∧ (∃ msg, Lab7.LLMPipeline.infer_dataset any_tensor always_toxic
              (pipeline7_of toxicity_data 0) []
            = (Raise (ValueError msg), []))
  ∧ Lab7.LLMPipeline.infer_dataset any_tensor always_toxic
      (pipeline7_of toxicity_table 2) []
    = (Raise (KeyError "source"), [])
  ∧ (∃ msg, Lab7.LLMPipeline.infer_dataset any_tensor always_toxic
      (pipeline7_of late_missing 2) []
            = (Raise (TypeError msg), [[VStr "a"; VStr "b"]]))
  ∧ Lab7.LLMPipeline.infer_dataset any_tensor fails_on_c pipeline7 []
    = (Raise (OtherError "RuntimeError" "out of memory"),
      [[VStr "a"; VStr "b"]; [VStr "c"]])
  ∧ Lab7.LLMPipeline.infer_dataset any_tensor always_toxic (pipeline7_of source_only 1)
      []
    = (Raise (KeyError "target"), [[VStr "a"]; [VStr "b"]])
  ∧ (∃ msg, Lab7.LLMPipeline.infer_dataset any_tensor one_class pipeline7 []
            = (Raise (ValueError msg), [[VStr "a"; VStr "b"]; [VStr "c"]]))
  ∧ Lab8.LLMPipeline._infer_batch fails_on_long_c pipeline8 [[VStr "long c"]] []
    = (Raise (OtherError "RuntimeError" "out of memory"), [[VStr "long c"]])
  ∧ Lab8.LLMPipeline.infer_sample fails_on_long_c pipeline8 [VStr "long c"] []
    = (Raise (OtherError "RuntimeError" "out of memory"), [[VStr "long c"]])
  ∧ Lab8.LLMPipeline.infer_sample no_summary pipeline8 [VStr "long a"] []
    = (Raise (IndexError "list index out of range"), [[VStr "long a"]])
  ∧ (∃ msg, Lab8.LLMPipeline.infer_dataset any_tensor always_s
              (pipeline8_of news_data 0) []
            = (Raise (ValueError msg), []))
  ∧ Lab8.LLMPipeline.infer_dataset any_tensor always_s (pipeline8_of news_table 2) []
    = (Raise (KeyError "source"), [])
  ∧ (∃ batch, default_collate any_tensor [[VStr "long a"]; [VStr "long b"]]
              = Ok batch)
  ∧ Lab8.LLMPipeline.infer_dataset any_tensor fails_on_long_c pipeline8 []
    = (Raise (OtherError "RuntimeError" "out of memory"),
      [[VStr "long a"; VStr "long b"]; [VStr "long c"]])
  ∧ Lab8.LLMPipeline.infer_dataset any_tensor always_s (pipeline8_of source_only 1) []
    = (Raise (KeyError "target"), [[VStr "a"]; [VStr "b"]])
  ∧ (∃ msg, Lab8.LLMPipeline.infer_dataset any_tensor one_summary pipeline8 []
            = (Raise (ValueError msg),
              [[VStr "long a"; VStr "long b"]; [VStr "long c"]]))
  ∧ Lab7.TaskEvaluator.run Z no_file string load_but_bleu
      score_one evaluator7 []
    = (Raise (OtherError "FileNotFoundError" "predictions.csv"), [])
  ∧ Lab7.TaskEvaluator.run Z read_predictions string load_but_bleu
      score_one evaluator7_bleu []
    = (Raise (OtherError "FileNotFoundError" "bleu"),
       [Lab7.TaskEvaluator.mkCall "f1" [(0%Z, VInt 1); (1%Z, VInt 1)]
          [(0%Z, VInt 0); (1%Z, VInt 1)] "micro"])
  ∧ Lab7.TaskEvaluator.run Z (λ _, Ok news_table) string load_but_bleu
      score_one evaluator7 []
    = (Raise (KeyError "target"), [])
  ∧ Lab7.TaskEvaluator.run Z (λ _, Ok toxicity_data) string load_but_bleu
      score_one evaluator7 []
    = (Raise (KeyError "prediction"), [])
  ∧ Lab7.TaskEvaluator.run Z read_predictions string load_but_bleu
      compute_fails evaluator7 []
    = (Raise (ValueError "Mismatch in the number of predictions and references"),
       [Lab7.TaskEvaluator.mkCall "f1" [(0%Z, VInt 1); (1%Z, VInt 1)]
          [(0%Z, VInt 0); (1%Z, VInt 1)] "micro"])
  ∧ Lab8.TaskEvaluator.run Z no_file string (λ name _, load_but_bleu name)
      score_one "rouge" evaluator8 []
    = (Raise (OtherError "FileNotFoundError" "predictions.csv"), [])
  ∧ Lab8.TaskEvaluator.run Z read_predictions string (λ name _, load_but_bleu name)
      score_one "rouge" evaluator8_bleu []
    = (Raise (OtherError "FileNotFoundError" "bleu"),
       [Lab8.TaskEvaluator.mkCall "rouge" [(0%Z, VInt 0); (1%Z, VInt 1)]
          [(0%Z, VInt 1); (1%Z, VInt 1)]])
  ∧ Lab8.TaskEvaluator.run Z (λ _, Ok news_table) string (λ name _, load_but_bleu name)
      score_one "rouge" evaluator8 []
    = (Raise (KeyError "prediction"), [])
  ∧ Lab8.TaskEvaluator.run Z (λ _, Ok (pd.from_rows ["prediction"] [[VStr "s"]]))
      string (λ name _, load_but_bleu name)
      score_one "rouge" evaluator8 []
    = (Raise (KeyError "target"), [])
  ∧ Lab8.TaskEvaluator.run Z read_predictions string (λ name _, load_but_bleu name)
      compute_fails "rouge" evaluator8 []
    = (Raise (ValueError "Mismatch in the number of predictions and references"),
       [Lab8.TaskEvaluator.mkCall "rouge" [(0%Z, VInt 0); (1%Z, VInt 1)]
          [(0%Z, VInt 1); (1%Z, VInt 1)]])
  ∧ Lab8.TaskEvaluator.run Z read_predictions string (λ name _, load_but_bleu name)
      no_score "rouge" evaluator8 []
    = (Raise (KeyError "rougeL"),
       [Lab8.TaskEvaluator.mkCall "rouge" [(0%Z, VInt 0); (1%Z, VInt 1)]
          [(0%Z, VInt 1); (1%Z, VInt 1)]]).
Proof.
  destruct errors_propagate
    as (H1 & H2 & H3 & H4 & H5 & H6 & H7 & H8 & H9 & H10 & H11 & H12 & H13 & H14
    & H15 & H16 & H17 & H18 & H19 & H20 & H21 & H22 & H23 & H24 & H25 & H26 &
    H27 & H28 & H29 & H30 & H31 & H32 & H33 & H34 & H35 & H36 & H37 & H38 & H39
    & H40).
  split.
  { apply H1. reflexivity. }
  split.
  { apply (H2 (hub_of batches_iterator) (RawDataImporter.mk "toxicity" None));
      reflexivity. }
  split.
  { apply (H3 (store_of news_table) news_table); reflexivity. }
  split.
  { eapply (H4 (store_of numbers7) numbers7); reflexivity. }
  split.
  { apply (H5 (store_of toxicity_table) toxicity_table); reflexivity. }
  split.
  { eapply (H6 (store_of numbers8) numbers8); reflexivity. }
  split.
  { apply (H7 (store_of neutral_only) neutral_only); reflexivity. }
  split.
  { apply (H8 (pd.drop_duplicates (pd.rename mapping7 toxicity_table))). reflexivity. }
  split.
  { eapply (H9 (store_of indexed7) indexed7); reflexivity. }
  split.
  { apply (H10 (store_of toxicity_table) toxicity_table); reflexivity. }
  split.
  { apply (H11 (store_of indexed8) indexed8
               (pd.from_rows ["index"; "level_0"; "article_content"; "summary"]
                  [[VInt 7; VInt 0; VStr "text"; VStr "short"]]));
      reflexivity. }
  split.
  { apply (H12 fails_on_c pipeline7 "bert" [[VStr "c"]] [VStr "c"] []); reflexivity. }
  split.
  { apply (H13 fails_on_c pipeline7 "bert" [VStr "c"] []); reflexivity. }
  split.
  { apply (H14 no_class pipeline7 "bert" [VStr "a"] [] [[VStr "a"]] []); reflexivity. }
  split.
  { eexists. apply H15. reflexivity. }
  split.
  { apply (H16 any_tensor always_toxic (pipeline7_of toxicity_table 2) [] [] [0; 1]
    [[2]] [] []);
      reflexivity. }
  split.
  { eexists.
    apply (H17 any_tensor always_toxic (pipeline7_of late_missing 2) [] [[0; 1]] [2] []
             [["1"; "1"]] [[VStr "a"; VStr "b"]] [[VNone]]); reflexivity. }
  split.
  { apply (H18 any_tensor fails_on_c pipeline7 [] [[0; 1]] [2] []
             [["1"; "1"]] [[VStr "a"; VStr "b"]]
             [[VStr "c"]] [[VStr "c"]]); reflexivity. }
  split.
  { apply (H19 any_tensor always_toxic (pipeline7_of source_only 1) [] [[0]; [1]]
             [["1"]; ["1"]]); reflexivity. }
  split.
  { eexists.
    eapply (H20 any_tensor one_class pipeline7 [] [[0; 1]; [2]]
              [["1"]; ["1"]]); reflexivity. }
  split.
  { apply (H21 fails_on_long_c pipeline8 "t5" [[VStr "long c"]] [VStr "long c"] []);
    reflexivity. }
  split.
  { apply (H22 fails_on_long_c pipeline8 "t5" [VStr "long c"] []); reflexivity. }
  split.
  { apply (H23 no_summary pipeline8 "t5" [VStr "long a"] [] [[VStr "long a"]] []);
    reflexivity. }
  split.
  { eexists. apply H24. reflexivity. }
  split.
  { apply (H25 any_tensor always_s (pipeline8_of news_table 2) [] [] [0; 1] [] [] []);
      reflexivity. }
  split.
  { apply (H26 any_tensor pipeline8 [[0; 1]; [2]] [0; 1]);
      [reflexivity | compute_done | reflexivity]. }
  split.
  { apply (H27 any_tensor fails_on_long_c pipeline8 [] [[0; 1]] [2] []
             ["s"; "s"] [[VStr "long a"; VStr "long b"]]
             [[VStr "long c"]] [[VStr "long c"]]); reflexivity. }
  split.
  { apply (H28 any_tensor always_s (pipeline8_of source_only 1) [] [[0]; [1]]
             ["s"; "s"]); reflexivity. }
  split.
  { eexists.
    eapply (H29 any_tensor one_summary pipeline8 [] [[0; 1]; [2]]
              ["s"; "s"]); reflexivity. }
  split.
  { apply H30. reflexivity. }
  split.
  { apply (H31 Z read_predictions string load_but_bleu score_one evaluator7_bleu
             predictions_csv [] ["f1"] "bleu" ["rouge"] ({[ "rougeL" := 1%Z ]} ∪ ∅)
             [Lab7.TaskEvaluator.mkCall "f1" [(0%Z, VInt 1); (1%Z, VInt 1)]
          [(0%Z, VInt 0); (1%Z, VInt 1)] "micro"]);
      reflexivity. }
  split.
  { apply (H32 Z (λ _, Ok news_table) string load_but_bleu score_one evaluator7
             news_table [] [] "f1" [] ∅ [] "f1"); reflexivity. }
  split.
  { eapply (H33 Z (λ _, Ok toxicity_data) string load_but_bleu score_one evaluator7
              toxicity_data [] [] "f1" [] ∅ [] "f1"); reflexivity. }
  split.
  { apply (H34 Z read_predictions string load_but_bleu compute_fails evaluator7
             predictions_csv [] [] "f1" [] ∅ [] "f1"
             [(0%Z, VInt 1); (1%Z, VInt 1)] [(0%Z, VInt 0); (1%Z, VInt 1)]);
      reflexivity. }
  split.
  { apply H35. reflexivity. }
  split.
  { apply (H36 Z read_predictions string (λ name _, load_but_bleu name) score_one
    "rouge" evaluator8_bleu
             predictions_csv [] ["rouge"] "bleu" [] (<[ "rouge" := 1%Z ]> ∅)
             [Lab8.TaskEvaluator.mkCall "rouge" [(0%Z, VInt 0); (1%Z, VInt 1)]
          [(0%Z, VInt 1); (1%Z, VInt 1)]]);
      reflexivity. }
  split.
  { apply (H37 Z (λ _, Ok news_table) string (λ name _, load_but_bleu name) score_one
    "rouge" evaluator8
             news_table [] [] "rouge" [] ∅ [] "rouge"); reflexivity. }
  split.
  { eapply (H38 Z (λ _, Ok (pd.from_rows ["prediction"] [[VStr "s"]])) string
    (λ name _, load_but_bleu name) score_one "rouge" evaluator8
              (pd.from_rows ["prediction"] [[VStr "s"]]) [] [] "rouge" [] ∅ []
                "rouge"); reflexivity. }
  split.
  { apply (H39 Z read_predictions string (λ name _, load_but_bleu name) compute_fails
    "rouge" evaluator8
             predictions_csv [] [] "rouge" [] ∅ [] "rouge"
             [(0%Z, VInt 0); (1%Z, VInt 1)] [(0%Z, VInt 1); (1%Z, VInt 1)]);
      reflexivity. }
  apply (H40 Z read_predictions string (λ name _, load_but_bleu name) no_score "rouge"
    evaluator8
             predictions_csv [] [] "rouge" [] ∅ [] "rouge"
             [(0%Z, VInt 0); (1%Z, VInt 1)] [(0%Z, VInt 1); (1%Z, VInt 1)] ∅);
      reflexivity.
Defined.

(** * Further properties of the code *)

(** ** [analyze] *)

(** X1.  [analyze] on a raw table without the column of the samples
    ([neutral] in lab 7, [article_content] in lab 8) raises the [KeyError]
    of this column and leaves the state as it was. *)
Theorem analyze_missing_column :
  (∀ (σ : state) df,
     heap σ !! _raw_data (self σ) = Some df →
     "neutral" ∉ pd.columns df →
     Lab7.RawDataPreprocessor.analyze σ = (Raise (KeyError "neutral"), σ))
  ∧ (∀ (σ : state) df,
     heap σ !! _raw_data (self σ) = Some df →
     "article_content" ∉ pd.columns df →
     Lab8.RawDataPreprocessor.analyze σ = (Raise (KeyError "article_content"), σ)).
Proof.
  split; intros σ df Hraw Hnot.
  - unfold Lab7.RawDataPreprocessor.analyze.
    rewrite (analyze_column_run _ _ _ Hraw). unfold pd.getitem.
    by rewrite decide_False.
  - unfold Lab8.RawDataPreprocessor.analyze.
    rewrite (analyze_column_run _ _ _ Hraw). unfold pd.getitem.
    by rewrite decide_False.
Qed.

Lemma analyze_missing_column_witness :
  Lab7.RawDataPreprocessor.analyze (store_of news_table)
  = (Raise (KeyError "neutral"), store_of news_table)
  ∧ Lab8.RawDataPreprocessor.analyze (store_of toxicity_table)
    = (Raise (KeyError "article_content"), store_of toxicity_table).
Proof.
  split.
  - apply (proj1 analyze_missing_column (store_of news_table) news_table);
      [reflexivity | compute_done].
  - apply (proj2 analyze_missing_column (store_of toxicity_table) toxicity_table);
      [reflexivity | compute_done].
Defined.

Lemma dropna_length (df : pd.DataFrame) :
  pd.len (pd.dropna (pd.replace_empty df))
  + length (filter (Exists is_empty_cell) (pd.values df))
  = pd.len df.
Proof.
  unfold pd.len, pd.dropna, pd.replace_empty, pd.map, pd.values. cbn.
  induction (pd.rows df) as [|[k r] rs IH]; [done|].
  rewrite !fmap_cons, !filter_cons. cbn [fst snd].
  assert (forallb (λ v, negb (pd.isna v))
            ((λ v, if decide (v = VStr "") then VNaN else v) <$> r) = true
          ↔ ¬ Exists is_empty_cell r) as Hr.
  { clear. induction r as [|v r IH]; cbn.
    - split; [|done]. intros _ H. by apply Exists_nil in H.
    - rewrite Exists_cons, andb_true_iff, IH.
      destruct v as [| |b|n|s]; cbn; [rewrite ?decide_False by done; cbn..|].
      1-4: intuition congruence.
      destruct (decide (s = "")) as [->|Hs];
        [rewrite decide_True by done; cbn; intuition congruence|].
      rewrite decide_False by congruence. cbn. tauto. }
  do 2 case_decide; cbn [length]; try tauto; fold (@fmap list _) in *; lia.
Qed.

Lemma analyze_column_counts (c : string) (σ : state) (df : pd.DataFrame) (a : Analysis) :
  heap σ !! _raw_data (self σ) = Some df →
  (analyze_column c σ).1 = Ok a →
  dataset_number_of_samples a = pd.len df
  ∧ dataset_columns a = length (pd.columns df)
  ∧ dataset_duplicates a + length (remove_dups (pd.row_key <$> pd.values df))
    = pd.len df
  ∧ dataset_empty_rows a = length (filter (Exists is_empty_cell) (pd.values df)).
Proof.
  intros Hraw. rewrite (analyze_column_run _ _ _ Hraw). cbn.
  destruct (pd.getitem df c) as [col|e]; cbn; [|done].
  destruct (map_len col) as [lens|e]; cbn; [|done].
  intros [= <-]. cbn. split_and!; [done..| |].
  - unfold pd.duplicated_sum, pd.len, pd.drop_duplicates, pd.values. cbn.
    pose proof (sublist_length _ _ (keep_first_sublist [] (pd.rows df))) as Hle.
    rewrite keep_first_length in *. lia.
  - pose proof (dropna_length df) as Hlen.
    unfold pd.len, pd.dropna, pd.replace_empty, pd.map, pd.values in *.
    cbn in *. lia.
Qed.

(** X2.  When [analyze] returns, the number of samples is the number of
    rows of the raw table and the number of columns the number of its
    labels; the duplicates and the rows that differ, cell by cell, as
    pandas compares them ([True] like 1, [False] like 0, [None] like
    [nan]) add up to the number of samples; and the empty rows are the
    rows that hold a missing cell or an empty string.  In both labs. *)
Theorem analyze_counts :
  (∀ (σ : state) df a,
     heap σ !! _raw_data (self σ) = Some df →
     (Lab7.RawDataPreprocessor.analyze σ).1 = Ok a →
     dataset_number_of_samples a = pd.len df
     ∧ dataset_columns a = length (pd.columns df)
     ∧ dataset_duplicates a + length (remove_dups (pd.row_key <$> pd.values df))
       = pd.len df
     ∧ dataset_empty_rows a = length (filter (Exists is_empty_cell) (pd.values df)))
  ∧ (∀ (σ : state) df a,
     heap σ !! _raw_data (self σ) = Some df →
     (Lab8.RawDataPreprocessor.analyze σ).1 = Ok a →
     dataset_number_of_samples a = pd.len df
     ∧ dataset_columns a = length (pd.columns df)
     ∧ dataset_duplicates a + length (remove_dups (pd.row_key <$> pd.values df))
       = pd.len df
     ∧ dataset_empty_rows a = length (filter (Exists is_empty_cell) (pd.values df))).
Proof. split; intros σ df a; apply analyze_column_counts. Qed.

Lemma analyze_counts_witness :
  ∃ a7 a8,
    (Lab7.RawDataPreprocessor.analyze (store_of gaps7)).1 = Ok a7
    ∧ (Lab8.RawDataPreprocessor.analyze (store_of gaps8)).1 = Ok a8
    ∧ (dataset_number_of_samples a7 = 5
       ∧ dataset_columns a7 = 2
       ∧ dataset_duplicates a7 + 2 = 5
       ∧ dataset_empty_rows a7 = 2)
    ∧ (dataset_number_of_samples a8 = 3
       ∧ dataset_columns a8 = 2
       ∧ dataset_duplicates a8 + 2 = 3
       ∧ dataset_empty_rows a8 = 2).
Proof.
  eexists _, _. split; [reflexivity|]. split; [reflexivity|]. split.
  - apply (proj1 analyze_counts (store_of gaps7) gaps7); reflexivity.
  - apply (proj2 analyze_counts (store_of gaps8) gaps8); reflexivity.
Defined.

(** X3.  In lab 7, [analyze] counts what [transform] removes: for a raw
    table with the columns of the dataset and a free name for the index
    column, when [analyze] returns, [transform] run after it gives a table
    with as many rows as the samples less the duplicates. *)
Theorem transform_removes_counted_duplicates (σ : state) (df : pd.DataFrame)
    (a : Analysis) :
  heap σ !! _raw_data (self σ) = Some df →
  has_columns7 df → ¬ index_names_taken df →
  (Lab7.RawDataPreprocessor.analyze σ).1 = Ok a →
  ∃ out,
    data_of (Lab7.RawDataPreprocessor.transform
               (Lab7.RawDataPreprocessor.analyze σ).2).2 = Some out
    ∧ pd.len out = dataset_number_of_samples a - dataset_duplicates a.
Proof.
  intros Hraw Hcols Hfree Ha.
  destruct (analyze_column_counts _ _ _ _ Hraw Ha) as (-> & _ & Hdup & _).
  unfold Lab7.RawDataPreprocessor.analyze. rewrite analyze_column_state.
  rewrite (transform7_run σ df Hraw). cbn [snd]. rewrite data_of_after_transform.
  eexists. split; [done|].
  destruct (transform7_outcome df Hcols) as (out & _ & _ & _ & Hok).
  specialize (Hok Hfree). revert Hok.
  destruct (rename7_canonical (pd.columns df)) as (_ & Htarget & _).
  rewrite transform7_steps_labelled by (apply Htarget, Hcols).
  destruct (pd.reset_index (labelled7 df)) as [df3|e] eqn:Hreset; [|done].
  intros _. cbn [snd].
  destruct (reset_index_rows _ _ Hreset) as [_ ->].
  destruct (labelled7_index df) as [_ ->]. lia.
Qed.

Lemma transform_removes_counted_duplicates_witness :
  ∃ out,
    data_of (Lab7.RawDataPreprocessor.transform
               (Lab7.RawDataPreprocessor.analyze (store_of toxicity_table)).2).2
    = Some out
    ∧ pd.len out = 3 - 1.
Proof.
  apply (transform_removes_counted_duplicates (store_of toxicity_table)
           toxicity_table (mkAnalysis 3 2 1 0 (Some 1) (Some 1))).
  - reflexivity.
  - unfold has_columns7. vm_compute. split; repeat constructor.
  - compute_done.
  - reflexivity.
Defined.

Lemma map_len_cells (cells : list value) (lens : list (option nat)) :
  res_mapM (λ v, if pd.isna v then Ok None else Some <$> py_len v) cells = Ok lens →
  Forall sized_or_missing cells ∧ omap id lens = string_lengths cells.
Proof.
  revert lens. induction cells as [|v cells IH]; intros lens; cbn.
  - intros [= <-]. by split.
  - destruct v as [| |b|n|s]; cbn; try done.
    + destruct (res_mapM _ cells) as [lens'|e]; cbn; [|done].
      intros [= <-]. destruct (IH lens' eq_refl). split; [by constructor|done].
    + destruct (res_mapM _ cells) as [lens'|e]; cbn; [|done].
      intros [= <-]. destruct (IH lens' eq_refl). split; [by constructor|done].
    + destruct (res_mapM _ cells) as [lens'|e]; cbn; [|done].
      intros [= <-]. destruct (IH lens' eq_refl) as [? Heq].
      split; [by constructor|]. unfold string_lengths in *. cbn. by rewrite Heq.
Qed.

Lemma foldr_min_spec (n : nat) (ns : list nat) :
  foldr Nat.min n ns ∈ n :: ns ∧ Forall (λ k, foldr Nat.min n ns ≤ k) (n :: ns).
Proof.
  induction ns as [|x ns [Hin Hall]]; cbn.
  - split; [by left | by repeat constructor].
  - apply Forall_cons in Hall as [Hn Hall]. split.
    + destruct (Nat.min_spec x (foldr Nat.min n ns)) as [[_ ->]|[_ ->]].
      * right. by left.
      * apply elem_of_cons in Hin as [Hin|Hin];
          [rewrite Hin; by left | by right; right].
    + repeat constructor; [lia|lia|].
      eapply Forall_impl; [exact Hall|]. cbn. lia.
Qed.

Lemma foldr_max_spec (n : nat) (ns : list nat) :
  foldr Nat.max n ns ∈ n :: ns ∧ Forall (λ k, k ≤ foldr Nat.max n ns) (n :: ns).
Proof.
  induction ns as [|x ns [Hin Hall]]; cbn.
  - split; [by left | by repeat constructor].
  - apply Forall_cons in Hall as [Hn Hall]. split.
    + destruct (Nat.max_spec x (foldr Nat.max n ns)) as [[_ ->]|[_ ->]].
      * apply elem_of_cons in Hin as [Hin|Hin];
          [rewrite Hin; by left | by right; right].
      * right. by left.
    + repeat constructor; [lia|lia|].
      eapply Forall_impl; [exact Hall|]. cbn. lia.
Qed.

Lemma analyze_column_lengths (c : string) (σ : state) (df col : pd.DataFrame)
    (a : Analysis) :
  heap σ !! _raw_data (self σ) = Some df →
  pd.getitem df c = Ok col →
  (analyze_column c σ).1 = Ok a →
  Forall sized_or_missing (concat (pd.values col))
  ∧ match dataset_sample_min_len a, dataset_sample_max_len a with
    | Some m, Some M =>
        m ∈ string_lengths (concat (pd.values col))
        ∧ M ∈ string_lengths (concat (pd.values col))
        ∧ Forall (λ n, m ≤ n ≤ M) (string_lengths (concat (pd.values col)))
    | None, None => string_lengths (concat (pd.values col)) = []
    | _, _ => False
    end.
Proof.
  intros Hraw Hcol. rewrite (analyze_column_run _ _ _ Hraw), Hcol. cbn.
  unfold map_len. destruct (res_mapM _ _) as [lens|e] eqn:Hlens; cbn; [|done].
  intros [= <-]. cbn.
  destruct (map_len_cells _ _ Hlens) as [Hall Heq]. split; [done|].
  unfold series_min, series_max. rewrite Heq.
  destruct (string_lengths _) as [|n ns]; [done|].
  destruct (foldr_min_spec n ns) as [? Hmin], (foldr_max_spec n ns) as [? Hmax].
  split_and!; [done..|].
  rewrite Forall_forall in Hmin, Hmax. apply Forall_forall. intros k Hk.
  split; [by apply Hmin | by apply Hmax].
Qed.

(** X4.  When [analyze] returns, every cell of the column of the samples
    is a string or missing, and the minimal and the maximal length are
    lengths of strings of the column that bound the lengths of all of
    them; both are missing exactly when the column has no string.  In
    both labs. *)
Theorem analyze_sample_lengths :
  (∀ (σ : state) df col a,
     heap σ !! _raw_data (self σ) = Some df →
     pd.getitem df "neutral" = Ok col →
     (Lab7.RawDataPreprocessor.analyze σ).1 = Ok a →
     Forall sized_or_missing (concat (pd.values col))
     ∧ match dataset_sample_min_len a, dataset_sample_max_len a with
       | Some m, Some M =>
           m ∈ string_lengths (concat (pd.values col))
           ∧ M ∈ string_lengths (concat (pd.values col))
           ∧ Forall (λ n, m ≤ n ≤ M) (string_lengths (concat (pd.values col)))
       | None, None => string_lengths (concat (pd.values col)) = []
       | _, _ => False
       end)
  ∧ (∀ (σ : state) df col a,
     heap σ !! _raw_data (self σ) = Some df →
     pd.getitem df "article_content" = Ok col →
     (Lab8.RawDataPreprocessor.analyze σ).1 = Ok a →
     Forall sized_or_missing (concat (pd.values col))
     ∧ match dataset_sample_min_len a, dataset_sample_max_len a with
       | Some m, Some M =>
           m ∈ string_lengths (concat (pd.values col))
           ∧ M ∈ string_lengths (concat (pd.values col))
           ∧ Forall (λ n, m ≤ n ≤ M) (string_lengths (concat (pd.values col)))
       | None, None => string_lengths (concat (pd.values col)) = []
       | _, _ => False
       end).
Proof. split; intros σ df col a; apply analyze_column_lengths. Qed.

Lemma analyze_sample_lengths_witness :
  (∃ col, pd.getitem toxicity_table "neutral" = Ok col
     ∧ Forall sized_or_missing (concat (pd.values col))
     ∧ 1 ∈ string_lengths (concat (pd.values col))
     ∧ 1 ∈ string_lengths (concat (pd.values col))
     ∧ Forall (λ n, 1 ≤ n ≤ 1) (string_lengths (concat (pd.values col))))
  ∧ (∃ col, pd.getitem news_table "article_content" = Ok col
     ∧ Forall sized_or_missing (concat (pd.values col))
     ∧ 4 ∈ string_lengths (concat (pd.values col))
     ∧ 4 ∈ string_lengths (concat (pd.values col))
     ∧ Forall (λ n, 4 ≤ n ≤ 4) (string_lengths (concat (pd.values col)))).
Proof.
  split.
  - eexists. split; [reflexivity|].
    apply (proj1 analyze_sample_lengths (store_of toxicity_table) toxicity_table _
             (mkAnalysis 3 2 1 0 (Some 1) (Some 1))); reflexivity.
  - eexists. split; [reflexivity|].
    apply (proj2 analyze_sample_lengths (store_of news_table) news_table _
             (mkAnalysis 2 5 1 0 (Some 4) (Some 4))); reflexivity.
Defined.

Lemma res_mapM_first_raise {A B} (f : A → res B) (pre post : list A) (x : A)
    (e : exn) :
  Forall (λ y, ∃ z, f y = Ok z) pre → f x = Raise e →
  res_mapM f (pre ++ x :: post) = Raise e.
Proof.
  intros Hpre Hx. induction Hpre as [|y pre [z Hy] _ IH]; cbn.
  - by rewrite Hx.
  - by rewrite Hy, IH.
Qed.

Lemma analyze_column_not_sized (c : string) (σ : state) (df col : pd.DataFrame)
    (pre post : list value) (v : value) :
  heap σ !! _raw_data (self σ) = Some df →
  pd.getitem df c = Ok col →
  concat (pd.values col) = pre ++ v :: post →
  Forall sized_or_missing pre → ¬ sized_or_missing v →
  analyze_column c σ
  = (Raise (TypeError ("object of type '" +:+ py_type_name v +:+ "' has no len()")), σ).
Proof.
  intros Hraw Hcol Hcells Hpre Hv.
  rewrite (analyze_column_run _ _ _ Hraw), Hcol. cbn.
  unfold map_len. rewrite Hcells.
  rewrite (res_mapM_first_raise _ pre post v
             (TypeError ("object of type '" +:+ py_type_name v +:+ "' has no len()")));
    [done| |].
  - eapply Forall_impl; [exact Hpre|].
    intros [| |b|n|s] Hy; cbn in *; try done; by eexists.
  - by destruct v as [| |b|n|s].
Qed.

(** X5.  [analyze] on a raw table whose column of the samples holds a
    cell that is neither a string nor missing (a number, a boolean) raises
    the [TypeError] of [len] for the first such cell, whose message names
    the type of the cell, and leaves the state as it was.  In both labs. *)
Theorem analyze_not_sized :
  (∀ (σ : state) df col pre v post,
     heap σ !! _raw_data (self σ) = Some df →
     pd.getitem df "neutral" = Ok col →
     concat (pd.values col) = pre ++ v :: post →
     Forall sized_or_missing pre → ¬ sized_or_missing v →
     Lab7.RawDataPreprocessor.analyze σ
     = (Raise (TypeError ("object of type '" +:+ py_type_name v +:+ "' has no len()")),
        σ))
  ∧ (∀ (σ : state) df col pre v post,
     heap σ !! _raw_data (self σ) = Some df →
     pd.getitem df "article_content" = Ok col →
     concat (pd.values col) = pre ++ v :: post →
     Forall sized_or_missing pre → ¬ sized_or_missing v →
     Lab8.RawDataPreprocessor.analyze σ
     = (Raise (TypeError ("object of type '" +:+ py_type_name v +:+ "' has no len()")),
        σ)).
Proof.
  split; intros σ df col pre v post Hraw Hcol Hcells;
    by apply (analyze_column_not_sized _ _ _ _ _ _ _ Hraw Hcol Hcells).
Qed.

Lemma analyze_not_sized_witness :
  Lab7.RawDataPreprocessor.analyze (store_of numbers7)
  = (Raise (TypeError "object of type 'int' has no len()"), store_of numbers7)
  ∧ Lab8.RawDataPreprocessor.analyze (store_of numbers8)
    = (Raise (TypeError "object of type 'bool' has no len()"), store_of numbers8).
Proof.
  split.
  - apply (proj1 analyze_not_sized (store_of numbers7) numbers7
             (pd.from_rows ["neutral"] [[VStr "a"]; [VInt 5]; [VBool true]])
             [VStr "a"] (VInt 5) [VBool true]);
      [reflexivity | reflexivity | reflexivity | by repeat constructor | by intros []].
  - apply (proj2 analyze_not_sized (store_of numbers8) numbers8
             (pd.from_rows ["article_content"] [[VNone]; [VBool false]])
             [VNone] (VBool false) []);
      [reflexivity | reflexivity | reflexivity | by repeat constructor | by intros []].
Defined.

(** ** More on [transform] *)

Lemma reset_index_name (df df' : pd.DataFrame) :
  pd.reset_index df = Ok df' →
  pd.columns df'
  = (if decide ("index" ∈ pd.columns df) then "level_0" else "index") :: pd.columns df
  ∧ pd.rows df'
    = imap (λ i (kr : Z * pd.row), (Z.of_nat i, VInt kr.1 :: kr.2)) (pd.rows df).
Proof.
  unfold pd.reset_index.
  destruct (decide ("index" ∈ pd.columns df)); cbn zeta;
    case_decide; by intros [= <-].
Qed.

Lemma rename8_kept (cols : list string) (c : string) :
  c ∈ ["title"; "date"; "url"] →
  c ∈ pd.rename_label [("article_content", ColumnNames.SOURCE : string);
                       ("summary", ColumnNames.TARGET : string)]
        <$> filter (λ c, c ∉ ["title"; "date"; "url"]) cols →
  False.
Proof.
  intros Hc (c' & -> & [Hc' _]%list_elem_of_filter)%list_elem_of_fmap.
  rewrite rename8_label in Hc.
  repeat case_decide; subst; set_solver.
Qed.

Lemma transform8_steps_ok (df : pd.DataFrame) :
  has_columns8 df → ¬ index_names_taken df →
  ∃ df1 out,
    pd.drop ["title"; "date"; "url"] df = Ok df1
    ∧ pd.reset_index
        (pd.rename [("article_content", ColumnNames.SOURCE : string);
                    ("summary", ColumnNames.TARGET : string)] df1) = Ok out
    ∧ transform8_steps df = (Ok (), out).
Proof.
  intros Hcols Hfree.
  destruct (transform8_outcome df Hcols) as (_ & _ & Hok). specialize (Hok Hfree).
  destruct (transform8_steps_renamed df Hcols) as (df1 & Hdrop & _ & _ & _ & Hsteps).
  rewrite Hsteps in Hok |- *.
  destruct (pd.reset_index _) as [out|e] eqn:Hreset; [|done].
  by exists df1, out.
Qed.

(** X6.  The lab 8 [transform] drops the columns [title], [date] and
    [url]: for a raw table with the columns of the dataset and a free name
    for the index column, the table it produces has none of the three and
    has one column more than the raw table has other columns. *)
Theorem transform8_drops_columns (σ : state) (df : pd.DataFrame) :
  heap σ !! _raw_data (self σ) = Some df →
  has_columns8 df → ¬ index_names_taken df →
  ∃ out,
    data_of (Lab8.RawDataPreprocessor.transform σ).2 = Some out
    ∧ Forall (λ c, c ∉ pd.columns out) ["title"; "date"; "url"]
    ∧ length (pd.columns out)
      = S (length (filter (λ c, c ∉ ["title"; "date"; "url"]) (pd.columns df))).
Proof.
  intros Hraw Hcols Hfree.
  rewrite (transform8_run σ df Hraw). cbn [snd]. rewrite data_of_after_transform.
  destruct (transform8_steps_ok df Hcols Hfree) as (df1 & out & Hdrop & Hreset & ->).
  exists out. split; [done|].
  apply reset_index_name in Hreset as [Hcolumns _]. rewrite Hcolumns.
  rewrite drop_ok in Hdrop
    by (unfold has_columns8 in Hcols;
        repeat (apply Forall_cons in Hcols as [? Hcols]); by repeat constructor).
  injection Hdrop as <-. cbn [pd.columns pd.rename]. split.
  - apply Forall_forall. intros c Hc [->|Hin]%elem_of_cons.
    + case_decide; set_solver.
    + by eapply rename8_kept.
  - cbn. by rewrite length_fmap.
Qed.

Lemma transform8_drops_columns_witness :
  ∃ out,
    data_of (Lab8.RawDataPreprocessor.transform (store_of news_table)).2 = Some out
    ∧ Forall (λ c, c ∉ pd.columns out) ["title"; "date"; "url"]
    ∧ length (pd.columns out)
      = S (length (filter (λ c, c ∉ ["title"; "date"; "url"]) (pd.columns news_table))).
Proof.
  apply (transform8_drops_columns (store_of news_table) news_table).
  - reflexivity.
  - unfold has_columns8. vm_compute. repeat constructor.
  - compute_done.
Defined.

(** X7.  What a [transform] that cannot find its columns leaves behind.
    Lab 8: when labels among [title], [date], [url] are missing,
    [transform] raises the one [KeyError] of [drop], whose message lists
    all the missing labels in the order of the call, and [_data] is an
    unchanged copy of the raw table.  Lab 7: when the raw table has neither
    [toxic] nor [target], [transform] raises [KeyError] for the target
    column and [_data] is the raw table renamed and without duplicates,
    with the old index. *)
Theorem transform_missing_columns :
  (∀ (σ : state) df,
     heap σ !! _raw_data (self σ) = Some df →
     ¬ Forall (λ l, l ∈ pd.columns df) ["title"; "date"; "url"] →
     (Lab8.RawDataPreprocessor.transform σ).1
     = Raise (KeyError
                (pd.repr_labels (filter (λ l, l ∉ pd.columns df) ["title"; "date"; "url"])
                 +:+ " not found in axis"))
     ∧ data_of (Lab8.RawDataPreprocessor.transform σ).2 = Some df)
  ∧ (∀ (σ : state) df,
     heap σ !! _raw_data (self σ) = Some df →
     "toxic" ∉ pd.columns df → "target" ∉ pd.columns df →
     (Lab7.RawDataPreprocessor.transform σ).1 = Raise (KeyError "target")
     ∧ data_of (Lab7.RawDataPreprocessor.transform σ).2
       = Some (pd.drop_duplicates
                 (pd.rename [("neutral", ColumnNames.SOURCE : string);
                             ("toxic", ColumnNames.TARGET : string)] df))).
Proof.
  split.
  - intros σ df Hraw Hmissing.
    rewrite (transform8_run σ df Hraw). cbn [fst snd].
    rewrite data_of_after_transform. unfold transform8_steps.
    by rewrite (drop_missing _ _ Hmissing).
  - intros σ df Hraw Htoxic Htarget.
    rewrite (transform7_run σ df Hraw). cbn [fst snd].
    rewrite data_of_after_transform, transform7_steps_no_target; [done|].
    cbn. intros (c & Hc & Hin)%list_elem_of_fmap.
    rewrite rename7_label in Hc. repeat case_decide; subst; done.
Qed.

Lemma transform_missing_columns_witness :
  ((Lab8.RawDataPreprocessor.transform (store_of toxicity_table)).1
   = Raise (KeyError "['title', 'date', 'url'] not found in axis")
   ∧ data_of (Lab8.RawDataPreprocessor.transform (store_of toxicity_table)).2
     = Some toxicity_table)
  ∧ ((Lab8.RawDataPreprocessor.transform (store_of dated_table)).1
     = Raise (KeyError "['title', 'url'] not found in axis")
     ∧ data_of (Lab8.RawDataPreprocessor.transform (store_of dated_table)).2
       = Some dated_table)
  ∧ ((Lab7.RawDataPreprocessor.transform (store_of neutral_only)).1
     = Raise (KeyError "target")
     ∧ data_of (Lab7.RawDataPreprocessor.transform (store_of neutral_only)).2
       = Some (pd.drop_duplicates
                 (pd.rename [("neutral", ColumnNames.SOURCE : string);
                             ("toxic", ColumnNames.TARGET : string)] neutral_only))).
Proof.
  split; [|split].
  - apply (proj1 transform_missing_columns (store_of toxicity_table) toxicity_table);
      [reflexivity | compute_done].
  - apply (proj1 transform_missing_columns (store_of dated_table) dated_table);
      [reflexivity | compute_done].
  - apply (proj2 transform_missing_columns (store_of neutral_only) neutral_only);
      [reflexivity | compute_done | compute_done].
Defined.

Lemma imap_index {A B} (h : nat → B) (l : list A) :
  imap (λ n _, h n) l = h <$> seq 0 (length l).
Proof.
  revert h. induction l as [|x l IH]; intros h; [done|].
  cbn. f_equal. rewrite <- fmap_S_seq, <- list_fmap_compose. apply (IH (h ∘ S)).
Qed.

Lemma reset_index_index (df df' : pd.DataFrame) :
  pd.reset_index df = Ok df' →
  pd.index df' = Z.of_nat <$> seq 0 (pd.len df')
  ∧ head <$> pd.values df' = (λ k, Some (VInt k)) <$> pd.index df.
Proof.
  intros Hreset. destruct (reset_index_rows _ _ Hreset) as [Hvalues Hlen].
  rewrite Hvalues, Hlen.
  apply reset_index_name in Hreset as [_ Hrows].
  unfold pd.index, pd.len. rewrite Hrows. split.
  - rewrite fmap_imap. apply (imap_index Z.of_nat).
  - rewrite <- !list_fmap_compose. by apply list_fmap_ext.
Qed.

Lemma transform7_steps_Ok (df : pd.DataFrame) :
  (transform7_steps df).1 = Ok () →
  ∃ out, pd.reset_index (labelled7 df) = Ok out ∧ (transform7_steps df).2 = out.
Proof.
  destruct (decide ((ColumnNames.TARGET : string)
                    ∈ pd.columns (pd.rename [("neutral", ColumnNames.SOURCE : string);
                                             ("toxic", ColumnNames.TARGET : string)] df)))
    as [Hin|Hnot].
  - rewrite transform7_steps_labelled by done.
    destruct (pd.reset_index (labelled7 df)) as [out|e]; [|done]. by exists out.
  - by rewrite transform7_steps_no_target.
Qed.

Lemma transform8_steps_Ok (df : pd.DataFrame) :
  (transform8_steps df).1 = Ok () →
  ∃ df1 out,
    pd.drop ["title"; "date"; "url"] df = Ok df1
    ∧ pd.reset_index
        (pd.rename [("article_content", ColumnNames.SOURCE : string);
                    ("summary", ColumnNames.TARGET : string)] df1) = Ok out
    ∧ (transform8_steps df).2 = out.
Proof.
  unfold transform8_steps.
  destruct (pd.drop _ df) as [df1|e]; [|done].
  destruct (pd.reset_index _) as [out|e] eqn:Hreset; [|done].
  by exists df1, out.
Qed.

Lemma drop_rows (labels : list string) (df df1 : pd.DataFrame) :
  pd.drop labels df = Ok df1 →
  pd.columns df1 = filter (λ c, c ∉ labels) (pd.columns df)
  ∧ pd.index df1 = pd.index df
  ∧ pd.values df1 = pd.without labels (pd.columns df) <$> pd.values df.
Proof.
  unfold pd.drop. destruct (filter _ labels) as [|l missing]; [|done].
  intros [= <-]. unfold pd.index, pd.values. cbn.
  rewrite <- !list_fmap_compose. by split_and!.
Qed.

Lemma rename7_index (cols : list string) :
  "index" ∈ pd.rename_label mapping7 <$> cols ↔ "index" ∈ cols.
Proof.
  rewrite list_elem_of_fmap. split.
  - intros (c & Hc & Hin). rewrite rename7_label in Hc.
    repeat case_decide; by subst.
  - intros Hin. exists "index". by rewrite rename7_label.
Qed.

Lemma rename8_index (cols : list string) :
  "index" ∈ pd.rename_label mapping8
              <$> filter (λ c, c ∉ ["title"; "date"; "url"]) cols
  ↔ "index" ∈ cols.
Proof.
  rewrite list_elem_of_fmap. split.
  - intros (c & Hc & [_ Hin]%list_elem_of_filter). rewrite rename8_label in Hc.
    repeat case_decide; by subst.
  - intros Hin. exists "index". rewrite rename8_label. split; [done|].
    apply list_elem_of_filter. split; [set_solver|done].
Qed.

(** X8.  A [transform] that returns has numbered the rows anew: the
    index of the table is 0, 1, 2, ... and the first cell of each row is
    the index label the row had in the raw table (in lab 7, of the rows
    [drop_duplicates] kept); the first column is called [level_0] when the
    raw table has a column [index], and [index] when it has none. *)
Theorem transform_resets_index :
  (∀ (σ : state) df,
     heap σ !! _raw_data (self σ) = Some df →
     (Lab7.RawDataPreprocessor.transform σ).1 = Ok () →
     ∃ out,
       data_of (Lab7.RawDataPreprocessor.transform σ).2 = Some out
       ∧ pd.index out = Z.of_nat <$> seq 0 (pd.len out)
       ∧ head <$> pd.values out
         = (λ k, Some (VInt k)) <$> pd.index (pd.drop_duplicates df)
       ∧ head (pd.columns out)
         = Some (if decide ("index" ∈ pd.columns df) then "level_0" else "index"))
  ∧ (∀ (σ : state) df,
     heap σ !! _raw_data (self σ) = Some df →
     (Lab8.RawDataPreprocessor.transform σ).1 = Ok () →
     ∃ out,
       data_of (Lab8.RawDataPreprocessor.transform σ).2 = Some out
       ∧ pd.index out = Z.of_nat <$> seq 0 (pd.len out)
       ∧ head <$> pd.values out = (λ k, Some (VInt k)) <$> pd.index df
       ∧ head (pd.columns out)
         = Some (if decide ("index" ∈ pd.columns df) then "level_0" else "index")).
Proof.
  split; intros σ df Hraw.
  - rewrite (transform7_run σ df Hraw). cbn [fst snd].
    rewrite data_of_after_transform.
    intros (out & Hreset & ->)%transform7_steps_Ok.
    exists out. split; [done|].
    destruct (reset_index_index _ _ Hreset) as [Hindex Hhead].
    apply reset_index_name in Hreset as [Hcolumns _].
    split_and!; [done| |].
    + rewrite Hhead. unfold pd.index, labelled7. cbn.
      rewrite <- !list_fmap_compose. by apply list_fmap_ext.
    + rewrite Hcolumns. cbn [head]. f_equal.
      apply decide_ext, (rename7_index (pd.columns df)).
  - rewrite (transform8_run σ df Hraw). cbn [fst snd].
    rewrite data_of_after_transform.
    intros (df1 & out & Hdrop & Hreset & ->)%transform8_steps_Ok.
    exists out. split; [done|].
    destruct (reset_index_index _ _ Hreset) as [Hindex Hhead].
    apply reset_index_name in Hreset as [Hcolumns _].
    destruct (drop_rows _ _ _ Hdrop) as (Hcols1 & Hindex1 & _).
    split_and!; [done| |].
    + by rewrite Hhead, <- Hindex1.
    + rewrite Hcolumns. cbn [head pd.columns pd.rename]. rewrite Hcols1. f_equal.
      apply decide_ext, (rename8_index (pd.columns df)).
Qed.

Lemma transform_resets_index_witness :
  (∃ out,
     data_of (Lab7.RawDataPreprocessor.transform (store_of toxicity_table)).2 = Some out
     ∧ pd.index out = Z.of_nat <$> seq 0 (pd.len out)
     ∧ head <$> pd.values out
       = (λ k, Some (VInt k)) <$> pd.index (pd.drop_duplicates toxicity_table)
     ∧ head (pd.columns out) = Some "index")
  ∧ (∃ out,
     data_of (Lab8.RawDataPreprocessor.transform (store_of news_index)).2 = Some out
     ∧ pd.index out = Z.of_nat <$> seq 0 (pd.len out)
     ∧ head <$> pd.values out = (λ k, Some (VInt k)) <$> pd.index news_index
     ∧ head (pd.columns out) = Some "level_0").
Proof.
  split.
  - apply (proj1 transform_resets_index (store_of toxicity_table) toxicity_table);
      reflexivity.
  - apply (proj2 transform_resets_index (store_of news_index) news_index);
      reflexivity.
Defined.

Lemma select_put_other (label other : string) (cols : list string) (r new : pd.row) :
  other ≠ label →
  pd.select other cols (pd.put label cols r new) = pd.select other cols r.
Proof.
  intros Hne. revert r new.
  induction cols as [|c cols IH]; intros [|v r] new; cbn; try done.
  destruct (decide (c = label)) as [->|Hc].
  - rewrite decide_False by done.
    destruct new as [|n new]; cbn; rewrite decide_False by done; apply IH.
  - cbn. case_decide; by rewrite IH.
Qed.

Lemma select_without (labels : list string) (label : string) (cols : list string)
    (r : pd.row) :
  label ∉ labels →
  pd.select label (filter (λ c, c ∉ labels) cols) (pd.without labels cols r)
  = pd.select label cols r.
Proof.
  intros Hnot. revert r.
  induction cols as [|c cols IH]; intros [|v r]; try done.
  - cbn [pd.without]. by destruct (filter (λ c0, c0 ∉ labels) (c :: cols)).
  - rewrite filter_cons. cbn [pd.without pd.select].
    destruct (decide (c ∈ labels)) as [Hc|Hc].
    + rewrite decide_False by tauto. rewrite decide_False by (intros ->; done).
      apply IH.
    + rewrite decide_True by done. cbn [pd.select]. case_decide; by rewrite IH.
Qed.

Lemma filter_label_kept (labels : list string) (label : string) (cols : list string) :
  label ∉ labels →
  filter (λ c, c = label) (filter (λ c, c ∉ labels) cols)
  = filter (λ c, c = label) cols.
Proof.
  intros Hnot. induction cols as [|c cols IH]; [done|].
  rewrite !filter_cons.
  destruct (decide (c ∉ labels)) as [Hc|Hc].
  - rewrite filter_cons. case_decide; by rewrite IH.
  - rewrite decide_False by (intros ->; done). done.
Qed.

Lemma rename7_source_iff (cols : list string) (c : string) :
  "source" ∉ cols → c ∈ cols →
  pd.rename_label [("neutral", ColumnNames.SOURCE : string);
                   ("toxic", ColumnNames.TARGET : string)] c = "source"
  ↔ c = "neutral".
Proof.
  intros Hnot Hin. rewrite rename7_label.
  repeat case_decide; subst; naive_solver.
Qed.

Lemma rename8_canonical_iff (cols : list string) (c : string) :
  "source" ∉ cols → "target" ∉ cols → c ∈ cols →
  (pd.rename_label [("article_content", ColumnNames.SOURCE : string);
                    ("summary", ColumnNames.TARGET : string)] c = "source"
   ↔ c = "article_content")
  ∧ (pd.rename_label [("article_content", ColumnNames.SOURCE : string);
                      ("summary", ColumnNames.TARGET : string)] c = "target"
     ↔ c = "summary").
Proof.
  intros Hs Ht Hin. rewrite rename8_label.
  repeat case_decide; subst; naive_solver.
Qed.

Lemma renamed8_cells (df df1 : pd.DataFrame) (label raw_label : string) :
  pd.drop ["title"; "date"; "url"] df = Ok df1 →
  raw_label ∉ ["title"; "date"; "url"] →
  raw_label ∈ pd.columns df → NoDup (pd.columns df) →
  (∀ c, c ∈ pd.columns df →
     pd.rename_label [("article_content", ColumnNames.SOURCE : string);
                      ("summary", ColumnNames.TARGET : string)] c = label
     ↔ c = raw_label) →
  let renamed := pd.rename [("article_content", ColumnNames.SOURCE : string);
                            ("summary", ColumnNames.TARGET : string)] df1 in
  length (filter (λ c, c = label) (pd.columns renamed)) = 1
  ∧ cell label (pd.columns renamed) <$> pd.values renamed
    = cell raw_label (pd.columns df) <$> pd.values df.
Proof.
  intros Hdrop Hkept Hin Hnd Hiff renamed.
  destruct (drop_rows _ _ _ Hdrop) as (Hcols1 & _ & Hvalues).
  assert (∀ c, c ∈ pd.columns df1 →
     pd.rename_label [("article_content", ColumnNames.SOURCE : string);
                      ("summary", ColumnNames.TARGET : string)] c = label
     ↔ c = raw_label) as Hiff1.
  { intros c Hc. apply Hiff. rewrite Hcols1 in Hc.
    by apply list_elem_of_filter in Hc as [_ ?]. }
  split.
  - unfold renamed. cbn [pd.columns pd.rename].
    rewrite (filter_fmap_labels _ raw_label) by done.
    by rewrite Hcols1, filter_label_kept, filter_once.
  - unfold renamed, pd.values in *. cbn [pd.columns pd.rows pd.rename].
    rewrite Hvalues, <- list_fmap_compose. apply list_fmap_ext.
    intros i r _. unfold cell. cbn.
    rewrite (select_fmap_labels _ raw_label) by done.
    by rewrite Hcols1, select_without.
Qed.

(** The source cells of what lab 7 leaves in [_data]. *)
Lemma transform7_source_cells (df : pd.DataFrame) :
  NoDup (pd.columns df) → has_columns7 df → "source" ∉ pd.columns df →
  ∃ source,
    pd.column (transform7_steps df).2 ColumnNames.SOURCE = Ok source
    ∧ source.*2 = cell "neutral" (pd.columns df) <$> pd.values (pd.drop_duplicates df).
Proof.
  intros Hnd [Hneutral Htoxic] Hsource.
  assert (length (filter (λ c, c = (ColumnNames.SOURCE : string))
                         (pd.columns (labelled7 df))) = 1) as Hone.
  { unfold labelled7. cbn [pd.columns pd.drop_duplicates pd.rename].
    rewrite (filter_fmap_labels _ "neutral")
      by (intros c Hc; by apply (rename7_source_iff (pd.columns df))).
    by rewrite filter_once. }
  assert (cell ColumnNames.SOURCE (pd.columns (labelled7 df))
            <$> pd.values (labelled7 df)
          = cell "neutral" (pd.columns df) <$> pd.values (pd.drop_duplicates df))
    as Hcells.
  { unfold labelled7, pd.values, cell. cbn.
    rewrite <- !list_fmap_compose. apply list_fmap_ext. intros i [k r] _. cbn.
    rewrite select_put_other by done.
    by rewrite (select_fmap_labels _ "neutral")
      by (intros c Hc; by apply (rename7_source_iff (pd.columns df))). }
  destruct (rename7_canonical (pd.columns df)) as (_ & Hin & _).
  rewrite transform7_steps_labelled by (by apply Hin).
  destruct (pd.reset_index (labelled7 df)) as [df3|e] eqn:Hreset; cbn [snd].
  - destruct (reset_index_cells _ _ ColumnNames.SOURCE Hreset) as [Hlen Hc3];
      [set_solver|].
    destruct (column_values df3 ColumnNames.SOURCE) as (source & Hsrc & Hsv);
      [by rewrite Hlen|].
    exists source. split; [done|]. by rewrite Hsv, Hc3, Hcells.
  - destruct (column_values (labelled7 df) ColumnNames.SOURCE)
      as (source & Hsrc & Hsv); [done|].
    exists source. split; [done|]. by rewrite Hsv, Hcells.
Qed.

(** The target cells of what lab 7 leaves in [_data]. *)
Lemma transform7_target_cells (df : pd.DataFrame) :
  pd.rectangular df → NoDup (pd.columns df) →
  "toxic" ∈ pd.columns df → "target" ∉ pd.columns df →
  ∃ target,
    pd.column (transform7_steps df).2 ColumnNames.TARGET = Ok target
    ∧ target.*2 = Lab7.RawDataPreprocessor.to_label
        <$> (cell "toxic" (pd.columns df) <$> pd.values (pd.drop_duplicates df)).
Proof.
  intros Hrect Hnd Htoxic Hnot.
  assert (length (filter (λ c, c = (ColumnNames.TARGET : string))
                         (pd.columns (labelled7 df))) = 1) as Hone.
  { unfold labelled7. cbn [pd.columns pd.drop_duplicates pd.rename].
    rewrite (filter_fmap_labels _ "toxic")
      by (intros c Hc; by apply (rename7_target_iff (pd.columns df))).
    by rewrite filter_once. }
  destruct (rename7_canonical (pd.columns df)) as (_ & Hin & _).
  rewrite transform7_steps_labelled by (by apply Hin).
  destruct (pd.reset_index (labelled7 df)) as [df3|e] eqn:Hreset; cbn [snd].
  - destruct (reset_index_cells _ _ ColumnNames.TARGET Hreset) as [Hlen Hcells];
      [set_solver|].
    destruct (column_values df3 ColumnNames.TARGET) as (target & Htgt & Htv);
      [by rewrite Hlen|].
    exists target. split; [done|]. by rewrite Htv, Hcells, labelled7_cells.
  - destruct (column_values (labelled7 df) ColumnNames.TARGET)
      as (target & Htgt & Htv); [done|].
    exists target. split; [done|]. by rewrite Htv, labelled7_cells.
Qed.

(** The source and the target cells of what lab 8 leaves in [_data]. *)
Lemma transform8_cells (df : pd.DataFrame) :
  NoDup (pd.columns df) → has_columns8 df →
  "source" ∉ pd.columns df → "target" ∉ pd.columns df →
  ∃ source target,
    pd.column (transform8_steps df).2 ColumnNames.SOURCE = Ok source
    ∧ pd.column (transform8_steps df).2 ColumnNames.TARGET = Ok target
    ∧ source.*2 = cell "article_content" (pd.columns df) <$> pd.values df
    ∧ target.*2 = cell "summary" (pd.columns df) <$> pd.values df.
Proof.
  intros Hnd Hcols Hsource Htarget.
  destruct (transform8_steps_renamed df Hcols) as (df1 & Hdrop & _ & _ & _ & ->).
  unfold has_columns8 in Hcols.
  rewrite !Forall_cons in Hcols; cbn beta in Hcols.
  destruct Hcols as (_ & _ & _ & Harticle & Hsummary & _).
  destruct (renamed8_cells df df1 ColumnNames.SOURCE "article_content" Hdrop)
    as [Hone_s Hcells_s]; [set_solver | done | done | |].
  { intros c Hc. by apply (rename8_canonical_iff (pd.columns df)). }
  destruct (renamed8_cells df df1 ColumnNames.TARGET "summary" Hdrop)
    as [Hone_t Hcells_t]; [set_solver | done | done | |].
  { intros c Hc. by apply (rename8_canonical_iff (pd.columns df)). }
  destruct (pd.reset_index _) as [df3|e] eqn:Hreset; cbn [snd].
  - destruct (reset_index_cells _ _ ColumnNames.SOURCE Hreset) as [Hls Hcs3];
      [set_solver|].
    destruct (reset_index_cells _ _ ColumnNames.TARGET Hreset) as [Hlt Hct3];
      [set_solver|].
    destruct (column_values df3 ColumnNames.SOURCE) as (source & Hsrc & Hsv);
      [by rewrite Hls|].
    destruct (column_values df3 ColumnNames.TARGET) as (target & Htgt & Htv);
      [by rewrite Hlt|].
    exists source, target. split_and!; [done..| |].
    + by rewrite Hsv, Hcs3, Hcells_s.
    + by rewrite Htv, Hct3, Hcells_t.
  - destruct (column_values _ ColumnNames.SOURCE Hone_s) as (source & Hsrc & Hsv).
    destruct (column_values _ ColumnNames.TARGET Hone_t) as (target & Htgt & Htv).
    exists source, target. split_and!; [done..| |].
    + by rewrite Hsv, Hcells_s.
    + by rewrite Htv, Hcells_t.
Qed.

(** ** The columns and the rows [transform] leaves *)

Lemma transform7_columns (df : pd.DataFrame) :
  has_columns7 df →
  ∃ prefix,
    pd.columns (transform7_steps df).2
    = prefix ++ (pd.rename_label mapping7 <$> pd.columns df)
    ∧ (prefix = [] ∨ prefix = ["index"] ∨ prefix = ["level_0"]).
Proof.
  intros [_ Htoxic].
  destruct (rename7_canonical (pd.columns df)) as (_ & Htarget & _).
  rewrite transform7_steps_labelled by (apply Htarget, Htoxic).
  destruct (pd.reset_index (labelled7 df)) as [df3|e] eqn:Hreset; cbn [snd].
  - apply reset_index_name in Hreset as [-> _].
    case_decide; [exists ["level_0"] | exists ["index"]]; auto.
  - exists []. auto.
Qed.

Lemma transform8_columns (df : pd.DataFrame) :
  has_columns8 df →
  ∃ prefix,
    pd.columns (transform8_steps df).2
    = prefix ++ (pd.rename_label mapping8
                   <$> filter (λ c, c ∉ ["title"; "date"; "url"]) (pd.columns df))
    ∧ (prefix = [] ∨ prefix = ["index"] ∨ prefix = ["level_0"]).
Proof.
  intros Hcols.
  destruct (transform8_steps_renamed df Hcols) as (df1 & _ & Hcols1 & _ & _ & ->).
  destruct (pd.reset_index _) as [df3|e] eqn:Hreset; cbn [snd].
  - apply reset_index_name in Hreset as [-> _]. cbn [pd.columns pd.rename].
    rewrite Hcols1. case_decide; [exists ["level_0"] | exists ["index"]]; auto.
  - exists []. cbn [pd.columns pd.rename]. rewrite Hcols1. auto.
Qed.

(** C3.  [transform] renames the columns of the dataset to the canonical
    names.  Lab 7, for a raw table with the columns [neutral] and
    [toxic]: the table [_data] points to has a column [source] and a
    column [target] and no column [neutral] or [toxic] any more; every
    other column of the raw table is still there; and [transform] raises
    nothing unless the raw table has both a column [index] and a column
    [level_0].  When moreover the rows are full, the labels distinct and
    no column is called [source] or [target] beforehand, the column
    [source] holds the [neutral] cells and the column [target] the labels
    of the [toxic] cells, row by row, of the rows [drop_duplicates] kept.
    Lab 8, for a raw table with the columns [title], [date], [url],
    [article_content] and [summary]: [source] and [target] are there,
    [article_content] and [summary] are not, the other columns but the
    three dropped ones are still there, and when the labels are distinct
    and no column is called [source] or [target] beforehand, the column
    [source] holds the [article_content] cells and the column [target]
    the [summary] cells of the rows of the raw table. *)
Theorem transform_canonical_columns :
  (∀ (σ : state) (df : pd.DataFrame),
     heap σ !! _raw_data (self σ) = Some df →
     has_columns7 df →
     ∃ out, data_of (Lab7.RawDataPreprocessor.transform σ).2 = Some out
       ∧ (ColumnNames.SOURCE : string) ∈ pd.columns out
       ∧ (ColumnNames.TARGET : string) ∈ pd.columns out
       ∧ ("neutral" ∉ pd.columns out)
       ∧ ("toxic" ∉ pd.columns out)
       ∧ (∀ c, c ∈ pd.columns df → c ∉ ["neutral"; "toxic"] → c ∈ pd.columns out)
       ∧ (¬ index_names_taken df →
          (Lab7.RawDataPreprocessor.transform σ).1 = Ok ())
       ∧ (pd.rectangular df → NoDup (pd.columns df) →
          "source" ∉ pd.columns df → "target" ∉ pd.columns df →
          ∃ source target,
            pd.column out ColumnNames.SOURCE = Ok source
            ∧ pd.column out ColumnNames.TARGET = Ok target
            ∧ source.*2
              = cell "neutral" (pd.columns df) <$> pd.values (pd.drop_duplicates df)
            ∧ target.*2
              = (λ r, Lab7.RawDataPreprocessor.to_label (cell "toxic" (pd.columns df) r))
                  <$> pd.values (pd.drop_duplicates df)))
  ∧ (∀ (σ : state) (df : pd.DataFrame),
     heap σ !! _raw_data (self σ) = Some df →
     has_columns8 df →
     ∃ out, data_of (Lab8.RawDataPreprocessor.transform σ).2 = Some out
       ∧ (ColumnNames.SOURCE : string) ∈ pd.columns out
       ∧ (ColumnNames.TARGET : string) ∈ pd.columns out
       ∧ ("article_content" ∉ pd.columns out)
       ∧ ("summary" ∉ pd.columns out)
       ∧ (∀ c, c ∈ pd.columns df →
               c ∉ ["title"; "date"; "url"; "article_content"; "summary"] →
               c ∈ pd.columns out)
       ∧ (¬ index_names_taken df →
          (Lab8.RawDataPreprocessor.transform σ).1 = Ok ())
       ∧ (NoDup (pd.columns df) →
          "source" ∉ pd.columns df → "target" ∉ pd.columns df →
          ∃ source target,
            pd.column out ColumnNames.SOURCE = Ok source
            ∧ pd.column out ColumnNames.TARGET = Ok target
            ∧ source.*2 = cell "article_content" (pd.columns df) <$> pd.values df
            ∧ target.*2 = cell "summary" (pd.columns df) <$> pd.values df)).
Proof.
  split; intros σ df Hraw Hcols.
  - rewrite (transform7_run σ df Hraw). cbn [fst snd].
    destruct (transform7_outcome df Hcols) as (out & Hout & Hs & Ht & Hok).
    destruct (transform7_columns df Hcols) as (prefix & Hcolumns & Hprefix).
    exists out. rewrite data_of_after_transform. subst out.
    split_and!; [done..| | | | done |].
    + rewrite Hcolumns, elem_of_app, list_elem_of_fmap.
      intros [Hin|(c & Hc & _)].
      * destruct Hprefix as [->|[->| ->]]; set_solver.
      * rewrite rename7_label in Hc. repeat case_decide; by subst.
    + rewrite Hcolumns, elem_of_app, list_elem_of_fmap.
      intros [Hin|(c & Hc & _)].
      * destruct Hprefix as [->|[->| ->]]; set_solver.
      * rewrite rename7_label in Hc. repeat case_decide; by subst.
    + intros c Hin Hnot. rewrite Hcolumns, elem_of_app, list_elem_of_fmap.
      right. exists c. split; [|done].
      rewrite rename7_label. repeat case_decide; set_solver.
    + intros Hrect Hnd Hsource Htarget.
      destruct (transform7_source_cells df Hnd Hcols Hsource) as (src & Hsrc & Hsv).
      destruct (transform7_target_cells df Hrect Hnd (proj2 Hcols) Htarget)
        as (tgt & Htgt & Htv).
      exists src, tgt. split_and!; [done..|].
      by rewrite Htv, <- list_fmap_compose.
  - rewrite (transform8_run σ df Hraw). cbn [fst snd].
    destruct (transform8_outcome df Hcols) as (Hs & Ht & Hok).
    destruct (transform8_columns df Hcols) as (prefix & Hcolumns & Hprefix).
    eexists. rewrite data_of_after_transform.
    split_and!; [done..| | | | done |].
    + rewrite Hcolumns, elem_of_app, list_elem_of_fmap.
      intros [Hin|(c & Hc & _)].
      * destruct Hprefix as [->|[->| ->]]; set_solver.
      * rewrite rename8_label in Hc. repeat case_decide; by subst.
    + rewrite Hcolumns, elem_of_app, list_elem_of_fmap.
      intros [Hin|(c & Hc & _)].
      * destruct Hprefix as [->|[->| ->]]; set_solver.
      * rewrite rename8_label in Hc. repeat case_decide; by subst.
    + intros c Hin Hnot. rewrite Hcolumns, elem_of_app, list_elem_of_fmap.
      right. exists c. split.
      * rewrite rename8_label. repeat case_decide; set_solver.
      * apply list_elem_of_filter. split; [set_solver|done].
    + intros Hnd Hsource Htarget.
      destruct (transform8_cells df Hnd Hcols Hsource Htarget)
        as (src & tgt & Hsrc & Htgt & Hsv & Htv).
      by exists src, tgt.
Qed.

Lemma transform_canonical_columns_witness :
  (∃ out, data_of (Lab7.RawDataPreprocessor.transform (store_of rated_table)).2
          = Some out
     ∧ (ColumnNames.SOURCE : string) ∈ pd.columns out
     ∧ (ColumnNames.TARGET : string) ∈ pd.columns out
     ∧ ("neutral" ∉ pd.columns out)
     ∧ ("toxic" ∉ pd.columns out)
     ∧ "rating" ∈ pd.columns out
     ∧ (Lab7.RawDataPreprocessor.transform (store_of rated_table)).1 = Ok ()
     ∧ ∃ source target,
         pd.column out ColumnNames.SOURCE = Ok source
         ∧ pd.column out ColumnNames.TARGET = Ok target
         ∧ source.*2 = [VStr "a"; VStr "b"]
         ∧ target.*2 = [VInt 1; VInt 0])
  ∧ (∃ out, data_of (Lab8.RawDataPreprocessor.transform (store_of news_table)).2
            = Some out
     ∧ (ColumnNames.SOURCE : string) ∈ pd.columns out
     ∧ (ColumnNames.TARGET : string) ∈ pd.columns out
     ∧ ("article_content" ∉ pd.columns out)
     ∧ ("summary" ∉ pd.columns out)
     ∧ (Lab8.RawDataPreprocessor.transform (store_of news_table)).1 = Ok ()
     ∧ ∃ source target,
         pd.column out ColumnNames.SOURCE = Ok source
         ∧ pd.column out ColumnNames.TARGET = Ok target
         ∧ source.*2 = [VStr "text"; VStr "text"]
         ∧ target.*2 = [VStr "short"; VStr "short"]).
Proof.
  split.
  - destruct (proj1 transform_canonical_columns (store_of rated_table) rated_table)
      as (out & Hout & Hs & Ht & Hn & Hx & Hkept & Hok & Hcells).
    + reflexivity.
    + unfold has_columns7. vm_compute. split; repeat constructor.
    + exists out. split; [exact Hout|]. split; [exact Hs|]. split; [exact Ht|].
      split; [exact Hn|]. split; [exact Hx|].
      split; [apply Hkept; compute_done|].
      split; [apply Hok; compute_done|].
      apply Hcells; [vm_compute; repeat constructor | compute_done..].
  - destruct (proj2 transform_canonical_columns (store_of news_table) news_table)
      as (out & Hout & Hs & Ht & Hn & Hx & _ & Hok & Hcells).
    + reflexivity.
    + unfold has_columns8. vm_compute. repeat constructor.
    + exists out. split; [exact Hout|]. split; [exact Hs|]. split; [exact Ht|].
      split; [exact Hn|]. split; [exact Hx|].
      split; [apply Hok; compute_done|].
      apply Hcells; compute_done.
Defined.

Lemma data_rows_reset (df df' : pd.DataFrame) :
  pd.reset_index df = Ok df' → data_rows df' = pd.values df.
Proof.
  intros [Hvalues _]%reset_index_rows. unfold data_rows. rewrite Hvalues.
  unfold pd.values. rewrite <- list_fmap_compose. by apply list_fmap_ext.
Qed.

Lemma row_key_put (label : string) (cols : list string) (r : pd.row) :
  Forall is_bool (pd.select label cols r) →
  pd.row_key (pd.put label cols r
                (Lab7.RawDataPreprocessor.to_label <$> pd.select label cols r))
  = pd.row_key r.
Proof.
  revert r. induction cols as [|c cols IH]; intros [|v r]; cbn; try done.
  case_decide; cbn.
  - intros [Hv Hr]%Forall_cons. unfold pd.row_key in *. cbn. f_equal; [|by apply IH].
    by destruct v as [| |[|]|n|s].
  - intros Hr. unfold pd.row_key in *. cbn. f_equal. by apply IH.
Qed.

Lemma labelled7_keys (df : pd.DataFrame) :
  Forall (λ r, Forall is_bool (relabelled7 df r)) (pd.values df) →
  pd.row_key <$> pd.values (labelled7 df)
  = pd.row_key <$> (pd.keep_first [] (pd.rows df)).*2.
Proof.
  intros Hbool. unfold labelled7, pd.values. cbn.
  rewrite <- !list_fmap_compose. apply Forall_fmap_ext, Forall_forall.
  intros kr Hkr. cbn. apply row_key_put.
  rewrite Forall_forall in Hbool. apply Hbool.
  apply list_elem_of_fmap. exists kr. split; [done|].
  eapply elem_of_sublist; [exact Hkr | apply keep_first_sublist].
Qed.

(** The labels are written after [drop_duplicates]: where the cells
    under [toxic] are not booleans, two rows that differ can come out as
    the same row. *)
Lemma transform7_relabels_after_drop_duplicates :
  (Lab7.RawDataPreprocessor.transform (store_of graded_table)).1 = Ok ()
  ∧ ∃ out,
      data_of (Lab7.RawDataPreprocessor.transform (store_of graded_table)).2 = Some out
      ∧ data_rows out = [[VStr "a"; VInt 0]; [VStr "a"; VInt 0]].
Proof. split; [reflexivity|]. eexists. split; reflexivity. Qed.

(** C2, as the code has it.  For a raw table with the columns of its
    dataset and a free name for the index column.  Lab 7: [transform]
    returns a table with as many rows as the raw table has rows that
    differ, as pandas compares them ([True] like 1, [False] like 0,
    [None] like [nan]); when the cells it relabels are booleans, the rows
    of the result, the cell of the old index apart, are all different,
    and they are, up to that comparison, the rows of the raw table.
    Lab 8: [transform] keeps every row: the result has as many rows as the
    raw table, and its rows, the cell of the old index apart, are the
    rows of the raw table in order without the cells of [title], [date]
    and [url]. *)
Theorem transform_row_count :
  (∀ (σ : state) (df : pd.DataFrame),
     heap σ !! _raw_data (self σ) = Some df →
     has_columns7 df → ¬ index_names_taken df →
     (Lab7.RawDataPreprocessor.transform σ).1 = Ok ()
     ∧ ∃ out, data_of (Lab7.RawDataPreprocessor.transform σ).2 = Some out
         ∧ pd.len out = length (remove_dups (pd.row_key <$> pd.values df))
         ∧ (Forall (λ r, Forall is_bool (relabelled7 df r)) (pd.values df) →
            NoDup (pd.row_key <$> data_rows out)
            ∧ ∀ k, k ∈ pd.row_key <$> data_rows out ↔ k ∈ pd.row_key <$> pd.values df))
  ∧ (∀ (σ : state) (df : pd.DataFrame),
     heap σ !! _raw_data (self σ) = Some df →
     has_columns8 df → ¬ index_names_taken df →
     (Lab8.RawDataPreprocessor.transform σ).1 = Ok ()
     ∧ ∃ out, data_of (Lab8.RawDataPreprocessor.transform σ).2 = Some out
         ∧ pd.len out = pd.len df
         ∧ data_rows out
           = pd.without ["title"; "date"; "url"] (pd.columns df) <$> pd.values df).
Proof.
  split; intros σ df Hraw Hcols Hfree.
  - rewrite (transform7_run σ df Hraw). cbn [fst snd].
    destruct (transform7_outcome df Hcols) as (out & Hout & _ & _ & Hok).
    split; [by apply Hok|]. exists out.
    rewrite Hout, data_of_after_transform. split; [done|].
    specialize (Hok Hfree). subst out. revert Hok.
    destruct (rename7_canonical (pd.columns df)) as (_ & Htarget & _).
    rewrite transform7_steps_labelled by (apply Htarget, Hcols).
    destruct (pd.reset_index (labelled7 df)) as [df3|e] eqn:Hreset; [|done].
    intros _. cbn [snd]. split.
    + destruct (reset_index_rows _ _ Hreset) as [_ ->].
      by destruct (labelled7_index df) as [_ ->].
    + intros Hbool.
      rewrite (data_rows_reset _ _ Hreset), (labelled7_keys df Hbool). split.
      * apply keep_first_NoDup.
      * intros k. rewrite keep_first_elem. unfold pd.values. set_solver.
  - rewrite (transform8_run σ df Hraw). cbn [fst snd].
    destruct (transform8_outcome df Hcols) as (_ & _ & Hok).
    split; [by apply Hok|]. eexists.
    rewrite data_of_after_transform. split; [done|].
    specialize (Hok Hfree). revert Hok.
    destruct (transform8_steps_renamed df Hcols) as (df1 & Hdrop & _ & Hlen & _ & ->).
    destruct (pd.reset_index _) as [df3|e] eqn:Hreset; [|done].
    intros _. cbn [snd]. split.
    + by destruct (reset_index_rows _ _ Hreset) as [_ ->].
    + rewrite (data_rows_reset _ _ Hreset).
      by destruct (drop_rows _ _ _ Hdrop) as (_ & _ & <-).
Qed.

Lemma transform_row_count_witness :
  ((Lab7.RawDataPreprocessor.transform (store_of gaps7)).1 = Ok ()
   ∧ ∃ out, data_of (Lab7.RawDataPreprocessor.transform (store_of gaps7)).2 = Some out
       ∧ pd.len out = 2)
  ∧ ((Lab7.RawDataPreprocessor.transform (store_of toxicity_table)).1 = Ok ()
   ∧ ∃ out, data_of (Lab7.RawDataPreprocessor.transform (store_of toxicity_table)).2
            = Some out
       ∧ pd.len out = 2
       ∧ NoDup (pd.row_key <$> data_rows out)
       ∧ ∀ k, k ∈ pd.row_key <$> data_rows out
              ↔ k ∈ pd.row_key <$> pd.values toxicity_table)
  ∧ ((Lab8.RawDataPreprocessor.transform (store_of news_table)).1 = Ok ()
   ∧ ∃ out, data_of (Lab8.RawDataPreprocessor.transform (store_of news_table)).2
            = Some out
       ∧ pd.len out = 2
       ∧ data_rows out = [[VStr "text"; VStr "short"]; [VStr "text"; VStr "short"]]).
Proof.
  split; [|split].
  - destruct (proj1 transform_row_count (store_of gaps7) gaps7)
      as (Hok & out & Hout & Hlen & _).
    + reflexivity.
    + unfold has_columns7. vm_compute. split; repeat constructor.
    + compute_done.
    + split; [exact Hok|]. exists out. split; [exact Hout | exact Hlen].
  - destruct (proj1 transform_row_count (store_of toxicity_table) toxicity_table)
      as (Hok & out & Hout & Hlen & Hrows).
    + reflexivity.
    + unfold has_columns7. vm_compute. split; repeat constructor.
    + compute_done.
    + split; [exact Hok|]. exists out. split; [exact Hout|]. split; [exact Hlen|].
      apply Hrows. vm_compute. repeat constructor; by eexists.
  - apply (proj2 transform_row_count (store_of news_table) news_table).
    + reflexivity.
    + unfold has_columns8. vm_compute. repeat constructor.
    + compute_done.
Defined.

(** X9.  [transform] renames and does not touch the texts.  Lab 7: for a
    raw table with distinct labels, the columns of the dataset and no
    column [source], the source cells of the result are the [neutral]
    cells of the rows [drop_duplicates] kept.  Lab 8: for a raw table
    with distinct labels, the columns of the dataset and no column
    [source] or [target], the source and the target cells of the result
    are the [article_content] and the [summary] cells of the raw table. *)
Theorem transform_keeps_texts :
  (∀ (σ : state) df,
     heap σ !! _raw_data (self σ) = Some df →
     NoDup (pd.columns df) → has_columns7 df → "source" ∉ pd.columns df →
     ∃ out source neutral,
       data_of (Lab7.RawDataPreprocessor.transform σ).2 = Some out
       ∧ pd.column (pd.drop_duplicates df) "neutral" = Ok neutral
       ∧ pd.column out ColumnNames.SOURCE = Ok source
       ∧ source.*2 = neutral.*2)
  ∧ (∀ (σ : state) df,
     heap σ !! _raw_data (self σ) = Some df →
     NoDup (pd.columns df) → has_columns8 df →
     "source" ∉ pd.columns df → "target" ∉ pd.columns df →
     ∃ out source target article summary,
       data_of (Lab8.RawDataPreprocessor.transform σ).2 = Some out
       ∧ pd.column df "article_content" = Ok article
       ∧ pd.column df "summary" = Ok summary
       ∧ pd.column out ColumnNames.SOURCE = Ok source
       ∧ pd.column out ColumnNames.TARGET = Ok target
       ∧ source.*2 = article.*2
       ∧ target.*2 = summary.*2).
Proof.
  split.
  - intros σ df Hraw Hnd Hcols Hsource.
    rewrite (transform7_run σ df Hraw). cbn [snd]. rewrite data_of_after_transform.
    destruct (column_values (pd.drop_duplicates df) "neutral")
      as (neutral & Hcol & Hvals).
    { cbn. rewrite filter_once; [done | apply Hcols | done]. }
    destruct (transform7_source_cells df Hnd Hcols Hsource) as (source & Hsrc & Hsv).
    exists (transform7_steps df).2, source, neutral. split_and!; [done..|].
    by rewrite Hsv, Hvals.
  - intros σ df Hraw Hnd Hcols Hsource Htarget.
    rewrite (transform8_run σ df Hraw). cbn [snd]. rewrite data_of_after_transform.
    destruct (transform8_cells df Hnd Hcols Hsource Htarget)
      as (source & target & Hsrc & Htgt & Hsv & Htv).
    unfold has_columns8 in Hcols.
    rewrite !Forall_cons in Hcols; cbn beta in Hcols.
    destruct Hcols as (_ & _ & _ & Harticle & Hsummary & _).
    destruct (column_values df "article_content") as (article & Hca & Hva);
      [by rewrite filter_once|].
    destruct (column_values df "summary") as (summary & Hcs & Hvs);
      [by rewrite filter_once|].
    exists (transform8_steps df).2, source, target, article, summary.
    split_and!; [done..| |].
    + by rewrite Hsv, Hva.
    + by rewrite Htv, Hvs.
Qed.

Lemma transform_keeps_texts_witness :
  (∃ out source neutral,
     data_of (Lab7.RawDataPreprocessor.transform (store_of toxicity_table)).2 = Some out
     ∧ pd.column (pd.drop_duplicates toxicity_table) "neutral" = Ok neutral
     ∧ pd.column out ColumnNames.SOURCE = Ok source
     ∧ source.*2 = neutral.*2)
  ∧ (∃ out source target article summary,
     data_of (Lab8.RawDataPreprocessor.transform (store_of news_table)).2 = Some out
     ∧ pd.column news_table "article_content" = Ok article
     ∧ pd.column news_table "summary" = Ok summary
     ∧ pd.column out ColumnNames.SOURCE = Ok source
     ∧ pd.column out ColumnNames.TARGET = Ok target
     ∧ source.*2 = article.*2
     ∧ target.*2 = summary.*2).
Proof.
  split.
  - apply (proj1 transform_keeps_texts (store_of toxicity_table) toxicity_table).
    + reflexivity.
    + compute_done.
    + unfold has_columns7. vm_compute. split; repeat constructor.
    + compute_done.
  - apply (proj2 transform_keeps_texts (store_of news_table) news_table).
    + reflexivity.
    + compute_done.
    + unfold has_columns8. vm_compute. repeat constructor.
    + compute_done.
    + compute_done.
Defined.

(** ** The dataset *)

Lemma column_missing (df : pd.DataFrame) (label : string) :
  label ∉ pd.columns df → pd.column df label = Raise (KeyError label).
Proof. intros Hnot. unfold pd.column, pd.getitem. by rewrite decide_False. Qed.

(** X10.  The items of a dataset whose table has one column [source] are
    numbered from 0 to [len - 1]: below [len], [dataset[i]] is the
    one-element tuple of the source cell of row [i] (lab 8: of [str] of
    the cell), and from [len] on it raises [IndexError].  Without a column
    [source] every [dataset[i]] raises [KeyError]. *)
Theorem getitem_bounds :
  (∀ (ds : Lab7.TaskDataset.t) (src : pd.Series) (i : nat),
     pd.column (Lab7.TaskDataset._data ds) ColumnNames.SOURCE = Ok src →
     Lab7.TaskDataset.__len__ ds = length src
     ∧ (i < Lab7.TaskDataset.__len__ ds →
        ∃ v, src.*2 !! i = Some v ∧ Lab7.TaskDataset.__getitem__ ds i = Ok [v])
     ∧ (Lab7.TaskDataset.__len__ ds ≤ i →
        Lab7.TaskDataset.__getitem__ ds i
        = Raise (IndexError "single positional indexer is out-of-bounds")))
  ∧ (∀ (ds : Lab8.TaskDataset.t) (src : pd.Series) (i : nat),
     pd.column (Lab8.TaskDataset._data ds) ColumnNames.SOURCE = Ok src →
     Lab8.TaskDataset.__len__ ds = length src
     ∧ (i < Lab8.TaskDataset.__len__ ds →
        ∃ v, src.*2 !! i = Some v
          ∧ Lab8.TaskDataset.__getitem__ ds i = Ok [VStr (py_str v)])
     ∧ (Lab8.TaskDataset.__len__ ds ≤ i →
        Lab8.TaskDataset.__getitem__ ds i
        = Raise (IndexError "single positional indexer is out-of-bounds")))
  ∧ (∀ (ds : Lab7.TaskDataset.t) (i : nat),
     (ColumnNames.SOURCE : string) ∉ pd.columns (Lab7.TaskDataset._data ds) →
     Lab7.TaskDataset.__getitem__ ds i = Raise (KeyError "source"))
  ∧ (∀ (ds : Lab8.TaskDataset.t) (i : nat),
     (ColumnNames.SOURCE : string) ∉ pd.columns (Lab8.TaskDataset._data ds) →
     Lab8.TaskDataset.__getitem__ ds i = Raise (KeyError "source")).
Proof.
  split_and!.
  - intros ds src i Hsrc. pose proof (column_length _ _ _ Hsrc) as Hlen.
    unfold Lab7.TaskDataset.__len__, Lab7.TaskDataset.__getitem__.
    rewrite Hsrc, <- Hlen. cbn. unfold pd.iloc. split_and!; [done| |].
    + intros Hi. destruct (lookup_lt_is_Some_2 src i Hi) as [kv Hkv].
      exists kv.2. rewrite list_lookup_fmap, Hkv. done.
    + intros Hi. by rewrite (lookup_ge_None_2 src i Hi).
  - intros ds src i Hsrc. pose proof (column_length _ _ _ Hsrc) as Hlen.
    unfold Lab8.TaskDataset.__len__, Lab8.TaskDataset.__getitem__.
    rewrite Hsrc, <- Hlen. cbn. unfold pd.iloc. split_and!; [done| |].
    + intros Hi. destruct (lookup_lt_is_Some_2 src i Hi) as [kv Hkv].
      exists kv.2. rewrite list_lookup_fmap, Hkv. done.
    + intros Hi. by rewrite (lookup_ge_None_2 src i Hi).
  - intros ds i Hnot. unfold Lab7.TaskDataset.__getitem__.
    by rewrite (column_missing _ _ Hnot).
  - intros ds i Hnot. unfold Lab8.TaskDataset.__getitem__.
    by rewrite (column_missing _ _ Hnot).
Qed.

Lemma getitem_bounds_witness :
  (Lab7.TaskDataset.__len__ (Lab7.TaskDataset.mk toxicity_data) = 3
   ∧ (∃ v, [VStr "a"; VStr "b"; VStr "c"] !! 2 = Some v
        ∧ Lab7.TaskDataset.__getitem__ (Lab7.TaskDataset.mk toxicity_data) 2 = Ok [v])
   ∧ Lab7.TaskDataset.__getitem__ (Lab7.TaskDataset.mk toxicity_data) 3
     = Raise (IndexError "single positional indexer is out-of-bounds"))
  ∧ (Lab8.TaskDataset.__len__ (Lab8.TaskDataset.mk toxicity_data) = 3
   ∧ (∃ v, [VStr "a"; VStr "b"; VStr "c"] !! 2 = Some v
        ∧ Lab8.TaskDataset.__getitem__ (Lab8.TaskDataset.mk toxicity_data) 2
          = Ok [VStr (py_str v)])
   ∧ Lab8.TaskDataset.__getitem__ (Lab8.TaskDataset.mk toxicity_data) 3
     = Raise (IndexError "single positional indexer is out-of-bounds"))
  ∧ Lab7.TaskDataset.__getitem__ (Lab7.TaskDataset.mk toxicity_table) 0
    = Raise (KeyError "source")
  ∧ Lab8.TaskDataset.__getitem__ (Lab8.TaskDataset.mk toxicity_table) 0
    = Raise (KeyError "source").
Proof.
  destruct getitem_bounds as (H7 & H8 & H7' & H8').
  split; [|split; [|split]].
  - destruct (H7 (Lab7.TaskDataset.mk toxicity_data)
                [(0%Z, VStr "a"); (1%Z, VStr "b"); (2%Z, VStr "c")] 2)
      as (Hlen & Hin & _); [reflexivity|].
    destruct (H7 (Lab7.TaskDataset.mk toxicity_data)
                [(0%Z, VStr "a"); (1%Z, VStr "b"); (2%Z, VStr "c")] 3)
      as (_ & _ & Hout); [reflexivity|].
    split_and!; [exact Hlen | apply Hin; vm_compute; lia | apply Hout; vm_compute; lia].
  - destruct (H8 (Lab8.TaskDataset.mk toxicity_data)
                [(0%Z, VStr "a"); (1%Z, VStr "b"); (2%Z, VStr "c")] 2)
      as (Hlen & Hin & _); [reflexivity|].
    destruct (H8 (Lab8.TaskDataset.mk toxicity_data)
                [(0%Z, VStr "a"); (1%Z, VStr "b"); (2%Z, VStr "c")] 3)
      as (_ & _ & Hout); [reflexivity|].
    split_and!; [exact Hlen | apply Hin; vm_compute; lia | apply Hout; vm_compute; lia].
  - apply H7'. compute_done.
  - apply H8'. compute_done.
Defined.

(** ** [infer_sample] with a model *)

(** X11.  With a model, [infer_sample] runs the model once, on the texts
    of the sample and nothing else, and returns the first prediction; when
    the model gives no prediction it raises [IndexError], and an exception
    of the model is the one it raises. *)
Theorem infer_sample_with_model :
  (∀ classify (self : Lab7.LLMPipeline.t) model sample calls,
     Lab7.LLMPipeline._model self = Some model →
     Lab7.LLMPipeline.infer_sample classify self sample calls
     = (match classify model sample with
        | Ok (logit :: _) => Ok (Some (pretty logit))
        | Ok [] => Raise (IndexError "list index out of range")
        | Raise e => Raise e
        end, calls ++ [sample]))
  ∧ (∀ generate (self : Lab8.LLMPipeline.t) model sample calls,
     Lab8.LLMPipeline._model self = Some model →
     Lab8.LLMPipeline.infer_sample generate self sample calls
     = (match generate model (Lab8.LLMPipeline._max_length self) sample with
        | Ok (seq :: _) => Ok (Some seq)
        | Ok [] => Raise (IndexError "list index out of range")
        | Raise e => Raise e
        end, calls ++ [sample])).
Proof.
  split.
  - intros classify self model sample calls Hmodel.
    unfold Lab7.LLMPipeline.infer_sample, Lab7.LLMPipeline._infer_batch,
      Lab7.LLMPipeline.run_model, report_time, lift, first_of.
    rewrite Hmodel. unfold mbind, mret, ST_bind, ST_ret.
    by destruct (classify model sample) as [[|logit logits]|e].
  - intros generate self model sample calls Hmodel.
    unfold Lab8.LLMPipeline.infer_sample, Lab8.LLMPipeline._infer_batch,
      Lab8.LLMPipeline.run_model, report_time, lift, first_of.
    rewrite Hmodel. unfold mbind, mret, ST_bind, ST_ret.
    by destruct (generate model _ sample) as [[|seq seqs]|e].
Qed.

Lemma infer_sample_with_model_witness :
  Lab7.LLMPipeline.infer_sample always_toxic pipeline7 [VStr "a"] []
  = (Ok (Some "1"), [[VStr "a"]])
  ∧ Lab7.LLMPipeline.infer_sample always_toxic pipeline7 [] []
    = (Raise (IndexError "list index out of range"), [[]])
  ∧ Lab7.LLMPipeline.infer_sample fails_on_c pipeline7 [VStr "c"] []
    = (Raise (OtherError "RuntimeError" "out of memory"), [[VStr "c"]])
  ∧ Lab8.LLMPipeline.infer_sample always_s pipeline8 [VStr "long a"] []
    = (Ok (Some "s"), [[VStr "long a"]])
  ∧ Lab8.LLMPipeline.infer_sample always_s pipeline8 [] []
    = (Raise (IndexError "list index out of range"), [[]])
  ∧ Lab8.LLMPipeline.infer_sample fails_on_long_c pipeline8 [VStr "long c"] []
    = (Raise (OtherError "RuntimeError" "out of memory"), [[VStr "long c"]]).
Proof.
  destruct infer_sample_with_model as [H7 H8].
  split_and!.
  - apply (H7 always_toxic pipeline7 "bert" [VStr "a"] []). reflexivity.
  - apply (H7 always_toxic pipeline7 "bert" [] []). reflexivity.
  - apply (H7 fails_on_c pipeline7 "bert" [VStr "c"] []). reflexivity.
  - apply (H8 always_s pipeline8 "t5" [VStr "long a"] []). reflexivity.
  - apply (H8 always_s pipeline8 "t5" [] []). reflexivity.
  - apply (H8 fails_on_long_c pipeline8 "t5" [VStr "long c"] []). reflexivity.
Defined.

(** ** [infer_dataset]: the edges *)

(** X12.  On a dataset without rows, [infer_dataset] with a positive
    batch size returns the table with the columns [target] and
    [prediction] and no row, and the model is not run; this needs a
    column [target], and neither a model nor a column [source]. *)
Theorem infer_dataset_empty :
  (∀ torch_tensor classify (self : Lab7.LLMPipeline.t) (tgt : pd.Series) calls,
     (0 < Lab7.LLMPipeline._batch_size self)%Z →
     Lab7.TaskDataset.__len__ (Lab7.LLMPipeline._dataset self) = 0 →
     pd.column (Lab7.TaskDataset.data (Lab7.LLMPipeline._dataset self))
               ColumnNames.TARGET = Ok tgt →
     Lab7.LLMPipeline.infer_dataset torch_tensor classify self calls
     = (Ok (pd.mkDataFrame ["target"; "prediction"] []), calls))
  ∧ (∀ torch_tensor generate (self : Lab8.LLMPipeline.t) (tgt : pd.Series) calls,
     (0 < Lab8.LLMPipeline._batch_size self)%Z →
     Lab8.TaskDataset.__len__ (Lab8.LLMPipeline._dataset self) = 0 →
     pd.column (Lab8.TaskDataset.data (Lab8.LLMPipeline._dataset self))
               ColumnNames.TARGET = Ok tgt →
     Lab8.LLMPipeline.infer_dataset torch_tensor generate self calls
     = (Ok (pd.mkDataFrame ["target"; "prediction"] []), calls)).
Proof.
  split.
  - intros torch_tensor classify self tgt calls Hbs Hlen Htgt.
    pose proof (column_length _ _ _ Htgt) as Hltgt.
    unfold Lab7.TaskDataset.data, Lab7.TaskDataset.__len__ in *.
    rewrite Hlen in Hltgt. apply nil_length_inv in Hltgt as ->.
    unfold Lab7.LLMPipeline.infer_dataset, report_time, DataLoader,
      Lab7.TaskDataset.__len__, Lab7.TaskDataset.data, lift.
    rewrite decide_False, Hlen by lia.
    unfold chunks. cbn [seq length chunks_upto ST_mapM].
    unfold mbind, mret, ST_bind, ST_ret. by rewrite Htgt.
  - intros torch_tensor generate self tgt calls Hbs Hlen Htgt.
    pose proof (column_length _ _ _ Htgt) as Hltgt.
    unfold Lab8.TaskDataset.data, Lab8.TaskDataset.__len__ in *.
    rewrite Hlen in Hltgt. apply nil_length_inv in Hltgt as ->.
    unfold Lab8.LLMPipeline.infer_dataset, report_time, DataLoader,
      Lab8.TaskDataset.__len__, Lab8.TaskDataset.data, lift.
    rewrite decide_False, Hlen by lia.
    unfold chunks. cbn [seq length chunks_upto ST_foldM].
    unfold mbind, mret, ST_bind, ST_ret. by rewrite Htgt.
Qed.

Lemma infer_dataset_empty_witness :
  Lab7.LLMPipeline.infer_dataset any_tensor fails_on_c
    (Lab7.LLMPipeline.mk None (Lab7.TaskDataset.mk (pd.from_rows ["target"] []))
       120 2 "cpu") []
  = (Ok (pd.mkDataFrame ["target"; "prediction"] []), [])
  ∧ Lab8.LLMPipeline.infer_dataset any_tensor fails_on_long_c
      (Lab8.LLMPipeline.mk None (Lab8.TaskDataset.mk (pd.from_rows ["target"] []))
         120 2 "cpu") []
    = (Ok (pd.mkDataFrame ["target"; "prediction"] []), []).
Proof.
  split.
  - apply (proj1 infer_dataset_empty any_tensor fails_on_c
             (Lab7.LLMPipeline.mk None (Lab7.TaskDataset.mk (pd.from_rows ["target"] []))
                120 2 "cpu") [] []); [reflexivity..].
  - apply (proj2 infer_dataset_empty any_tensor fails_on_long_c
             (Lab8.LLMPipeline.mk None (Lab8.TaskDataset.mk (pd.from_rows ["target"] []))
                120 2 "cpu") [] []); [reflexivity..].
Defined.

Lemma first_batch (n N : nat) :
  0 < n → 0 < N → ∃ idxs rest, chunks n (seq 0 N) = (0 :: idxs) :: rest.
Proof.
  intros Hn HN. destruct N as [|N]; [lia|]. destruct n as [|n]; [lia|].
  unfold chunks. rewrite length_seq. cbn [seq chunks_upto take]. eauto.
Qed.

Lemma first_item_batch {A} (n : nat) (l : list A) (x : A) :
  0 < n → head l = Some x → ∃ items rest, chunks n l = (x :: items) :: rest.
Proof.
  intros Hn Hhead. destruct l as [|y l]; [done|]. injection Hhead as ->.
  destruct n as [|n]; [lia|]. unfold chunks. cbn [length chunks_upto take]. eauto.
Qed.

(** X13.  What [infer_dataset] refuses before any run of the model.  A
    batch size that is not positive is a [ValueError].  With a positive
    batch size and a dataset that has rows: without a column [source] the
    first item raises [KeyError], whatever the model is; with the column
    and no model the first batch raises [ValueError], in lab 7 when the
    first source cell is a string, in lab 8 whatever the cells are.  In
    lab 7 a first source cell [None] is a [TypeError] of the collation of
    the first batch, with or without a model. *)
Theorem infer_dataset_refuses :
  (∀ torch_tensor classify (self : Lab7.LLMPipeline.t) calls,
     (Lab7.LLMPipeline._batch_size self ≤ 0)%Z →
     ∃ msg, Lab7.LLMPipeline.infer_dataset torch_tensor classify self calls
            = (Raise (ValueError msg), calls))
  ∧ (∀ torch_tensor classify (self : Lab7.LLMPipeline.t) calls,
     (0 < Lab7.LLMPipeline._batch_size self)%Z →
     0 < Lab7.TaskDataset.__len__ (Lab7.LLMPipeline._dataset self) →
     (ColumnNames.SOURCE : string)
       ∉ pd.columns (Lab7.TaskDataset.data (Lab7.LLMPipeline._dataset self)) →
     Lab7.LLMPipeline.infer_dataset torch_tensor classify self calls
     = (Raise (KeyError "source"), calls))
  ∧ (∀ torch_tensor classify (self : Lab7.LLMPipeline.t) (src : pd.Series) s calls,
     (0 < Lab7.LLMPipeline._batch_size self)%Z →
     pd.column (Lab7.TaskDataset.data (Lab7.LLMPipeline._dataset self))
               ColumnNames.SOURCE = Ok src →
     head src.*2 = Some (VStr s) →
     Lab7.LLMPipeline._model self = None →
     Lab7.LLMPipeline.infer_dataset torch_tensor classify self calls
     = (Raise (ValueError "Model is not defined"), calls))
  ∧ (∀ torch_tensor classify (self : Lab7.LLMPipeline.t) (src : pd.Series) calls,
     (0 < Lab7.LLMPipeline._batch_size self)%Z →
     pd.column (Lab7.TaskDataset.data (Lab7.LLMPipeline._dataset self))
               ColumnNames.SOURCE = Ok src →
     head src.*2 = Some VNone →
     ∃ msg, Lab7.LLMPipeline.infer_dataset torch_tensor classify self calls
            = (Raise (TypeError msg), calls))
  ∧ (∀ torch_tensor generate (self : Lab8.LLMPipeline.t) calls,
     (Lab8.LLMPipeline._batch_size self ≤ 0)%Z →
     ∃ msg, Lab8.LLMPipeline.infer_dataset torch_tensor generate self calls
            = (Raise (ValueError msg), calls))
  ∧ (∀ torch_tensor generate (self : Lab8.LLMPipeline.t) calls,
     (0 < Lab8.LLMPipeline._batch_size self)%Z →
     0 < Lab8.TaskDataset.__len__ (Lab8.LLMPipeline._dataset self) →
     (ColumnNames.SOURCE : string)
       ∉ pd.columns (Lab8.TaskDataset.data (Lab8.LLMPipeline._dataset self)) →
     Lab8.LLMPipeline.infer_dataset torch_tensor generate self calls
     = (Raise (KeyError "source"), calls))
  ∧ (∀ torch_tensor generate (self : Lab8.LLMPipeline.t) (src : pd.Series) calls,
     (0 < Lab8.LLMPipeline._batch_size self)%Z →
     0 < Lab8.TaskDataset.__len__ (Lab8.LLMPipeline._dataset self) →
     pd.column (Lab8.TaskDataset.data (Lab8.LLMPipeline._dataset self))
               ColumnNames.SOURCE = Ok src →
     Lab8.LLMPipeline._model self = None →
     Lab8.LLMPipeline.infer_dataset torch_tensor generate self calls
     = (Raise (ValueError "Model is not defined"), calls)).
Proof.
  assert (∀ torch_tensor classify (self : Lab7.LLMPipeline.t) (src : pd.Series) v
            calls e,
            (0 < Lab7.LLMPipeline._batch_size self)%Z →
            pd.column (Lab7.TaskDataset.data (Lab7.LLMPipeline._dataset self))
                      ColumnNames.SOURCE = Ok src →
            head src.*2 = Some v →
            (∀ texts,
               match default_collate torch_tensor ((λ v, [v]) <$> (v :: texts)) with
               | Ok batch => Lab7.LLMPipeline._infer_batch classify self batch calls
               | Raise e' => (Raise e', calls)
               end = (Raise e, calls)) →
            Lab7.LLMPipeline.infer_dataset torch_tensor classify self calls
            = (Raise e, calls)) as Hfirst7.
  { intros torch_tensor classify self src v calls e Hbs Hsrc Hhead Hstep.
    pose proof (column_length _ _ _ Hsrc) as Hlsrc.
    pose proof (chunks_fetch _ _ (getitem7_items self src Hsrc)
                  (Z.to_nat (Lab7.LLMPipeline._batch_size self))) as Hfetch.
    rewrite length_fmap, Hlsrc in Hfetch.
    destruct (first_item_batch (Z.to_nat (Lab7.LLMPipeline._batch_size self))
                src.*2 v) as (texts & textss & Hchunks2); [lia | done |].
    destruct (first_batch (Z.to_nat (Lab7.LLMPipeline._batch_size self))
                (Lab7.TaskDataset.__len__ (Lab7.LLMPipeline._dataset self)))
      as (idxs & rest & Hchunks); [lia | |].
    { unfold Lab7.TaskDataset.__len__, Lab7.TaskDataset.data in *.
      rewrite <- Hlsrc. destruct src; [done|cbn; lia]. }
    unfold Lab7.TaskDataset.__len__, Lab7.TaskDataset.data in *.
    rewrite Hchunks, Hchunks2 in Hfetch.
    apply Forall2_cons in Hfetch as [Hf _].
    assert (Lab7.LLMPipeline.infer_indices torch_tensor classify self (0 :: idxs) calls
            = (Raise e, calls)) as Hx.
    { unfold Lab7.LLMPipeline.infer_indices, lift.
      rewrite Hf. unfold mbind, ST_bind.
      specialize (Hstep texts). by destruct (default_collate _ _). }
    unfold Lab7.LLMPipeline.infer_dataset, report_time, DataLoader, lift,
      Lab7.TaskDataset.__len__.
    rewrite decide_False, Hchunks by lia.
    unfold mbind, ST_bind at 1. unfold mbind, ST_bind at 1.
    change ((0 :: idxs) :: rest) with ([] ++ (0 :: idxs) :: rest).
    by rewrite (ST_mapM_raise _ [] rest (0 :: idxs) [] calls calls calls _ eq_refl Hx). }
  split_and!.
  - intros torch_tensor classify self calls Hbs. eexists.
    unfold Lab7.LLMPipeline.infer_dataset, report_time, DataLoader, lift.
    rewrite decide_True by done. reflexivity.
  - intros torch_tensor classify self calls Hbs Hlen Hnot.
    destruct (first_batch (Z.to_nat (Lab7.LLMPipeline._batch_size self))
                (Lab7.TaskDataset.__len__ (Lab7.LLMPipeline._dataset self)))
      as (idxs & rest & Hchunks); [lia | done |].
    assert (Lab7.LLMPipeline.infer_indices torch_tensor classify self (0 :: idxs) calls
            = (Raise (KeyError "source"), calls)) as Hx.
    { unfold Lab7.LLMPipeline.infer_indices, lift. cbn [res_mapM].
      unfold Lab7.TaskDataset.__getitem__.
      unfold Lab7.TaskDataset.data in Hnot. by rewrite (column_missing _ _ Hnot). }
    unfold Lab7.LLMPipeline.infer_dataset, report_time, DataLoader, lift.
    rewrite decide_False, Hchunks by lia.
    unfold mbind, ST_bind at 1. unfold mbind, ST_bind at 1.
    change ((0 :: idxs) :: rest) with ([] ++ (0 :: idxs) :: rest).
    by rewrite (ST_mapM_raise _ [] rest (0 :: idxs) [] calls calls calls _ eq_refl Hx).
  - intros torch_tensor classify self src s calls Hbs Hsrc Hhead Hnull.
    apply (Hfirst7 _ _ _ src (VStr s)); [done..|].
    intros texts. rewrite collate_text_first.
    unfold Lab7.LLMPipeline._infer_batch. by rewrite Hnull.
  - intros torch_tensor classify self src calls Hbs Hsrc Hhead.
    destruct (collate_none_first torch_tensor) as [msg Hmsg]. exists msg.
    apply (Hfirst7 _ _ _ src VNone); [done..|].
    intros texts. by rewrite Hmsg.
  - intros torch_tensor generate self calls Hbs. eexists.
    unfold Lab8.LLMPipeline.infer_dataset, report_time, DataLoader, lift.
    rewrite decide_True by done. reflexivity.
  - intros torch_tensor generate self calls Hbs Hlen Hnot.
    destruct (first_batch (Z.to_nat (Lab8.LLMPipeline._batch_size self))
                (Lab8.TaskDataset.__len__ (Lab8.LLMPipeline._dataset self)))
      as (idxs & rest & Hchunks); [lia | done |].
    assert (Lab8.LLMPipeline.infer_indices torch_tensor generate self [] (0 :: idxs) calls
            = (Raise (KeyError "source"), calls)) as Hx.
    { unfold Lab8.LLMPipeline.infer_indices, lift. cbn [res_mapM].
      unfold Lab8.TaskDataset.__getitem__.
      unfold Lab8.TaskDataset.data in Hnot. by rewrite (column_missing _ _ Hnot). }
    unfold Lab8.LLMPipeline.infer_dataset, report_time, DataLoader, lift.
    rewrite decide_False, Hchunks by lia.
    unfold mbind, ST_bind at 1. unfold mbind, ST_bind at 1.
    change ((0 :: idxs) :: rest) with ([] ++ (0 :: idxs) :: rest).
    by rewrite (ST_foldM_raise _ [] rest (0 :: idxs) [] [] calls calls calls _ eq_refl Hx).
  - intros torch_tensor generate self src calls Hbs Hlen Hsrc Hnull.
    destruct (batches8 self src Hsrc (Z.to_nat (Lab8.LLMPipeline._batch_size self)))
      as [Hfetch Htext]; [lia|].
    destruct (first_batch (Z.to_nat (Lab8.LLMPipeline._batch_size self))
                (Lab8.TaskDataset.__len__ (Lab8.LLMPipeline._dataset self)))
      as (idxs & rest & Hchunks); [lia | done |].
    rewrite Hchunks in Hfetch.
    apply Forall2_cons_inv_l in Hfetch as (texts & textss & Hf & _ & Heq).
    rewrite Heq in Htext. apply Forall_cons in Htext as [[Hne Htext] _].
    assert (Lab8.LLMPipeline.infer_indices torch_tensor generate self [] (0 :: idxs) calls
            = (Raise (ValueError "Model is not defined"), calls)) as Hx.
    { unfold Lab8.LLMPipeline.infer_indices, Lab8.LLMPipeline._infer_batch, lift.
      rewrite Hf, Hnull. unfold mbind, ST_bind. by rewrite collate_texts. }
    unfold Lab8.LLMPipeline.infer_dataset, report_time, DataLoader, lift.
    rewrite decide_False, Hchunks by lia.
    unfold mbind, ST_bind at 1. unfold mbind, ST_bind at 1.
    change ((0 :: idxs) :: rest) with ([] ++ (0 :: idxs) :: rest).
    by rewrite (ST_foldM_raise _ [] rest (0 :: idxs) [] [] calls calls calls _ eq_refl Hx).
Qed.

Lemma infer_dataset_refuses_witness :
  (∃ msg, Lab7.LLMPipeline.infer_dataset any_tensor always_toxic
            (Lab7.LLMPipeline.mk (Some "bert") (Lab7.TaskDataset.mk toxicity_data)
               120 0 "cpu") []
          = (Raise (ValueError msg), []))
  ∧ Lab7.LLMPipeline.infer_dataset any_tensor always_toxic
      (Lab7.LLMPipeline.mk (Some "bert") (Lab7.TaskDataset.mk toxicity_table)
         120 2 "cpu") []
    = (Raise (KeyError "source"), [])
  ∧ Lab7.LLMPipeline.infer_dataset any_tensor always_toxic
      (Lab7.LLMPipeline.mk None (Lab7.TaskDataset.mk toxicity_data) 120 2 "cpu") []
    = (Raise (ValueError "Model is not defined"), [])
  ∧ (∃ msg, Lab7.LLMPipeline.infer_dataset any_tensor always_toxic
              (Lab7.LLMPipeline.mk None (Lab7.TaskDataset.mk missing_data) 120 2 "cpu")
              []
            = (Raise (TypeError msg), []))
  ∧ (∃ msg, Lab8.LLMPipeline.infer_dataset any_tensor always_s
            (Lab8.LLMPipeline.mk (Some "t5") (Lab8.TaskDataset.mk news_data)
               120 0 "cpu") []
          = (Raise (ValueError msg), []))
  ∧ Lab8.LLMPipeline.infer_dataset any_tensor always_s
      (Lab8.LLMPipeline.mk (Some "t5") (Lab8.TaskDataset.mk news_table)
         120 2 "cpu") []
    = (Raise (KeyError "source"), [])
  ∧ Lab8.LLMPipeline.infer_dataset any_tensor always_s
      (Lab8.LLMPipeline.mk None (Lab8.TaskDataset.mk news_data) 120 2 "cpu") []
    = (Raise (ValueError "Model is not defined"), []).
Proof.
  destruct infer_dataset_refuses as (H1 & H2 & H3 & H3' & H4 & H5 & H6).
  split; [|split; [|split; [|split; [|split; [|split]]]]].
  - apply H1. cbn. lia.
  - apply H2; [cbn; lia | vm_compute; lia | compute_done].
  - apply (H3 any_tensor always_toxic _
             [(0%Z, VStr "a"); (1%Z, VStr "b"); (2%Z, VStr "c")] "a");
      [cbn; lia | reflexivity | reflexivity | reflexivity].
  - apply (H3' any_tensor always_toxic _ [(0%Z, VNone); (1%Z, VStr "b")]);
      [cbn; lia | reflexivity | reflexivity].
  - apply H4. cbn. lia.
  - apply H5; [cbn; lia | vm_compute; lia | compute_done].
  - apply (H6 any_tensor always_s _
             [(0%Z, VStr "long a"); (1%Z, VStr "long b"); (2%Z, VStr "long c")]);
      [cbn; lia | vm_compute; lia | reflexivity | reflexivity].
Defined.

(** ** [infer_dataset]: the batches *)

Lemma chunks_upto_sizes {A} (fuel n : nat) (l : list A) :
  0 < n → Forall (λ b, 0 < length b ≤ n) (chunks_upto fuel n l).
Proof.
  intros Hn. revert l. induction fuel as [|fuel IH]; intros [|x l];
    cbn [chunks_upto]; try constructor; [|apply IH].
  rewrite length_take. cbn [length]. lia.
Qed.

Lemma chunks_upto_length {A} (fuel n : nat) (l : list A) :
  0 < n → length l ≤ fuel →
  length (chunks_upto fuel n l) = (length l + n - 1) / n.
Proof.
  intros Hn. revert l. induction fuel as [|fuel IH]; intros l Hlen.
  - destruct l; [|cbn in Hlen; lia]. cbn. symmetry. apply Nat.div_small. lia.
  - destruct l as [|x l].
    + cbn. symmetry. apply Nat.div_small. lia.
    + cbn [chunks_upto length]. rewrite IH by (rewrite length_drop; cbn in *; lia).
      rewrite length_drop. cbn [length].
      destruct (decide (S (length l) ≤ n)).
      * replace (S (length l) - n + n - 1) with (n - 1) by lia.
        rewrite (Nat.div_small (n - 1)) by lia.
        replace (S (length l) + n - 1) with (length l + 1 * n) by lia.
        rewrite Nat.div_add by lia. rewrite Nat.div_small by lia. done.
      * replace (S (length l) + n - 1) with ((S (length l) - n + n - 1) + 1 * n) by lia.
        rewrite Nat.div_add by lia. lia.
Qed.

Lemma concat_fmap_fmap {A B} (g : A → B) (ls : list (list A)) :
  concat ((λ l : list A, g <$> l) <$> ls) = g <$> concat ls.
Proof. induction ls as [|l ls IH]; [done|]. cbn. by rewrite fmap_app, IH. Qed.

Section lab7_outputs.
Import Lab7.
Variable torch_tensor : list value → res (list value).
Variable classify : string → list value → res (list Z).
Variable self : LLMPipeline.t.
Variable model : string.
Variable src : pd.Series.
Hypothesis Hmodel : LLMPipeline._model self = Some model.
Hypothesis Hsrc :
  pd.column (TaskDataset.data (LLMPipeline._dataset self)) ColumnNames.SOURCE = Ok src.
Hypothesis Htexts : Forall is_text src.*2.

Lemma infer_loop7_outputs (idxss : list (list nat)) (textss : list (list value))
    (outputs : list (list Z)) (calls : list (list value)) :
  Forall2 (λ idxs texts,
      res_mapM (TaskDataset.__getitem__ (LLMPipeline._dataset self)) idxs
      = Ok ((λ v, [v]) <$> texts)) idxss textss →
  Forall (λ texts, texts ≠ [] ∧ Forall is_text texts) textss →
  Forall2 (λ texts logits, classify model texts = Ok logits) textss outputs →
  ST_mapM (LLMPipeline.infer_indices torch_tensor classify self) idxss calls
  = (Ok ((λ logits : list Z, (λ logit : Z, pretty logit) <$> logits) <$> outputs),
     calls ++ textss).
Proof using Hmodel.
  intros Hfetch. revert outputs calls.
  induction Hfetch as [|idxs texts idxss textss Hf _ IH];
    intros outputs calls Htext Hout.
  - apply Forall2_nil_inv_l in Hout as ->. cbn. by rewrite app_nil_r.
  - apply Forall2_cons_inv_l in Hout as (logits & outputs' & Hlogits & Hout & ->).
    apply Forall_cons in Htext as [[Hne Htext1] Htext].
    cbn. unfold mbind, ST_bind at 1.
    rewrite (infer_indices7_run torch_tensor classify self model Hmodel _ _ _
               Hf Hne Htext1), Hlogits. cbn.
    unfold mbind, ST_bind. rewrite (IH _ _ Htext Hout). cbn. by rewrite <- app_assoc.
Qed.

(** When the model returns on every batch, [infer_dataset] runs it on
    all of them and then builds the table. *)
Lemma infer_dataset7_outputs (outputs : list (list Z)) (calls : list (list value)) :
  (0 < LLMPipeline._batch_size self)%Z →
  Forall2 (λ texts logits, classify model texts = Ok logits)
          (chunks (Z.to_nat (LLMPipeline._batch_size self)) src.*2) outputs →
  LLMPipeline.infer_dataset torch_tensor classify self calls
  = (target ← pd.column (TaskDataset.data (LLMPipeline._dataset self))
                        ColumnNames.TARGET;
     pd.of_series_and_list ColumnNames.TARGET target ColumnNames.PREDICTION
       (VStr <$> ((λ logit : Z, pretty logit) <$> concat outputs)),
     calls ++ chunks (Z.to_nat (LLMPipeline._batch_size self)) src.*2).
Proof using Hmodel Hsrc Htexts.
  intros Hbs Hout.
  destruct (batches7 self src Hsrc Htexts (Z.to_nat (LLMPipeline._batch_size self)))
    as [Hfetch Htext]; [lia|].
  pose proof (infer_loop7_outputs _ _ _ calls Hfetch Htext Hout) as Hrun.
  unfold LLMPipeline.infer_dataset, report_time, DataLoader, TaskDataset.__len__, lift.
  rewrite decide_False by lia.
  unfold mbind, ST_bind at 1. unfold mbind, ST_bind at 1.
  unfold TaskDataset.__len__, TaskDataset.data in *. rewrite Hrun, concat_fmap_fmap.
  unfold mbind, ST_bind, res_bind.
  by destruct (pd.column (TaskDataset._data (LLMPipeline._dataset self))
                         ColumnNames.TARGET).
Qed.
End lab7_outputs.

Section lab8_outputs.
Import Lab8.
Variable torch_tensor : list value → res (list value).
Variable generate : string → Z → list value → res (list string).
Variable self : LLMPipeline.t.
Variable model : string.
Variable src : pd.Series.
Hypothesis Hmodel : LLMPipeline._model self = Some model.
Hypothesis Hsrc :
  pd.column (TaskDataset.data (LLMPipeline._dataset self)) ColumnNames.SOURCE = Ok src.

Lemma infer_loop8_outputs (idxss : list (list nat)) (textss : list (list value))
    (outputs : list (list string)) (preds : list string) (calls : list (list value)) :
  Forall2 (λ idxs texts,
      res_mapM (TaskDataset.__getitem__ (LLMPipeline._dataset self)) idxs
      = Ok ((λ v, [v]) <$> texts)) idxss textss →
  Forall (λ texts, texts ≠ [] ∧ Forall is_text texts) textss →
  Forall2 (λ texts seqs, generate model (LLMPipeline._max_length self) texts = Ok seqs)
          textss outputs →
  ST_foldM (LLMPipeline.infer_indices torch_tensor generate self) preds idxss calls
  = (Ok (preds ++ concat outputs), calls ++ textss).
Proof using Hmodel.
  intros Hfetch. revert outputs preds calls.
  induction Hfetch as [|idxs texts idxss textss Hf _ IH];
    intros outputs preds calls Htext Hout.
  - apply Forall2_nil_inv_l in Hout as ->. cbn. by rewrite !app_nil_r.
  - apply Forall2_cons_inv_l in Hout as (seqs & outputs' & Hseqs & Hout & ->).
    apply Forall_cons in Htext as [[Hne Htext1] Htext].
    cbn. unfold mbind, ST_bind at 1.
    rewrite (infer_indices8_run torch_tensor generate self model Hmodel _ _ _ _
               Hf Hne Htext1), Hseqs. cbn.
    by rewrite (IH _ _ _ Htext Hout), <- !app_assoc.
Qed.

Lemma infer_dataset8_outputs (outputs : list (list string))
    (calls : list (list value)) :
  (0 < LLMPipeline._batch_size self)%Z →
  Forall2 (λ texts seqs, generate model (LLMPipeline._max_length self) texts = Ok seqs)
          (chunks (Z.to_nat (LLMPipeline._batch_size self)) (items8 src)) outputs →
  LLMPipeline.infer_dataset torch_tensor generate self calls
  = (target ← pd.column (TaskDataset.data (LLMPipeline._dataset self))
                        ColumnNames.TARGET;
     pd.of_series_and_list ColumnNames.TARGET target ColumnNames.PREDICTION
       (VStr <$> concat outputs),
     calls ++ chunks (Z.to_nat (LLMPipeline._batch_size self)) (items8 src)).
Proof using Hmodel Hsrc.
  intros Hbs Hout.
  destruct (batches8 self src Hsrc (Z.to_nat (LLMPipeline._batch_size self)))
    as [Hfetch Htext]; [lia|].
  pose proof (infer_loop8_outputs _ _ _ [] calls Hfetch Htext Hout) as Hrun.
  unfold LLMPipeline.infer_dataset, report_time, DataLoader, TaskDataset.__len__, lift.
  rewrite decide_False by lia.
  unfold mbind, ST_bind at 1. unfold mbind, ST_bind at 1.
  unfold TaskDataset.__len__, TaskDataset.data in *. rewrite Hrun. cbn [app].
  unfold mbind, ST_bind, res_bind.
  by destruct (pd.column (TaskDataset._data (LLMPipeline._dataset self))
                         ColumnNames.TARGET).
Qed.
End lab8_outputs.

(** X14.  What [infer_dataset] raises only after the model has been run
    on every batch.  With a model, a column [source], a positive batch
    size and a model that returns on every batch: without a column
    [target] the result is [KeyError], and with predictions that are not
    as many as the rows it is [ValueError]; in both cases the model has
    been run on all the batches by then. *)
Theorem infer_dataset_late_failures :
  (∀ torch_tensor classify (self : Lab7.LLMPipeline.t) model (src : pd.Series)
       (outputs : list (list Z)) calls,
     Lab7.LLMPipeline._model self = Some model →
     pd.column (Lab7.TaskDataset.data (Lab7.LLMPipeline._dataset self))
               ColumnNames.SOURCE = Ok src →
     Forall is_text src.*2 →
     (0 < Lab7.LLMPipeline._batch_size self)%Z →
     Forall2 (λ texts logits, classify model texts = Ok logits)
             (chunks (Z.to_nat (Lab7.LLMPipeline._batch_size self)) src.*2) outputs →
     ((ColumnNames.TARGET : string)
        ∉ pd.columns (Lab7.TaskDataset.data (Lab7.LLMPipeline._dataset self)) →
      Lab7.LLMPipeline.infer_dataset torch_tensor classify self calls
      = (Raise (KeyError "target"),
         calls ++ chunks (Z.to_nat (Lab7.LLMPipeline._batch_size self)) src.*2))
     ∧ (∀ tgt : pd.Series,
        pd.column (Lab7.TaskDataset.data (Lab7.LLMPipeline._dataset self))
                  ColumnNames.TARGET = Ok tgt →
        length (concat outputs)
          ≠ Lab7.TaskDataset.__len__ (Lab7.LLMPipeline._dataset self) →
        ∃ msg, Lab7.LLMPipeline.infer_dataset torch_tensor classify self calls
               = (Raise (ValueError msg),
                  calls ++ chunks (Z.to_nat (Lab7.LLMPipeline._batch_size self))
                                  src.*2)))
  ∧ (∀ torch_tensor generate (self : Lab8.LLMPipeline.t) model (src : pd.Series)
       (outputs : list (list string)) calls,
     Lab8.LLMPipeline._model self = Some model →
     pd.column (Lab8.TaskDataset.data (Lab8.LLMPipeline._dataset self))
               ColumnNames.SOURCE = Ok src →
     (0 < Lab8.LLMPipeline._batch_size self)%Z →
     Forall2 (λ texts seqs,
                generate model (Lab8.LLMPipeline._max_length self) texts = Ok seqs)
             (chunks (Z.to_nat (Lab8.LLMPipeline._batch_size self)) (items8 src))
             outputs →
     ((ColumnNames.TARGET : string)
        ∉ pd.columns (Lab8.TaskDataset.data (Lab8.LLMPipeline._dataset self)) →
      Lab8.LLMPipeline.infer_dataset torch_tensor generate self calls
      = (Raise (KeyError "target"),
         calls ++ chunks (Z.to_nat (Lab8.LLMPipeline._batch_size self)) (items8 src)))
     ∧ (∀ tgt : pd.Series,
        pd.column (Lab8.TaskDataset.data (Lab8.LLMPipeline._dataset self))
                  ColumnNames.TARGET = Ok tgt →
        length (concat outputs)
          ≠ Lab8.TaskDataset.__len__ (Lab8.LLMPipeline._dataset self) →
        ∃ msg, Lab8.LLMPipeline.infer_dataset torch_tensor generate self calls
               = (Raise (ValueError msg),
                  calls ++ chunks (Z.to_nat (Lab8.LLMPipeline._batch_size self))
                                  (items8 src)))).
Proof.
  split.
  - intros torch_tensor classify self model src outputs calls Hmodel Hsrc Htexts
      Hbs Hout.
    rewrite (infer_dataset7_outputs torch_tensor classify self model src Hmodel Hsrc
               Htexts outputs calls Hbs Hout).
    split.
    + intros Hnot. by rewrite (column_missing _ _ Hnot).
    + intros tgt Htgt Hlen. pose proof (column_length _ _ _ Htgt) as Hltgt.
      rewrite Htgt. cbn. unfold pd.of_series_and_list.
      rewrite decide_False; [by eexists|].
      rewrite !length_fmap. unfold Lab7.TaskDataset.__len__, Lab7.TaskDataset.data in *.
      congruence.
  - intros torch_tensor generate self model src outputs calls Hmodel Hsrc Hbs Hout.
    rewrite (infer_dataset8_outputs torch_tensor generate self model src Hmodel Hsrc
               outputs calls Hbs Hout).
    split.
    + intros Hnot. by rewrite (column_missing _ _ Hnot).
    + intros tgt Htgt Hlen. pose proof (column_length _ _ _ Htgt) as Hltgt.
      rewrite Htgt. cbn. unfold pd.of_series_and_list.
      rewrite decide_False; [by eexists|].
      rewrite !length_fmap. unfold Lab8.TaskDataset.__len__, Lab8.TaskDataset.data in *.
      congruence.
Qed.

Lemma infer_dataset_late_failures_witness :
  Lab7.LLMPipeline.infer_dataset any_tensor always_toxic
    (Lab7.LLMPipeline.mk (Some "bert")
       (Lab7.TaskDataset.mk (pd.from_rows ["source"] [[VStr "a"]; [VStr "b"]]))
       120 1 "cpu") []
  = (Raise (KeyError "target"), [[VStr "a"]; [VStr "b"]])
  ∧ (∃ msg, Lab7.LLMPipeline.infer_dataset any_tensor (λ _ _, Ok [1%Z]) pipeline7 []
            = (Raise (ValueError msg), [[VStr "a"; VStr "b"]; [VStr "c"]]))
  ∧ Lab8.LLMPipeline.infer_dataset any_tensor always_s
      (Lab8.LLMPipeline.mk (Some "t5")
         (Lab8.TaskDataset.mk (pd.from_rows ["source"] [[VStr "a"]; [VStr "b"]]))
         120 1 "cpu") []
    = (Raise (KeyError "target"), [[VStr "a"]; [VStr "b"]])
  ∧ (∃ msg, Lab8.LLMPipeline.infer_dataset any_tensor (λ _ _ _, Ok ["s"]) pipeline8 []
            = (Raise (ValueError msg),
               [[VStr "long a"; VStr "long b"]; [VStr "long c"]])).
Proof.
  destruct infer_dataset_late_failures as [H7 H8].
  split_and!.
  - apply (proj1 (H7 any_tensor always_toxic
             (Lab7.LLMPipeline.mk (Some "bert")
                (Lab7.TaskDataset.mk (pd.from_rows ["source"] [[VStr "a"]; [VStr "b"]]))
                120 1 "cpu")
             "bert" [(0%Z, VStr "a"); (1%Z, VStr "b")] [[1%Z]; [1%Z]] []
             eq_refl eq_refl ltac:(by repeat constructor) ltac:(cbn; lia)
             ltac:(repeat constructor))).
    compute_done.
  - apply (proj2 (H7 any_tensor (λ _ _, Ok [1%Z]) pipeline7 "bert"
             [(0%Z, VStr "a"); (1%Z, VStr "b"); (2%Z, VStr "c")]
             [[1%Z]; [1%Z]] [] eq_refl eq_refl ltac:(by repeat constructor)
             ltac:(cbn; lia) ltac:(repeat constructor))
             [(0%Z, VInt 1); (1%Z, VInt 0); (2%Z, VInt 1)]);
      [reflexivity | vm_compute; lia].
  - apply (proj1 (H8 any_tensor always_s
             (Lab8.LLMPipeline.mk (Some "t5")
                (Lab8.TaskDataset.mk (pd.from_rows ["source"] [[VStr "a"]; [VStr "b"]]))
                120 1 "cpu")
             "t5" [(0%Z, VStr "a"); (1%Z, VStr "b")] [["s"]; ["s"]] []
             eq_refl eq_refl ltac:(cbn; lia) ltac:(repeat constructor))).
    compute_done.
  - apply (proj2 (H8 any_tensor (λ _ _ _, Ok ["s"]) pipeline8 "t5"
             [(0%Z, VStr "long a"); (1%Z, VStr "long b"); (2%Z, VStr "long c")]
             [["s"]; ["s"]] [] eq_refl eq_refl
             ltac:(cbn; lia) ltac:(repeat constructor))
             [(0%Z, VStr "a"); (1%Z, VStr "b"); (2%Z, VStr "c")]);
      [reflexivity | vm_compute; lia].
Defined.

(** X15.  The batches of [infer_dataset].  With a model, a column
    [source], a positive batch size and a model that returns on every
    batch, the model is run once on each batch and on nothing else, in
    order; the batches together are the items of the dataset in order;
    there are [len / batch_size] of them, rounded up; and none is empty or
    longer than the batch size. *)
Theorem infer_dataset_batches :
  (∀ torch_tensor classify (self : Lab7.LLMPipeline.t) model (src : pd.Series)
       (outputs : list (list Z)) calls,
     Lab7.LLMPipeline._model self = Some model →
     pd.column (Lab7.TaskDataset.data (Lab7.LLMPipeline._dataset self))
               ColumnNames.SOURCE = Ok src →
     Forall is_text src.*2 →
     (0 < Lab7.LLMPipeline._batch_size self)%Z →
     Forall2 (λ texts logits, classify model texts = Ok logits)
             (chunks (Z.to_nat (Lab7.LLMPipeline._batch_size self)) src.*2) outputs →
     (Lab7.LLMPipeline.infer_dataset torch_tensor classify self calls).2
     = calls ++ chunks (Z.to_nat (Lab7.LLMPipeline._batch_size self)) src.*2
     ∧ concat (chunks (Z.to_nat (Lab7.LLMPipeline._batch_size self)) src.*2) = src.*2
     ∧ length (chunks (Z.to_nat (Lab7.LLMPipeline._batch_size self)) src.*2)
       = (Lab7.TaskDataset.__len__ (Lab7.LLMPipeline._dataset self)
          + Z.to_nat (Lab7.LLMPipeline._batch_size self) - 1)
         / Z.to_nat (Lab7.LLMPipeline._batch_size self)
     ∧ Forall (λ batch, 0 < length batch
                        ∧ length batch ≤ Z.to_nat (Lab7.LLMPipeline._batch_size self))
              (chunks (Z.to_nat (Lab7.LLMPipeline._batch_size self)) src.*2))
  ∧ (∀ torch_tensor generate (self : Lab8.LLMPipeline.t) model (src : pd.Series)
       (outputs : list (list string)) calls,
     Lab8.LLMPipeline._model self = Some model →
     pd.column (Lab8.TaskDataset.data (Lab8.LLMPipeline._dataset self))
               ColumnNames.SOURCE = Ok src →
     (0 < Lab8.LLMPipeline._batch_size self)%Z →
     Forall2 (λ texts seqs,
                generate model (Lab8.LLMPipeline._max_length self) texts = Ok seqs)
             (chunks (Z.to_nat (Lab8.LLMPipeline._batch_size self)) (items8 src))
             outputs →
     (Lab8.LLMPipeline.infer_dataset torch_tensor generate self calls).2
     = calls ++ chunks (Z.to_nat (Lab8.LLMPipeline._batch_size self)) (items8 src)
     ∧ concat (chunks (Z.to_nat (Lab8.LLMPipeline._batch_size self)) (items8 src))
       = items8 src
     ∧ length (chunks (Z.to_nat (Lab8.LLMPipeline._batch_size self)) (items8 src))
       = (Lab8.TaskDataset.__len__ (Lab8.LLMPipeline._dataset self)
          + Z.to_nat (Lab8.LLMPipeline._batch_size self) - 1)
         / Z.to_nat (Lab8.LLMPipeline._batch_size self)
     ∧ Forall (λ batch, 0 < length batch
                        ∧ length batch ≤ Z.to_nat (Lab8.LLMPipeline._batch_size self))
              (chunks (Z.to_nat (Lab8.LLMPipeline._batch_size self)) (items8 src))).
Proof.
  split.
  - intros torch_tensor classify self model src outputs calls Hmodel Hsrc Htexts
      Hbs Hout.
    rewrite (infer_dataset7_outputs torch_tensor classify self model src Hmodel Hsrc
               Htexts outputs calls Hbs Hout).
    pose proof (column_length _ _ _ Hsrc) as Hlsrc.
    split_and!.
    + done.
    + apply chunks_concat. lia.
    + unfold chunks. rewrite chunks_upto_length by lia.
      rewrite length_fmap, Hlsrc. done.
    + apply chunks_upto_sizes. lia.
  - intros torch_tensor generate self model src outputs calls Hmodel Hsrc Hbs Hout.
    rewrite (infer_dataset8_outputs torch_tensor generate self model src Hmodel Hsrc
               outputs calls Hbs Hout).
    pose proof (column_length _ _ _ Hsrc) as Hlsrc.
    split_and!.
    + done.
    + apply chunks_concat. lia.
    + unfold chunks. rewrite chunks_upto_length by lia.
      unfold items8. rewrite !length_fmap, Hlsrc. done.
    + apply chunks_upto_sizes. lia.
Qed.

Lemma infer_dataset_batches_witness :
  ((Lab7.LLMPipeline.infer_dataset any_tensor always_toxic pipeline7 []).2
   = [[VStr "a"; VStr "b"]; [VStr "c"]]
   ∧ concat [[VStr "a"; VStr "b"]; [VStr "c"]] = [VStr "a"; VStr "b"; VStr "c"]
   ∧ length [[VStr "a"; VStr "b"]; [VStr "c"]] = (3 + 2 - 1) / 2
   ∧ Forall (λ batch : list value, 0 < length batch ∧ length batch ≤ 2)
            [[VStr "a"; VStr "b"]; [VStr "c"]])
  ∧ ((Lab8.LLMPipeline.infer_dataset any_tensor always_s pipeline8 []).2
   = [[VStr "long a"; VStr "long b"]; [VStr "long c"]]
   ∧ concat [[VStr "long a"; VStr "long b"]; [VStr "long c"]]
     = [VStr "long a"; VStr "long b"; VStr "long c"]
   ∧ length [[VStr "long a"; VStr "long b"]; [VStr "long c"]] = (3 + 2 - 1) / 2
   ∧ Forall (λ batch : list value, 0 < length batch ∧ length batch ≤ 2)
            [[VStr "long a"; VStr "long b"]; [VStr "long c"]]).
Proof.
  split.
  - apply (proj1 infer_dataset_batches any_tensor always_toxic pipeline7 "bert"
             [(0%Z, VStr "a"); (1%Z, VStr "b"); (2%Z, VStr "c")]
             [[1%Z; 1%Z]; [1%Z]] []);
      [reflexivity | reflexivity | by repeat constructor | cbn; lia
      | repeat constructor].
  - apply (proj2 infer_dataset_batches any_tensor always_s pipeline8 "t5"
             [(0%Z, VStr "long a"); (1%Z, VStr "long b"); (2%Z, VStr "long c")]
             [["s"; "s"]; ["s"]] []);
      [reflexivity | reflexivity | cbn; lia | repeat constructor].
Defined.

Lemma infer_pointwise7 torch_tensor classify (self : Lab7.LLMPipeline.t) model (src tgt : pd.Series)
    (f : value → Z) calls :
  Lab7.LLMPipeline._model self = Some model →
  pd.column (Lab7.TaskDataset.data (Lab7.LLMPipeline._dataset self))
            ColumnNames.SOURCE = Ok src →
  pd.column (Lab7.TaskDataset.data (Lab7.LLMPipeline._dataset self))
            ColumnNames.TARGET = Ok tgt →
  Forall is_text src.*2 →
  (0 < Lab7.LLMPipeline._batch_size self)%Z →
  (∀ texts, classify model texts = Ok (f <$> texts)) →
  (Lab7.LLMPipeline.infer_dataset torch_tensor classify self calls).1
  = Ok (predictions_table tgt ((λ v, pretty (f v)) <$> src.*2)).
Proof.
  intros Hmodel Hsrc Htgt Htexts Hbs Hf.
  pose proof (column_length _ _ _ Hsrc) as Hlsrc.
  pose proof (column_length _ _ _ Htgt) as Hltgt.
  rewrite (infer_dataset7_outputs torch_tensor classify self model src Hmodel Hsrc Htexts
             ((λ texts : list value, f <$> texts)
                <$> chunks (Z.to_nat (Lab7.LLMPipeline._batch_size self)) src.*2)
             calls Hbs).
  2:{ apply Forall2_fmap_r, Forall_Forall2_diag, Forall_forall.
      intros texts _. apply Hf. }
  rewrite Htgt, concat_fmap_fmap, chunks_concat by lia. cbn [fst].
  unfold mbind, res_bind, pd.of_series_and_list.
  rewrite decide_True by (rewrite !length_fmap; congruence).
  unfold predictions_table. by rewrite <- (list_fmap_compose f).
Qed.

Lemma infer_pointwise8 torch_tensor generate (self : Lab8.LLMPipeline.t) model (src tgt : pd.Series)
    (g : value → string) calls :
  Lab8.LLMPipeline._model self = Some model →
  pd.column (Lab8.TaskDataset.data (Lab8.LLMPipeline._dataset self))
            ColumnNames.SOURCE = Ok src →
  pd.column (Lab8.TaskDataset.data (Lab8.LLMPipeline._dataset self))
            ColumnNames.TARGET = Ok tgt →
  (0 < Lab8.LLMPipeline._batch_size self)%Z →
  (∀ texts, generate model (Lab8.LLMPipeline._max_length self) texts
            = Ok (g <$> texts)) →
  (Lab8.LLMPipeline.infer_dataset torch_tensor generate self calls).1
  = Ok (predictions_table tgt (g <$> items8 src)).
Proof.
  intros Hmodel Hsrc Htgt Hbs Hg.
  pose proof (column_length _ _ _ Hsrc) as Hlsrc.
  pose proof (column_length _ _ _ Htgt) as Hltgt.
  rewrite (infer_dataset8_outputs torch_tensor generate self model src Hmodel Hsrc
             ((λ texts : list value, g <$> texts)
                <$> chunks (Z.to_nat (Lab8.LLMPipeline._batch_size self))
                           (items8 src))
             calls Hbs).
  2:{ apply Forall2_fmap_r, Forall_Forall2_diag, Forall_forall.
      intros texts _. apply Hg. }
  rewrite Htgt, concat_fmap_fmap, chunks_concat by lia. cbn [fst].
  unfold mbind, res_bind, pd.of_series_and_list.
  rewrite decide_True; [done|].
  unfold items8. rewrite !length_fmap. congruence.
Qed.

(** X16.  A model that treats every text on its own gives the same
    predictions whatever the batches are.  When the model returns, for
    every list of texts, the outputs of a function [f] on the texts, then
    for every positive batch size [infer_dataset] returns the target
    column with [f] of the items beside it, and [infer_sample] on the
    item [dataset[i]] returns the prediction of row [i] of that table. *)
Theorem infer_dataset_pointwise :
  (∀ torch_tensor classify (self : Lab7.LLMPipeline.t) model (src tgt : pd.Series)
       (f : value → Z) calls,
     Lab7.LLMPipeline._model self = Some model →
     pd.column (Lab7.TaskDataset.data (Lab7.LLMPipeline._dataset self))
               ColumnNames.SOURCE = Ok src →
     pd.column (Lab7.TaskDataset.data (Lab7.LLMPipeline._dataset self))
               ColumnNames.TARGET = Ok tgt →
     Forall is_text src.*2 →
     (0 < Lab7.LLMPipeline._batch_size self)%Z →
     (∀ texts, classify model texts = Ok (f <$> texts)) →
     (Lab7.LLMPipeline.infer_dataset torch_tensor classify self calls).1
     = Ok (predictions_table tgt ((λ v, pretty (f v)) <$> src.*2))
     ∧ ∀ i sample,
         Lab7.TaskDataset.__getitem__ (Lab7.LLMPipeline._dataset self) i = Ok sample →
         ∃ p, ((λ v, pretty (f v)) <$> src.*2) !! i = Some p
              ∧ (Lab7.LLMPipeline.infer_sample classify self sample calls).1
                = Ok (Some p))
  ∧ (∀ torch_tensor generate (self : Lab8.LLMPipeline.t) model (src tgt : pd.Series)
       (g : value → string) calls,
     Lab8.LLMPipeline._model self = Some model →
     pd.column (Lab8.TaskDataset.data (Lab8.LLMPipeline._dataset self))
               ColumnNames.SOURCE = Ok src →
     pd.column (Lab8.TaskDataset.data (Lab8.LLMPipeline._dataset self))
               ColumnNames.TARGET = Ok tgt →
     (0 < Lab8.LLMPipeline._batch_size self)%Z →
     (∀ texts, generate model (Lab8.LLMPipeline._max_length self) texts
               = Ok (g <$> texts)) →
     (Lab8.LLMPipeline.infer_dataset torch_tensor generate self calls).1
     = Ok (predictions_table tgt (g <$> items8 src))
     ∧ ∀ i sample,
         Lab8.TaskDataset.__getitem__ (Lab8.LLMPipeline._dataset self) i = Ok sample →
         ∃ p, (g <$> items8 src) !! i = Some p
              ∧ (Lab8.LLMPipeline.infer_sample generate self sample calls).1
                = Ok (Some p)).
Proof.
  split.
  - intros torch_tensor classify self model src tgt f calls Hmodel Hsrc Htgt Htexts
      Hbs Hf.
    pose proof (column_length _ _ _ Hsrc) as Hlsrc.
    pose proof (column_length _ _ _ Htgt) as Hltgt.
    split.
    + by apply (infer_pointwise7 torch_tensor classify self model src tgt f).
    + intros i sample. unfold Lab7.TaskDataset.__getitem__, Lab7.TaskDataset.data in *.
      rewrite Hsrc. cbn. unfold pd.iloc.
      destruct (src !! i) as [kv|] eqn:Hi; [|done]. intros [= <-].
      exists (pretty (f kv.2)). split.
      * by rewrite !list_lookup_fmap, Hi.
      * unfold Lab7.LLMPipeline.infer_sample, Lab7.LLMPipeline._infer_batch,
          Lab7.LLMPipeline.run_model, report_time, lift, first_of.
        rewrite Hmodel. unfold mbind, mret, ST_bind, ST_ret. by rewrite Hf.
  - intros torch_tensor generate self model src tgt g calls Hmodel Hsrc Htgt Hbs Hg.
    pose proof (column_length _ _ _ Hsrc) as Hlsrc.
    pose proof (column_length _ _ _ Htgt) as Hltgt.
    split.
    + by apply (infer_pointwise8 torch_tensor generate self model src tgt g).
    + intros i sample. unfold Lab8.TaskDataset.__getitem__, Lab8.TaskDataset.data in *.
      rewrite Hsrc. cbn. unfold pd.iloc.
      destruct (src !! i) as [kv|] eqn:Hi; [|done]. intros [= <-].
      exists (g (VStr (py_str kv.2))). split.
      * unfold items8. by rewrite !list_lookup_fmap, Hi.
      * unfold Lab8.LLMPipeline.infer_sample, Lab8.LLMPipeline._infer_batch,
          Lab8.LLMPipeline.run_model, report_time, lift, first_of.
        rewrite Hmodel. unfold mbind, mret, ST_bind, ST_ret. by rewrite Hg.
Qed.

Lemma infer_dataset_pointwise_witness :
  ((Lab7.LLMPipeline.infer_dataset any_tensor always_toxic pipeline7 []).1
   = Ok (predictions_table [(0%Z, VInt 1); (1%Z, VInt 0); (2%Z, VInt 1)]
           ["1"; "1"; "1"])
   ∧ ∃ p, ["1"; "1"; "1"] !! 2 = Some p
          ∧ (Lab7.LLMPipeline.infer_sample always_toxic pipeline7 [VStr "c"] []).1
            = Ok (Some p))
  ∧ ((Lab8.LLMPipeline.infer_dataset any_tensor always_s pipeline8 []).1
   = Ok (predictions_table [(0%Z, VStr "a"); (1%Z, VStr "b"); (2%Z, VStr "c")]
           ["s"; "s"; "s"])
   ∧ ∃ p, ["s"; "s"; "s"] !! 2 = Some p
          ∧ (Lab8.LLMPipeline.infer_sample always_s pipeline8 [VStr "long c"] []).1
            = Ok (Some p)).
Proof.
  split.
  - destruct (proj1 infer_dataset_pointwise any_tensor always_toxic pipeline7 "bert"
                [(0%Z, VStr "a"); (1%Z, VStr "b"); (2%Z, VStr "c")]
                [(0%Z, VInt 1); (1%Z, VInt 0); (2%Z, VInt 1)] (λ _, 1%Z) [])
      as [Htable Hsample];
      [reflexivity | reflexivity | reflexivity | by repeat constructor | cbn; lia
      | reflexivity |].
    split; [exact Htable | apply (Hsample 2 [VStr "c"]); reflexivity].
  - destruct (proj2 infer_dataset_pointwise any_tensor always_s pipeline8 "t5"
                [(0%Z, VStr "long a"); (1%Z, VStr "long b"); (2%Z, VStr "long c")]
                [(0%Z, VStr "a"); (1%Z, VStr "b"); (2%Z, VStr "c")] (λ _, "s") [])
      as [Htable Hsample];
      [reflexivity | reflexivity | reflexivity | cbn; lia | reflexivity |].
    split; [exact Htable | apply (Hsample 2 [VStr "long c"]); reflexivity].
Defined.

(** ** The evaluator *)

(** X17.  What [run] does before any metric is computed.  Without
    metrics it returns the empty dictionary, whatever the file holds.
    With a first metric that loads and a file without one of the two
    columns it raises [KeyError] and calls no [compute]; lab 7 looks for
    [target] first and lab 8 for [prediction]. *)
Theorem run_before_compute :
  (∀ score read_csv Metric load compute (self : Lab7.TaskEvaluator.t)
       target2pred calls,
     read_csv (Lab7.TaskEvaluator.data_path self) = Ok target2pred →
     (Lab7.TaskEvaluator.metrics self = [] →
      Lab7.TaskEvaluator.run score read_csv Metric load compute self calls
      = (Ok ∅, calls))
     ∧ (∀ metric rest m,
        Lab7.TaskEvaluator.metrics self = metric :: rest →
        load metric = Ok m →
        ((ColumnNames.TARGET : string) ∉ pd.columns target2pred →
         Lab7.TaskEvaluator.run score read_csv Metric load compute self calls
         = (Raise (KeyError "target"), calls))
        ∧ (∀ tgt, pd.column target2pred ColumnNames.TARGET = Ok tgt →
           (ColumnNames.PREDICTION : string) ∉ pd.columns target2pred →
           Lab7.TaskEvaluator.run score read_csv Metric load compute self calls
           = (Raise (KeyError "prediction"), calls))))
  ∧ (∀ score read_csv Metric load compute ROUGE (self : Lab8.TaskEvaluator.t)
       target2pred calls,
     read_csv (Lab8.TaskEvaluator.data_path self) = Ok target2pred →
     (Lab8.TaskEvaluator.metrics self = [] →
      Lab8.TaskEvaluator.run score read_csv Metric load compute ROUGE self calls
      = (Ok ∅, calls))
     ∧ (∀ metric rest m,
        Lab8.TaskEvaluator.metrics self = metric :: rest →
        load metric 77%Z = Ok m →
        ((ColumnNames.PREDICTION : string) ∉ pd.columns target2pred →
         Lab8.TaskEvaluator.run score read_csv Metric load compute ROUGE self calls
         = (Raise (KeyError "prediction"), calls))
        ∧ (∀ prd, pd.column target2pred ColumnNames.PREDICTION = Ok prd →
           (ColumnNames.TARGET : string) ∉ pd.columns target2pred →
           Lab8.TaskEvaluator.run score read_csv Metric load compute ROUGE self calls
           = (Raise (KeyError "target"), calls)))).
Proof.
  split.
  - intros score read_csv Metric load compute self t2p calls Hread.
    unfold Lab7.TaskEvaluator.run, report_time, lift.
    unfold mbind, ST_bind at 1. rewrite Hread.
    split; [by intros ->|].
    intros metric rest m -> Hload.
    change (metric :: rest) with ([] ++ metric :: rest).
    split.
    + intros Hnot.
      apply (ST_foldM_raise _ [] rest metric ∅ ∅ calls calls calls _ eq_refl).
      unfold Lab7.TaskEvaluator.run_metric, lift, mbind, ST_bind.
      rewrite Hload. cbv beta iota. by rewrite (column_missing _ _ Hnot).
    + intros tgt Htgt Hnot.
      apply (ST_foldM_raise _ [] rest metric ∅ ∅ calls calls calls _ eq_refl).
      unfold Lab7.TaskEvaluator.run_metric, lift, mbind, ST_bind.
      rewrite Hload. cbv beta iota. rewrite Htgt. cbv beta iota.
      by rewrite (column_missing _ _ Hnot).
  - intros score read_csv Metric load compute ROUGE self t2p calls Hread.
    unfold Lab8.TaskEvaluator.run, lift.
    unfold mbind, ST_bind at 1. rewrite Hread.
    split; [by intros ->|].
    intros metric rest m -> Hload.
    change (metric :: rest) with ([] ++ metric :: rest).
    split.
    + intros Hnot.
      apply (ST_foldM_raise _ [] rest metric ∅ ∅ calls calls calls _ eq_refl).
      unfold Lab8.TaskEvaluator.run_metric, lift, mbind, ST_bind.
      rewrite Hload. cbv beta iota. by rewrite (column_missing _ _ Hnot).
    + intros prd Hprd Hnot.
      apply (ST_foldM_raise _ [] rest metric ∅ ∅ calls calls calls _ eq_refl).
      unfold Lab8.TaskEvaluator.run_metric, lift, mbind, ST_bind.
      rewrite Hload. cbv beta iota. rewrite Hprd. cbv beta iota.
      by rewrite (column_missing _ _ Hnot).
Qed.

Lemma run_before_compute_witness :
  Lab7.TaskEvaluator.run Z read_predictions string load_but_bleu score_one
    (Lab7.TaskEvaluator.mk "predictions.csv" []) []
  = (Ok ∅, [])
  ∧ Lab7.TaskEvaluator.run Z (λ _, Ok news_table) string load_but_bleu score_one
      evaluator7 []
    = (Raise (KeyError "target"), [])
  ∧ Lab7.TaskEvaluator.run Z (λ _, Ok toxicity_data) string load_but_bleu score_one
      evaluator7 []
    = (Raise (KeyError "prediction"), [])
  ∧ Lab8.TaskEvaluator.run Z read_predictions string (λ name _, load_but_bleu name)
      score_one "rouge" (Lab8.TaskEvaluator.mk "predictions.csv" []) []
    = (Ok ∅, [])
  ∧ Lab8.TaskEvaluator.run Z (λ _, Ok news_table) string (λ name _, load_but_bleu name)
      score_one "rouge" evaluator8 []
    = (Raise (KeyError "prediction"), [])
  ∧ Lab8.TaskEvaluator.run Z (λ _, Ok (pd.from_rows ["prediction"] [[VStr "s"]])) string
      (λ name _, load_but_bleu name) score_one "rouge" evaluator8 []
    = (Raise (KeyError "target"), []).
Proof.
  destruct run_before_compute as [H7 H8].
  split_and!.
  - apply (proj1 (H7 Z read_predictions string load_but_bleu score_one
             (Lab7.TaskEvaluator.mk "predictions.csv" []) predictions_csv []
             eq_refl)).
    reflexivity.
  - apply (proj1 (proj2 (H7 Z (λ _, Ok news_table) string load_but_bleu score_one
             evaluator7 news_table [] eq_refl) "f1" [] "f1" eq_refl eq_refl)).
    compute_done.
  - apply (proj2 (proj2 (H7 Z (λ _, Ok toxicity_data) string load_but_bleu score_one
             evaluator7 toxicity_data [] eq_refl) "f1" [] "f1" eq_refl eq_refl)
             [(0%Z, VInt 1); (1%Z, VInt 0); (2%Z, VInt 1)]);
      [reflexivity | compute_done].
  - apply (proj1 (H8 Z read_predictions string (λ name _, load_but_bleu name)
             score_one "rouge" (Lab8.TaskEvaluator.mk "predictions.csv" [])
             predictions_csv [] eq_refl)).
    reflexivity.
  - apply (proj1 (proj2 (H8 Z (λ _, Ok news_table) string
             (λ name _, load_but_bleu name) score_one "rouge" evaluator8 news_table []
             eq_refl) "rouge" [] "rouge" eq_refl eq_refl)).
    compute_done.
  - apply (proj2 (proj2 (H8 Z (λ _, Ok (pd.from_rows ["prediction"] [[VStr "s"]])) string
             (λ name _, load_but_bleu name) score_one "rouge" evaluator8
             (pd.from_rows ["prediction"] [[VStr "s"]]) []
             eq_refl) "rouge" [] "rouge" eq_refl eq_refl)
             [(0%Z, VStr "s")]);
      [reflexivity | compute_done].
Defined.

(** ** The results of [run] *)

Section lab8_results.
Import Lab8.
Variable score : Type.
Variable Metric : Type.
Variable load : string → Z → res Metric.
Variable compute : Metric → TaskEvaluator.call → res (gmap string score).
Variable ROUGE : string.
Variable target2pred : pd.DataFrame.
Variables tgt prd : pd.Series.
Hypothesis Htgt : pd.column target2pred ColumnNames.TARGET = Ok tgt.
Hypothesis Hprd : pd.column target2pred ColumnNames.PREDICTION = Ok prd.

(** One turn of the loop of lab 8 on a file with both columns. *)
Lemma run_metric8_run (results : gmap string score) (metric : string)
    (calls : list TaskEvaluator.call) :
  TaskEvaluator.run_metric score Metric load compute ROUGE target2pred results metric
    calls
  = match load metric 77%Z with
    | Raise e => (Raise e, calls)
    | Ok m =>
        (result ← compute m (TaskEvaluator.mkCall metric prd tgt);
         v ← TaskEvaluator.dict_get result
                (if decide (metric = ROUGE) then "rougeL" else metric);
         Ok (<[metric := v]> results),
         calls ++ [TaskEvaluator.mkCall metric prd tgt])
    end.
Proof using Htgt Hprd.
  unfold TaskEvaluator.run_metric, TaskEvaluator.run_compute, lift.
  unfold mbind, mret, ST_bind, ST_ret, res_bind.
  destruct (load metric 77%Z) as [m|e]; [|done].
  rewrite Hprd, Htgt.
  destruct (compute m _) as [result|e]; [|done].
  by destruct (decide (metric = ROUGE));
    destruct (TaskEvaluator.dict_get result _).
Qed.

Lemma run8_fold (metrics : list string) (results results' : gmap string score)
    (calls calls' : list TaskEvaluator.call) :
  ST_foldM (TaskEvaluator.run_metric score Metric load compute ROUGE target2pred)
           results metrics calls = (Ok results', calls') →
  calls' = calls ++ ((λ metric, TaskEvaluator.mkCall metric prd tgt) <$> metrics)
  ∧ (∀ k, is_Some (results' !! k) ↔ is_Some (results !! k) ∨ k ∈ metrics)
  ∧ (∀ k v, results' !! k = Some v →
       ((k ∉ metrics) ∧ results !! k = Some v)
       ∨ (k ∈ metrics
          ∧ ∃ m result, load k 77%Z = Ok m
              ∧ compute m (TaskEvaluator.mkCall k prd tgt) = Ok result
              ∧ result !! (if decide (k = ROUGE) then "rougeL" else k) = Some v)).
Proof using Htgt Hprd.
  revert results calls.
  induction metrics as [|metric metrics IH]; intros results calls Hrun.
  - cbn in Hrun. injection Hrun as <- <-. rewrite app_nil_r.
    split_and!; [done | set_solver | set_solver].
  - cbn [ST_foldM] in Hrun. unfold mbind, ST_bind at 1 in Hrun.
    rewrite run_metric8_run in Hrun.
    destruct (load metric 77%Z) as [m|e] eqn:Hload; [|done].
    destruct (compute m _) as [result|e] eqn:Hcompute; [|done].
    cbn in Hrun. unfold TaskEvaluator.dict_get in Hrun.
    destruct (result !! _) as [v|] eqn:Hv; [|done]. cbn in Hrun.
    destruct (IH _ _ Hrun) as (Hcalls & Hkeys & Hvals).
    split_and!.
    + rewrite Hcalls, <- app_assoc. done.
    + intros k. rewrite Hkeys, elem_of_cons.
      destruct (decide (k = metric)) as [->|Hne].
      * rewrite lookup_insert_eq. naive_solver.
      * rewrite lookup_insert_ne by done. naive_solver.
    + intros k v' Hk. destruct (Hvals k v' Hk) as [[Hnot Hres]|[Hin Hscored]].
      * destruct (decide (k = metric)) as [->|Hne].
        -- rewrite lookup_insert_eq in Hres. injection Hres as ->.
           right. split; [set_solver|]. by exists m, result.
        -- rewrite lookup_insert_ne in Hres by done. left. set_solver.
      * right. split; [set_solver | done].
Qed.
End lab8_results.

(** X18.  The dictionary of the lab 8 [run].  On a file with the columns
    [target] and [prediction], a [run] that returns has called [compute]
    once for every metric, in order, with the prediction column as the
    predictions and the target column as the references; the keys of its
    result are the metrics; and the value under a metric is what its
    [compute] gave under [rougeL] for the metric [ROUGE], and under the
    name of the metric otherwise. *)
Theorem run8_results score read_csv Metric
    (load : string → Z → res Metric)
    (compute : Metric → Lab8.TaskEvaluator.call → res (gmap string score))
    (ROUGE : string) (self : Lab8.TaskEvaluator.t) (target2pred : pd.DataFrame)
    (tgt prd : pd.Series) (results : gmap string score)
    (calls calls' : list Lab8.TaskEvaluator.call) :
  read_csv (Lab8.TaskEvaluator.data_path self) = Ok target2pred →
  pd.column target2pred ColumnNames.TARGET = Ok tgt →
  pd.column target2pred ColumnNames.PREDICTION = Ok prd →
  Lab8.TaskEvaluator.run score read_csv Metric load compute ROUGE self calls
  = (Ok results, calls') →
  calls' = calls ++ ((λ metric, Lab8.TaskEvaluator.mkCall metric prd tgt)
                       <$> Lab8.TaskEvaluator.metrics self)
  ∧ (∀ k, is_Some (results !! k) ↔ k ∈ Lab8.TaskEvaluator.metrics self)
  ∧ (∀ k v, results !! k = Some v →
       ∃ m result, load k 77%Z = Ok m
         ∧ compute m (Lab8.TaskEvaluator.mkCall k prd tgt) = Ok result
         ∧ result !! (if decide (k = ROUGE) then "rougeL" else k) = Some v).
Proof.
  intros Hread Htgt Hprd. unfold Lab8.TaskEvaluator.run, lift.
  unfold mbind, ST_bind at 1. rewrite Hread. intros Hrun.
  destruct (run8_fold score Metric load compute ROUGE target2pred tgt prd Htgt Hprd
              _ _ _ _ _ Hrun) as (Hcalls & Hkeys & Hvals).
  split_and!; [done | |].
  - intros k. rewrite Hkeys, lookup_empty. split; [intros [[? [=]]|?]; done | by right].
  - intros k v Hk. destruct (Hvals k v Hk) as [[_ Hempty]|[_ Hscored]]; [|done].
    by rewrite lookup_empty in Hempty.
Qed.

Lemma run8_results_witness :
  [Lab8.TaskEvaluator.mkCall "rouge"
     [(0%Z, VInt 0); (1%Z, VInt 1)] [(0%Z, VInt 1); (1%Z, VInt 1)]]
  = [] ++ ((λ metric, Lab8.TaskEvaluator.mkCall metric
                        [(0%Z, VInt 0); (1%Z, VInt 1)] [(0%Z, VInt 1); (1%Z, VInt 1)])
             <$> Lab8.TaskEvaluator.metrics evaluator8)
  ∧ (∀ k, is_Some ((<["rouge" := 1%Z]> ∅ : gmap string Z) !! k)
          ↔ k ∈ Lab8.TaskEvaluator.metrics evaluator8)
  ∧ (∀ k v, (<["rouge" := 1%Z]> ∅ : gmap string Z) !! k = Some v →
       ∃ m result, (λ name (_ : Z), load_but_bleu name) k 77%Z = Ok m
         ∧ score_one m (Lab8.TaskEvaluator.mkCall k
              [(0%Z, VInt 0); (1%Z, VInt 1)] [(0%Z, VInt 1); (1%Z, VInt 1)]) = Ok result
         ∧ result !! (if decide (k = "rouge") then "rougeL" else k) = Some v).
Proof.
  apply (run8_results Z read_predictions string (λ name _, load_but_bleu name)
           score_one "rouge" evaluator8 predictions_csv
           [(0%Z, VInt 1); (1%Z, VInt 1)] [(0%Z, VInt 0); (1%Z, VInt 1)]
           (<["rouge" := 1%Z]> ∅) []); reflexivity.
Defined.

Section lab7_results.
Import Lab7.
Variable score : Type.
Variable Metric : Type.
Variable load : string → res Metric.
Variable compute : Metric → TaskEvaluator.call → res (gmap string score).
Variable target2pred : pd.DataFrame.
Variables tgt prd : pd.Series.
Hypothesis Htgt : pd.column target2pred ColumnNames.TARGET = Ok tgt.
Hypothesis Hprd : pd.column target2pred ColumnNames.PREDICTION = Ok prd.

(** One turn of the loop of lab 7 on a file with both columns. *)
Lemma run_metric7_run (results : gmap string score) (metric : string)
    (calls : list TaskEvaluator.call) :
  TaskEvaluator.run_metric score Metric load compute target2pred results metric calls
  = match load metric with
    | Raise e => (Raise e, calls)
    | Ok m =>
        (result ← compute m (TaskEvaluator.mkCall metric tgt prd "micro");
         Ok (result ∪ results),
         calls ++ [TaskEvaluator.mkCall metric tgt prd "micro"])
    end.
Proof using Htgt Hprd.
  unfold TaskEvaluator.run_metric, TaskEvaluator.run_compute, lift.
  unfold mbind, mret, ST_bind, ST_ret, res_bind.
  destruct (load metric) as [m|e]; [|done].
  rewrite Hprd, Htgt.
  by destruct (compute m _) as [result|e].
Qed.

Lemma run7_fold (metrics : list string) (results results' : gmap string score)
    (calls calls' : list TaskEvaluator.call) :
  ST_foldM (TaskEvaluator.run_metric score Metric load compute target2pred)
           results metrics calls = (Ok results', calls') →
  ∃ per_metric,
    Forall2 (λ metric result, ∃ m, load metric = Ok m
               ∧ compute m (TaskEvaluator.mkCall metric tgt prd "micro") = Ok result)
            metrics per_metric
    ∧ results' = foldl (λ acc result, result ∪ acc) results per_metric
    ∧ calls' = calls ++ ((λ metric, TaskEvaluator.mkCall metric tgt prd "micro")
                           <$> metrics).
Proof using Htgt Hprd.
  revert results calls.
  induction metrics as [|metric metrics IH]; intros results calls Hrun.
  - cbn in Hrun. injection Hrun as <- <-. exists []. rewrite app_nil_r.
    split_and!; [constructor | done | done].
  - cbn [ST_foldM] in Hrun. unfold mbind, ST_bind at 1 in Hrun.
    rewrite run_metric7_run in Hrun.
    destruct (load metric) as [m|e] eqn:Hload; [|done].
    destruct (compute m _) as [result|e] eqn:Hcompute; [|done].
    cbn in Hrun.
    destruct (IH _ _ Hrun) as (per_metric & Hall & Hres & Hcalls).
    exists (result :: per_metric). split_and!.
    + constructor; [by exists m | done].
    + done.
    + rewrite Hcalls, <- app_assoc. done.
Qed.
End lab7_results.

Lemma foldl_update_last {V} (results : gmap string V) (per_metric : list (gmap string V))
    (result : gmap string V) :
  foldl (λ acc result, result ∪ acc) results (per_metric ++ [result])
  = result ∪ foldl (λ acc result, result ∪ acc) results per_metric.
Proof. by rewrite foldl_app. Qed.

Lemma foldl_update_lookup {V} (results : gmap string V)
    (per_metric : list (gmap string V)) (k : string) (v : V) :
  foldl (λ acc result, result ∪ acc) results per_metric !! k = Some v →
  results !! k = Some v ∨ ∃ result, result ∈ per_metric ∧ result !! k = Some v.
Proof.
  revert results. induction per_metric as [|result per_metric IH]; intros results Hk.
  - by left.
  - cbn in Hk. destruct (IH _ Hk) as [Hu|(result' & Hin & Hv)].
    + apply lookup_union_Some_raw in Hu as [Hv|[_ Hv]].
      * right. exists result. split; [set_solver | done].
      * by left.
    + right. exists result'. split; [set_solver | done].
Qed.

(** X19.  The dictionary of the lab 7 [run].  On a file with the columns
    [target] and [prediction], a [run] that returns has called [compute]
    once for every metric, in order, and its result is the dictionaries
    these calls gave, merged with [update] from the first to the last: the
    keys are the keys of the metric library, every entry comes from one of
    the calls, and the entries of the last call are all there. *)
Theorem run7_results score read_csv Metric
    (load : string → res Metric)
    (compute : Metric → Lab7.TaskEvaluator.call → res (gmap string score))
    (self : Lab7.TaskEvaluator.t) (target2pred : pd.DataFrame)
    (tgt prd : pd.Series) (results : gmap string score)
    (calls calls' : list Lab7.TaskEvaluator.call) :
  read_csv (Lab7.TaskEvaluator.data_path self) = Ok target2pred →
  pd.column target2pred ColumnNames.TARGET = Ok tgt →
  pd.column target2pred ColumnNames.PREDICTION = Ok prd →
  Lab7.TaskEvaluator.run score read_csv Metric load compute self calls
  = (Ok results, calls') →
  ∃ per_metric,
    Forall2 (λ metric result, ∃ m, load metric = Ok m
               ∧ compute m (Lab7.TaskEvaluator.mkCall metric tgt prd "micro")
                 = Ok result)
            (Lab7.TaskEvaluator.metrics self) per_metric
    ∧ calls' = calls ++ ((λ metric, Lab7.TaskEvaluator.mkCall metric tgt prd "micro")
                           <$> Lab7.TaskEvaluator.metrics self)
    ∧ results = foldl (λ acc result, result ∪ acc) ∅ per_metric
    ∧ (∀ k v, results !! k = Some v →
         ∃ result, result ∈ per_metric ∧ result !! k = Some v)
    ∧ (∀ result k v, last per_metric = Some result →
         result !! k = Some v → results !! k = Some v).
Proof.
  intros Hread Htgt Hprd. unfold Lab7.TaskEvaluator.run, report_time, lift.
  unfold mbind, ST_bind at 1. rewrite Hread. intros Hrun.
  destruct (run7_fold score Metric load compute target2pred tgt prd Htgt Hprd
              _ _ _ _ _ Hrun) as (per_metric & Hall & -> & Hcalls).
  exists per_metric. split_and!; [done..| |].
  - intros k v Hk. destruct (foldl_update_lookup _ _ _ _ Hk) as [Hempty|?]; [|done].
    by rewrite lookup_empty in Hempty.
  - intros result k v Hlast Hv.
    apply last_Some in Hlast as [pre ->].
    rewrite foldl_update_last. by apply lookup_union_Some_l.
Qed.

Lemma run7_results_witness :
  ∃ per_metric : list (gmap string Z),
    Forall2 (λ metric result, ∃ m, load_but_bleu metric = Ok m
               ∧ score_one m (Lab7.TaskEvaluator.mkCall metric
                    [(0%Z, VInt 1); (1%Z, VInt 1)] [(0%Z, VInt 0); (1%Z, VInt 1)]
                    "micro") = Ok result)
            (Lab7.TaskEvaluator.metrics evaluator7) per_metric
    ∧ [Lab7.TaskEvaluator.mkCall "f1"
         [(0%Z, VInt 1); (1%Z, VInt 1)] [(0%Z, VInt 0); (1%Z, VInt 1)] "micro"]
      = [] ++ ((λ metric, Lab7.TaskEvaluator.mkCall metric
                  [(0%Z, VInt 1); (1%Z, VInt 1)] [(0%Z, VInt 0); (1%Z, VInt 1)] "micro")
                 <$> Lab7.TaskEvaluator.metrics evaluator7)
    ∧ ({[ "rougeL" := 1%Z ]} ∪ ∅ : gmap string Z)
      = foldl (λ acc result, result ∪ acc) ∅ per_metric
    ∧ (∀ k v, ({[ "rougeL" := 1%Z ]} ∪ ∅ : gmap string Z) !! k = Some v →
         ∃ result, result ∈ per_metric ∧ result !! k = Some v)
    ∧ (∀ result k v, last per_metric = Some result →
         result !! k = Some v →
         ({[ "rougeL" := 1%Z ]} ∪ ∅ : gmap string Z) !! k = Some v).
Proof.
  apply (run7_results Z read_predictions string load_but_bleu score_one evaluator7
           predictions_csv [(0%Z, VInt 1); (1%Z, VInt 1)] [(0%Z, VInt 0); (1%Z, VInt 1)]
           ({[ "rougeL" := 1%Z ]} ∪ ∅) []); reflexivity.
Defined.

(** ** From the raw table to the predictions *)

Lemma values_predictions_table {A} (tgt : pd.Series) (t p : A → value) (xs : list A)
    (preds : list string) :
  tgt.*2 = t <$> xs → VStr <$> preds = p <$> xs →
  pd.values (predictions_table tgt preds) = (λ x, [t x; p x]) <$> xs.
Proof.
  intros Ht Hp. unfold predictions_table, pd.values. cbn [pd.rows]. rewrite Hp. clear Hp.
  revert tgt Ht. induction xs as [|x xs IH]; intros [|kv tgt] Ht; cbn in Ht; try done.
  injection Ht as Hkv Ht. cbn. rewrite Hkv. f_equal. by apply IH.
Qed.

(** X20.  From the raw table to the predictions.  For a raw table with
    full rows and distinct labels that has the columns of the dataset,
    none of the columns [source] and [target], and a name left for the
    old index, [transform] returns; and [infer_dataset] over its result,
    with a model that treats every text on its own and a positive batch
    size, returns a table with the columns [target] and [prediction]
    that has one row for every row of the preprocessed table.  Lab 7,
    when the [neutral] cells are strings: for every row [drop_duplicates]
    kept, the label of its [toxic] cell and the prediction for its
    [neutral] cell.  Lab 8: for every row of the raw table, its [summary]
    cell and the prediction for [str] of its [article_content] cell. *)
Theorem preprocess_then_infer :
  (∀ (σ : state) df torch_tensor classify model (f : value → Z) max_length
       batch_size device calls,
     heap σ !! _raw_data (self σ) = Some df →
     pd.rectangular df → NoDup (pd.columns df) → has_columns7 df →
     "source" ∉ pd.columns df → "target" ∉ pd.columns df →
     ¬ index_names_taken df →
     Forall (λ r, is_text (cell "neutral" (pd.columns df) r)) (pd.values df) →
     (0 < batch_size)%Z →
     (∀ texts, classify model texts = Ok (f <$> texts)) →
     (Lab7.RawDataPreprocessor.transform σ).1 = Ok ()
     ∧ ∃ out table,
         data_of (Lab7.RawDataPreprocessor.transform σ).2 = Some out
         ∧ (Lab7.LLMPipeline.infer_dataset torch_tensor classify
              (Lab7.LLMPipeline.mk (Some model) (Lab7.TaskDataset.mk out)
                 max_length batch_size device) calls).1 = Ok table
         ∧ pd.columns table = ["target"; "prediction"]
         ∧ pd.values table
           = (λ r, [Lab7.RawDataPreprocessor.to_label (cell "toxic" (pd.columns df) r);
                    VStr (pretty (f (cell "neutral" (pd.columns df) r)))])
               <$> pd.values (pd.drop_duplicates df))
  ∧ (∀ (σ : state) df torch_tensor generate model (g : value → string) max_length
       batch_size device calls,
     heap σ !! _raw_data (self σ) = Some df →
     NoDup (pd.columns df) → has_columns8 df →
     "source" ∉ pd.columns df → "target" ∉ pd.columns df →
     ¬ index_names_taken df →
     (0 < batch_size)%Z →
     (∀ texts, generate model max_length texts = Ok (g <$> texts)) →
     (Lab8.RawDataPreprocessor.transform σ).1 = Ok ()
     ∧ ∃ out table,
         data_of (Lab8.RawDataPreprocessor.transform σ).2 = Some out
         ∧ (Lab8.LLMPipeline.infer_dataset torch_tensor generate
              (Lab8.LLMPipeline.mk (Some model) (Lab8.TaskDataset.mk out)
                 max_length batch_size device) calls).1 = Ok table
         ∧ pd.columns table = ["target"; "prediction"]
         ∧ pd.values table
           = (λ r, [cell "summary" (pd.columns df) r;
                    VStr (g (VStr (py_str (cell "article_content" (pd.columns df) r))))])
               <$> pd.values df).
Proof.
  split.
  - intros σ df torch_tensor classify model f ml bs dev calls Hraw Hrect Hnd Hcols
      Hsource Htarget Hindex Htexts Hbs Hf.
    rewrite (transform7_run σ df Hraw). cbn [fst snd]. rewrite data_of_after_transform.
    destruct (transform7_outcome df Hcols) as (_ & _ & _ & _ & Hok).
    split; [by apply Hok|].
    destruct (transform7_source_cells df Hnd Hcols Hsource) as (src & Hsrc & Hsv).
    destruct (transform7_target_cells df Hrect Hnd (proj2 Hcols) Htarget)
      as (tgt & Htgt & Htv).
    eexists _, _. split; [done|]. split.
    { apply (infer_pointwise7 torch_tensor classify _ model src tgt f); try done.
      rewrite Hsv. apply Forall_fmap, Forall_forall. intros r Hr.
      rewrite Forall_forall in Htexts. apply Htexts.
      unfold pd.values, pd.drop_duplicates in *. cbn [pd.rows] in Hr.
      eapply elem_of_sublist; [exact Hr|]. apply fmap_sublist, keep_first_sublist. }
    split; [done|].
    apply values_predictions_table.
    + by rewrite Htv, <- list_fmap_compose.
    + by rewrite Hsv, <- !list_fmap_compose.
  - intros σ df torch_tensor generate model g ml bs dev calls Hraw Hnd Hcols Hsource
      Htarget Hindex Hbs Hg.
    rewrite (transform8_run σ df Hraw). cbn [fst snd]. rewrite data_of_after_transform.
    destruct (transform8_outcome df Hcols) as (_ & _ & Hok).
    split; [by apply Hok|].
    destruct (transform8_cells df Hnd Hcols Hsource Htarget)
      as (src & tgt & Hsrc & Htgt & Hsv & Htv).
    eexists _, _. split; [done|]. split.
    { by apply (infer_pointwise8 torch_tensor generate _ model src tgt g). }
    split; [done|].
    apply values_predictions_table.
    + done.
    + unfold items8. by rewrite Hsv, <- !list_fmap_compose.
Qed.

Lemma preprocess_then_infer_witness :
  ((Lab7.RawDataPreprocessor.transform (store_of toxicity_table)).1 = Ok ()
   ∧ ∃ out table,
       data_of (Lab7.RawDataPreprocessor.transform (store_of toxicity_table)).2
       = Some out
       ∧ (Lab7.LLMPipeline.infer_dataset any_tensor always_toxic
            (Lab7.LLMPipeline.mk (Some "bert") (Lab7.TaskDataset.mk out) 120 2 "cpu")
            []).1 = Ok table
       ∧ pd.columns table = ["target"; "prediction"]
       ∧ pd.values table
         = (λ r, [Lab7.RawDataPreprocessor.to_label
                    (cell "toxic" (pd.columns toxicity_table) r);
                  VStr (pretty ((λ _ : value, 1%Z)
                                  (cell "neutral" (pd.columns toxicity_table) r)))])
             <$> pd.values (pd.drop_duplicates toxicity_table))
  ∧ ((Lab8.RawDataPreprocessor.transform (store_of news_table)).1 = Ok ()
   ∧ ∃ out table,
       data_of (Lab8.RawDataPreprocessor.transform (store_of news_table)).2 = Some out
       ∧ (Lab8.LLMPipeline.infer_dataset any_tensor always_s
            (Lab8.LLMPipeline.mk (Some "t5") (Lab8.TaskDataset.mk out) 120 2 "cpu")
            []).1 = Ok table
       ∧ pd.columns table = ["target"; "prediction"]
       ∧ pd.values table
         = (λ r, [cell "summary" (pd.columns news_table) r;
                  VStr ((λ _ : value, "s")
                          (VStr (py_str (cell "article_content"
                                           (pd.columns news_table) r))))])
             <$> pd.values news_table).
Proof.
  split.
  - apply (proj1 preprocess_then_infer (store_of toxicity_table) toxicity_table
             any_tensor always_toxic "bert" (λ _, 1%Z) 120%Z 2%Z "cpu" []).
    + reflexivity.
    + unfold pd.rectangular. vm_compute. repeat constructor.
    + compute_done.
    + unfold has_columns7. vm_compute. split; repeat constructor.
    + compute_done.
    + compute_done.
    + unfold index_names_taken. compute_done.
    + vm_compute. by repeat constructor.
    + lia.
    + reflexivity.
  - apply (proj2 preprocess_then_infer (store_of news_table) news_table
             any_tensor always_s "t5" (λ _, "s") 120%Z 2%Z "cpu" []).
    + reflexivity.
    + compute_done.
    + unfold has_columns8. vm_compute. repeat constructor.
    + compute_done.
    + compute_done.
    + unfold index_names_taken. compute_done.
    + lia.
    + reflexivity.
Defined.

(** ** The preprocessor called again *)

Lemma after_transform_twice (σ : state) (out out' : pd.DataFrame) :
  let σ1 := after_transform σ out in
  let σ2 := after_transform σ1 out' in
  ∃ d1 d2, _data (self σ1) = Some d1 ∧ _data (self σ2) = Some d2 ∧ d1 ≠ d2
    ∧ heap σ2 !! d1 = Some out.
Proof.
  cbn zeta. unfold after_transform at 1 3 4. cbn [self heap _data].
  set (d1 := fresh (dom (heap σ))).
  set (σ1 := after_transform σ out).
  set (d2 := fresh (dom (heap σ1))).
  assert (d1 ∈ dom (heap σ1)) as Hd1.
  { unfold σ1, after_transform. cbn [heap]. fold d1. set_solver. }
  assert (d1 ≠ d2) as Hne.
  { intros Heq. rewrite Heq in Hd1. by apply is_fresh in Hd1. }
  exists d1, d2. split_and!; [done..|].
  rewrite lookup_insert_ne by done.
  unfold σ1, after_transform. cbn [heap]. fold d1. by rewrite lookup_insert_eq.
Qed.

(** X21.  The preprocessor called again.  With a raw table in place,
    [analyze] after [transform] gives what it gave before, and a second
    [transform] gives the result of the first: the same exception or
    none, and a table equal to the first one in a new object, while the
    object of the first call keeps its cells.  In both labs. *)
Theorem transform_again :
  (∀ (σ : state) df,
     heap σ !! _raw_data (self σ) = Some df →
     let σ1 := (Lab7.RawDataPreprocessor.transform σ).2 in
     let σ2 := (Lab7.RawDataPreprocessor.transform σ1).2 in
     (Lab7.RawDataPreprocessor.analyze σ1).1 = (Lab7.RawDataPreprocessor.analyze σ).1
     ∧ (Lab7.RawDataPreprocessor.transform σ1).1
       = (Lab7.RawDataPreprocessor.transform σ).1
     ∧ data_of σ2 = data_of σ1
     ∧ ∃ d1 d2, _data (self σ1) = Some d1 ∧ _data (self σ2) = Some d2 ∧ d1 ≠ d2
         ∧ heap σ2 !! d1 = heap σ1 !! d1)
  ∧ (∀ (σ : state) df,
     heap σ !! _raw_data (self σ) = Some df →
     let σ1 := (Lab8.RawDataPreprocessor.transform σ).2 in
     let σ2 := (Lab8.RawDataPreprocessor.transform σ1).2 in
     (Lab8.RawDataPreprocessor.analyze σ1).1 = (Lab8.RawDataPreprocessor.analyze σ).1
     ∧ (Lab8.RawDataPreprocessor.transform σ1).1
       = (Lab8.RawDataPreprocessor.transform σ).1
     ∧ data_of σ2 = data_of σ1
     ∧ ∃ d1 d2, _data (self σ1) = Some d1 ∧ _data (self σ2) = Some d2 ∧ d1 ≠ d2
         ∧ heap σ2 !! d1 = heap σ1 !! d1).
Proof.
  split.
  - intros σ df Hraw. cbn zeta.
    rewrite (transform7_run σ df Hraw). cbn [snd fst].
    set (out := (transform7_steps df).2).
    assert (heap (after_transform σ out) !! _raw_data (self (after_transform σ out))
            = Some df) as Hraw1.
    { change (_raw_data (self (after_transform σ out))) with (_raw_data (self σ)).
      rewrite <- Hraw. apply after_transform_raw. by rewrite Hraw. }
    rewrite (transform7_run _ df Hraw1). cbn [snd fst].
    split_and!.
    + unfold Lab7.RawDataPreprocessor.analyze.
      by rewrite (analyze_column_run _ _ df Hraw1), (analyze_column_run _ _ df Hraw).
    + done.
    + by rewrite !data_of_after_transform.
    + destruct (after_transform_twice σ out out) as (d1 & d2 & H1 & H2 & Hne & Hd1).
      exists d1, d2. split_and!; [exact H1 | exact H2 | done |].
      transitivity (Some out); [exact Hd1|].
      unfold after_transform in H1 |- *. cbn [self heap _data] in H1 |- *.
      injection H1 as <-. by rewrite lookup_insert_eq.
  - intros σ df Hraw. cbn zeta.
    rewrite (transform8_run σ df Hraw). cbn [snd fst].
    set (out := (transform8_steps df).2).
    assert (heap (after_transform σ out) !! _raw_data (self (after_transform σ out))
            = Some df) as Hraw1.
    { change (_raw_data (self (after_transform σ out))) with (_raw_data (self σ)).
      rewrite <- Hraw. apply after_transform_raw. by rewrite Hraw. }
    rewrite (transform8_run _ df Hraw1). cbn [snd fst].
    split_and!.
    + unfold Lab8.RawDataPreprocessor.analyze.
      by rewrite (analyze_column_run _ _ df Hraw1), (analyze_column_run _ _ df Hraw).
    + done.
    + by rewrite !data_of_after_transform.
    + destruct (after_transform_twice σ out out) as (d1 & d2 & H1 & H2 & Hne & Hd1).
      exists d1, d2. split_and!; [exact H1 | exact H2 | done |].
      transitivity (Some out); [exact Hd1|].
      unfold after_transform in H1 |- *. cbn [self heap _data] in H1 |- *.
      injection H1 as <-. by rewrite lookup_insert_eq.
Qed.

Lemma transform_again_witness :
  (let σ1 := (Lab7.RawDataPreprocessor.transform (store_of toxicity_table)).2 in
   let σ2 := (Lab7.RawDataPreprocessor.transform σ1).2 in
   (Lab7.RawDataPreprocessor.analyze σ1).1
   = (Lab7.RawDataPreprocessor.analyze (store_of toxicity_table)).1
   ∧ (Lab7.RawDataPreprocessor.transform σ1).1
     = (Lab7.RawDataPreprocessor.transform (store_of toxicity_table)).1
   ∧ data_of σ2 = data_of σ1
   ∧ ∃ d1 d2, _data (self σ1) = Some d1 ∧ _data (self σ2) = Some d2 ∧ d1 ≠ d2
       ∧ heap σ2 !! d1 = heap σ1 !! d1)
  ∧ (let σ1 := (Lab8.RawDataPreprocessor.transform (store_of news_table)).2 in
   let σ2 := (Lab8.RawDataPreprocessor.transform σ1).2 in
   (Lab8.RawDataPreprocessor.analyze σ1).1
   = (Lab8.RawDataPreprocessor.analyze (store_of news_table)).1
   ∧ (Lab8.RawDataPreprocessor.transform σ1).1
     = (Lab8.RawDataPreprocessor.transform (store_of news_table)).1
   ∧ data_of σ2 = data_of σ1
   ∧ ∃ d1 d2, _data (self σ1) = Some d1 ∧ _data (self σ2) = Some d2 ∧ d1 ≠ d2
       ∧ heap σ2 !! d1 = heap σ1 !! d1).
Proof.
  split.
  - apply (proj1 transform_again (store_of toxicity_table) toxicity_table). reflexivity.
  - apply (proj2 transform_again (store_of news_table) news_table). reflexivity.
Defined.

(** ** No name left for the old index *)

Lemma reset_index_taken (df : pd.DataFrame) :
  "index" ∈ pd.columns df → "level_0" ∈ pd.columns df →
  pd.reset_index df = Raise (ValueError "cannot insert level_0, already exists").
Proof.
  intros Hindex Hlevel. unfold pd.reset_index.
  rewrite (decide_True (P := "index" ∈ pd.columns df)) by done.
  by rewrite decide_True.
Qed.

(** X22.  A raw table that has the columns of the dataset and both a
    column [index] and a column [level_0] cannot be preprocessed:
    [transform] raises the [ValueError] of [reset_index], and [_data] is
    left with the table of the steps before, the rows under their old
    index labels.  In both labs. *)
Theorem transform_index_names_taken :
  (∀ (σ : state) df,
     heap σ !! _raw_data (self σ) = Some df →
     has_columns7 df → index_names_taken df →
     ∃ msg out,
       (Lab7.RawDataPreprocessor.transform σ).1 = Raise (ValueError msg)
       ∧ data_of (Lab7.RawDataPreprocessor.transform σ).2 = Some out
       ∧ length (pd.columns out) = length (pd.columns df)
       ∧ pd.index out = pd.index (pd.drop_duplicates df))
  ∧ (∀ (σ : state) df,
     heap σ !! _raw_data (self σ) = Some df →
     has_columns8 df → index_names_taken df →
     ∃ msg out,
       (Lab8.RawDataPreprocessor.transform σ).1 = Raise (ValueError msg)
       ∧ data_of (Lab8.RawDataPreprocessor.transform σ).2 = Some out
       ∧ pd.columns out
         = pd.rename_label [("article_content", ColumnNames.SOURCE : string);
                            ("summary", ColumnNames.TARGET : string)]
             <$> filter (λ c, c ∉ ["title"; "date"; "url"]) (pd.columns df)
       ∧ pd.index out = pd.index df).
Proof.
  split.
  - intros σ df Hraw [Hneutral Htoxic] [Hindex Hlevel].
    rewrite (transform7_run σ df Hraw). cbn [fst snd]. rewrite data_of_after_transform.
    destruct (rename7_canonical (pd.columns df)) as (_ & Hin & _).
    rewrite transform7_steps_labelled by (by apply Hin).
    rewrite reset_index_taken.
    + eexists _, _. split_and!; [done..| |].
      * unfold labelled7. cbn. by rewrite length_fmap.
      * unfold labelled7, pd.index. cbn. by rewrite <- list_fmap_compose.
    + unfold labelled7. cbn. apply list_elem_of_fmap. by exists "index".
    + unfold labelled7. cbn. apply list_elem_of_fmap. by exists "level_0".
  - intros σ df Hraw Hcols [Hindex Hlevel].
    rewrite (transform8_run σ df Hraw). cbn [fst snd]. rewrite data_of_after_transform.
    destruct (transform8_steps_renamed df Hcols) as (df1 & Hdrop & Hc1 & _ & Hi1 & ->).
    rewrite reset_index_taken.
    + eexists _, _. split_and!; [done..| |].
      * cbn. by rewrite Hc1.
      * done.
    + cbn. rewrite Hc1. apply list_elem_of_fmap. exists "index". split; [done|].
      apply list_elem_of_filter. split; [compute_done | done].
    + cbn. rewrite Hc1. apply list_elem_of_fmap. exists "level_0". split; [done|].
      apply list_elem_of_filter. split; [compute_done | done].
Qed.

Lemma transform_index_names_taken_witness :
  (∃ msg out,
     (Lab7.RawDataPreprocessor.transform (store_of indexed7)).1 = Raise (ValueError msg)
     ∧ data_of (Lab7.RawDataPreprocessor.transform (store_of indexed7)).2 = Some out
     ∧ length (pd.columns out) = length (pd.columns indexed7)
     ∧ pd.index out = pd.index (pd.drop_duplicates indexed7))
  ∧ (∃ msg out,
     (Lab8.RawDataPreprocessor.transform (store_of indexed8)).1 = Raise (ValueError msg)
     ∧ data_of (Lab8.RawDataPreprocessor.transform (store_of indexed8)).2 = Some out
     ∧ pd.columns out
       = pd.rename_label [("article_content", ColumnNames.SOURCE : string);
                          ("summary", ColumnNames.TARGET : string)]
           <$> filter (λ c, c ∉ ["title"; "date"; "url"]) (pd.columns indexed8)
     ∧ pd.index out = pd.index indexed8).
Proof.
  split.
  - apply (proj1 transform_index_names_taken (store_of indexed7) indexed7).
    + reflexivity.
    + unfold has_columns7. compute_done.
    + unfold index_names_taken. compute_done.
  - apply (proj2 transform_index_names_taken (store_of indexed8) indexed8).
    + reflexivity.
    + unfold has_columns8. compute_done.
    + unfold index_names_taken. compute_done.
Defined.
